(** * Request handlers of the community / business / jobs platform

    A shallow embedding of the backend handlers under
    [supabase/functions/] (manage-jobs, create-post, create-business,
    mobile-auth, manage-community, the gate of admin-manage), of the
    trigger on profiles and of the row-level policy on jobs, over an
    explicit model of the managed datastore, followed by the properties
    claimed of them.

    Conventions of the embedding.
    - A handler is a function from a request and a [World] to a response
      and the next [World]; the world holds the datastore tables and a
      counter of the effects performed so far.
    - Whatever a handler takes from outside its own source text is read
      from an [Env]: whether the datastore refuses a call, the identifiers
      and timestamps it generates, the clock, the random session tokens,
      the SQL function [validate_session] and the SHA-256 digest.
    - [return new Response(...)] in the middle of a handler and [throw]
      are the two non-local exits of the monad [M]; the [catch] block of
      each handler is applied by [serve].
    - Response headers (CORS, content type) and [console] output are not
      part of the model. *)

From Stdlib Require Import List String Ascii ZArith NArith Bool Lia Permutation.
Import ListNotations.
Local Open Scope Z_scope.
Local Open Scope string_scope.

Set Implicit Arguments.

(** ** JavaScript values *)

Definition uuid := string.
Definition timestamp := Z.

(** Free text is a sequence of UTF-16 code units, as in a JavaScript string. *)
Definition text := list N.

Definition text_of_string (s : string) : text :=
  map N_of_ascii (list_ascii_of_string s).

(** A property of a JSON body: missing, [null], or a value.  The
    properties on which a handler calls a method of strings hold a
    [jtext] (below), the others a value of the type the frontend's
    interfaces give them. *)
Inductive field (A : Type) : Type :=
| Absent
| Null
| Val (a : A).
Arguments Absent {A}.
Arguments Null {A}.

Definition field_value {A} (f : field A) : option A :=
  match f with Val a => Some a | _ => None end.

(** [WhiteSpace] and [LineTerminator] of ECMAScript, the characters
    [String.prototype.trim] strips. *)
Definition is_white_space (c : N) : bool :=
  existsb (N.eqb c)
    [9; 10; 11; 12; 13; 32; 160; 5760; 8232; 8233; 8239; 8287; 12288; 65279]%N
  || ((8192 <=? c)%N && (c <=? 8202)%N).

Fixpoint trim_start (t : text) : text :=
  match t with
  | [] => []
  | c :: r => if is_white_space c then trim_start r else t
  end.

Definition trim_end (t : text) : text := rev (trim_start (rev t)).

Definition trim (t : text) : text := trim_end (trim_start t).

Definition is_empty {A} (l : list A) : bool :=
  match l with [] => true | _ => false end.

(** Truthiness of a string and of a string-or-null. *)
Definition truthy (s : string) : bool := negb (s =? "").

Definition truthy_opt (o : option string) : bool :=
  match o with Some s => truthy s | None => false end.

(** A JSON value in a property that the handlers take for text: a
    string, or a value of another type -- a number, a boolean, an array,
    an object --, kept as the text the datastore stores for it in a
    column of type text. *)
Inductive jtext : Type :=
| Str (t : text)
| NotStr (stored_as : text).

Definition stored (v : jtext) : text :=
  match v with Str t => t | NotStr t => t end.

(** [x || null] on a string-or-undefined: the empty string is falsy.
    Hence [!x] is [or_null x = None]. *)
Definition or_null (o : option text) : option text :=
  match o with
  | Some t => if is_empty t then None else Some t
  | None => None
  end.

(** The message of the [TypeError] that a call of [callee] raises on a
    value without such a method, in the wording of V8, the engine of the
    runtime. *)
Definition not_a_function (callee : string) : string :=
  callee ++ " is not a function".

(** [s || null] on a string property. *)
Definition str_or_null (f : field string) : option string :=
  match f with Val s => if truthy s then Some s else None | _ => None end.

(** [n || null] on a number property: zero is falsy. *)
Definition num_or_null (f : field Z) : option Z :=
  match f with Val n => if (n =? 0)%Z then None else Some n | _ => None end.

(** A value that reaches a [catch] block: an instance of [Error] carrying
    its message, or any other object. *)
Inductive thrown : Type :=
| ErrorInstance (message : string)
| NotAnError.

(** ** Datastore rows *)

Inductive job_status : Type := Open | Closed.

Definition job_status_eqb (a b : job_status) : bool :=
  match a, b with Open, Open | Closed, Closed => true | _, _ => false end.

(** The enum [job_status] of the jobs table; any other label is refused by
    the datastore. *)
Definition parse_job_status (s : string) : option job_status :=
  if s =? "open" then Some Open
  else if s =? "closed" then Some Closed
  else None.

Record Profile : Type := {
  p_id : uuid;
  p_full_name : option string;
  p_username : option string;
  p_avatar_url : option string;
  p_mobile_number : option string;
  p_email : option string;
  p_date_of_birth : option string;
  p_is_online : bool
}.

Record Credentials : Type := {
  c_id : uuid;
  c_mobile_number : string;
  c_password_hash : string
}.

Record Session : Type := {
  s_user_id : uuid;
  s_session_token : string;
  s_expires_at : timestamp;
  s_is_active : bool
}.

Record UserRole : Type := {
  r_user_id : uuid;
  r_role : string
}.

Record Job : Type := {
  j_id : uuid;
  j_creator_id : uuid;
  j_title : text;
  j_description : text;
  j_conditions : option text;
  j_location : option text;
  j_max_applications : option Z;
  j_expires_at : option timestamp;
  j_status : job_status;
  j_approval_status : option string;
  j_created_at : timestamp;
  j_updated_at : timestamp
}.

Record Application : Type := {
  a_id : uuid;
  a_job_id : uuid;
  a_applicant_id : uuid;
  a_message : option text;
  a_education_qualification : option text;
  a_experience_details : option text;
  a_creator_reply : option string;
  a_replied_at : option timestamp;
  a_created_at : timestamp
}.

Record Business : Type := {
  b_id : uuid;
  b_owner_id : uuid;
  b_name : string;
  b_description : option string;
  b_category : string;
  b_location : option string;
  b_logo_url : option string;
  b_cover_image_url : option string;
  b_website_url : option string;
  b_instagram_link : option string;
  b_youtube_link : option string;
  b_approval_status : option string
}.

Record Post : Type := {
  post_id : uuid;
  post_user_id : uuid;
  post_content : option string;
  post_image_url : option string;
  post_youtube_url : option string;
  post_created_at : timestamp
}.

Record Store : Type := {
  profiles : list Profile;
  user_credentials : list Credentials;
  user_sessions : list Session;
  user_roles : list UserRole;
  jobs : list Job;
  job_applications : list Application;
  businesses : list Business;
  posts : list Post
}.

Definition empty_store : Store :=
  {| profiles := []; user_credentials := []; user_sessions := [];
     user_roles := []; jobs := []; job_applications := [];
     businesses := []; posts := [] |}.

Definition set_profiles (s : Store) (l : list Profile) : Store :=
  {| profiles := l; user_credentials := user_credentials s;
     user_sessions := user_sessions s; user_roles := user_roles s;
     jobs := jobs s; job_applications := job_applications s;
     businesses := businesses s; posts := posts s |}.

Definition set_user_credentials (s : Store) (l : list Credentials) : Store :=
  {| profiles := profiles s; user_credentials := l;
     user_sessions := user_sessions s; user_roles := user_roles s;
     jobs := jobs s; job_applications := job_applications s;
     businesses := businesses s; posts := posts s |}.

Definition set_user_sessions (s : Store) (l : list Session) : Store :=
  {| profiles := profiles s; user_credentials := user_credentials s;
     user_sessions := l; user_roles := user_roles s;
     jobs := jobs s; job_applications := job_applications s;
     businesses := businesses s; posts := posts s |}.

Definition set_jobs (s : Store) (l : list Job) : Store :=
  {| profiles := profiles s; user_credentials := user_credentials s;
     user_sessions := user_sessions s; user_roles := user_roles s;
     jobs := l; job_applications := job_applications s;
     businesses := businesses s; posts := posts s |}.

Definition set_job_applications (s : Store) (l : list Application) : Store :=
  {| profiles := profiles s; user_credentials := user_credentials s;
     user_sessions := user_sessions s; user_roles := user_roles s;
     jobs := jobs s; job_applications := l;
     businesses := businesses s; posts := posts s |}.

Definition set_businesses (s : Store) (l : list Business) : Store :=
  {| profiles := profiles s; user_credentials := user_credentials s;
     user_sessions := user_sessions s; user_roles := user_roles s;
     jobs := jobs s; job_applications := job_applications s;
     businesses := l; posts := posts s |}.

Definition set_posts (s : Store) (l : list Post) : Store :=
  {| profiles := profiles s; user_credentials := user_credentials s;
     user_sessions := user_sessions s; user_roles := user_roles s;
     jobs := jobs s; job_applications := job_applications s;
     businesses := businesses s; posts := l |}.

(** ** The environment and the world *)

(** [fault_at n] is the refusal, if any, with which the datastore answers
    the [n]-th effect of a run: a lost connection, or the violation of a
    constraint of a table whose declaration is not among the sources.
    A refused call leaves the tables as they were.  [pg_is_Error] tells
    whether the client library reports datastore errors as instances of
    [Error] (it does from some release of the 2.x line on, and the
    handlers import the unpinned [@2]).  [configured] tells whether
    [SUPABASE_URL] and [SUPABASE_SERVICE_ROLE_KEY] are set. *)
Record Env : Type := {
  configured : bool;
  fault_at : nat -> option string;
  pg_is_Error : bool;
  uuid_at : nat -> uuid;
  clock_at : nat -> timestamp;
  token_at : nat -> string;
  validate_session : Store -> timestamp -> string -> option uuid;
  sha256_hex : string -> string
}.

Record World : Type := {
  db : Store;
  tick : nat
}.

Definition next (w : World) (s : Store) : World :=
  {| db := s; tick := S (tick w) |}.

(** The datastore answers every call of the run. *)
Definition responsive (env : Env) : Prop :=
  forall n, fault_at env n = None.

(** ** Answers of the datastore client: [{ data, error }] *)

Inductive answer (A : Type) : Type :=
| Data (a : A)
| Failed (message : string).
Arguments Failed {A}.

(** [data] with [null] in case of an error. *)
Definition data_of {A} (r : answer A) : option A :=
  match r with Data a => Some a | Failed _ => None end.

(** [data || []] *)
Definition rows_of {A} (r : answer (list A)) : list A :=
  match r with Data l => l | Failed _ => [] end.

(** The message of the error (code PGRST116) with which [.single()] and
    [.maybeSingle()] answer a wrong number of rows; its wording varies with
    the release of the datastore, and no property below depends on it. *)
Definition row_count_error : string :=
  "JSON object requested, multiple (or no) rows returned".

(** [.single()]: exactly one row, or an error. *)
Definition single {A} (rows : list A) : answer A :=
  match rows with
  | [r] => Data r
  | _ => Failed row_count_error
  end.

(** [.maybeSingle()]: no row gives [null], several rows give an error. *)
Definition maybeSingle {A} (rows : list A) : answer (option A) :=
  match rows with
  | [] => Data None
  | [r] => Data (Some r)
  | _ => Failed row_count_error
  end.

(** [.order(key, { ascending: false })], by insertion; rows with equal
    keys keep their relative order. *)
Fixpoint insert_desc {A} (key : A -> Z) (x : A) (l : list A) : list A :=
  match l with
  | [] => [x]
  | y :: r => if (key y <=? key x)%Z then x :: l else y :: insert_desc key x r
  end.

Definition order_desc {A} (key : A -> Z) (l : list A) : list A :=
  fold_right (insert_desc key) [] l.

(** ** The handler monad *)

(** What a step of a handler produces: a value, a response returned
    before the end of the handler, or a thrown value. *)
Inductive outcome (R A : Type) : Type :=
| Value (a : A)
| Returned (r : R)
| Threw (e : thrown).
Arguments Value {R A}.
Arguments Returned {R A}.
Arguments Threw {R A}.

Definition M (R A : Type) : Type := World -> outcome R A * World.

Definition ret {R A} (a : A) : M R A := fun w => (Value a, w).

Definition bind {R A B} (c : M R A) (k : A -> M R B) : M R B :=
  fun w =>
    match c w with
    | (Value a, w') => k a w'
    | (Returned r, w') => (Returned r, w')
    | (Threw e, w') => (Threw e, w')
    end.

Notation "x <- c ;; k" := (bind c (fun x => k))
  (at level 61, c at next level, right associativity).
Notation "c ;;; k" := (bind c (fun _ => k))
  (at level 61, right associativity).

(** [return new Response(...)] *)
Definition respond {R A} (r : R) : M R A := fun w => (Returned r, w).

(** [throw e] *)
Definition throw {R A} (e : thrown) : M R A := fun w => (Threw e, w).

Fixpoint mapM {R A B} (f : A -> M R B) (l : list A) : M R (list B) :=
  match l with
  | [] => ret []
  | x :: r => y <- f x ;; ys <- mapM f r ;; ret (y :: ys)
  end.

Section Effects.
Variable env : Env.
Variable R : Type.

(** [new Date()], in milliseconds. *)
Definition date_now : M R timestamp :=
  fun w => (Value (clock_at env (tick w)), next w (db w)).

(** One awaited call of the datastore client. *)
Definition call {A} (q : Store -> answer A * Store) : M R (answer A) :=
  fun w =>
    match fault_at env (tick w) with
    | Some msg => (Value (Failed msg), next w (db w))
    | None => let (r, s) := q (db w) in (Value r, next w s)
    end.

(** A call that only reads. *)
Definition select {A} (q : Store -> answer A) : M R (answer A) :=
  call (fun s => (q s, s)).

(** A call that writes and reports no rows. *)
Definition write (f : Store -> Store) : M R (answer unit) :=
  call (fun s => (Data tt, f s)).

(** An insert: the datastore generates the row's [id] and [created_at]. *)
Definition insert {A} (q : uuid -> timestamp -> Store -> answer A * Store)
  : M R (answer A) :=
  fun w => call (q (uuid_at env (tick w)) (clock_at env (tick w))) w.

(** [supabase.rpc("validate_session", { p_session_token })] *)
Definition rpc_validate_session (token : string) : M R (answer (option uuid)) :=
  fun w =>
    select (fun s => Data (validate_session env s (clock_at env (tick w)) token)) w.

(** [crypto.getRandomValues], rendered in hexadecimal. *)
Definition generateSessionToken : M R string :=
  fun w => (Value (token_at env (tick w)), next w (db w)).

(** The error object the client library hands back for a refusal. *)
Definition pg_error (message : string) : thrown :=
  if pg_is_Error env then ErrorInstance message else NotAnError.

(** [if (error) throw error] *)
Definition or_throw {A} (r : answer A) : M R A :=
  match r with
  | Data a => ret a
  | Failed m => throw (pg_error m)
  end.
End Effects.

Arguments date_now env {R}.
Arguments call env {R A}.
Arguments select env {R A}.
Arguments write env {R}.
Arguments insert env {R A}.
Arguments rpc_validate_session env {R}.
Arguments generateSessionToken env {R}.
Arguments or_throw env {R A}.

(** The body of a request, as [req.json()] finds it. *)
Inductive parsed (B : Type) : Type :=
| Json (b : B)
| Malformed (syntax_error : string).
Arguments Malformed {B}.

(** [await req.json()]: a body that does not parse throws a [SyntaxError]. *)
Definition req_json {R B} (p : parsed B) : M R B :=
  match p with
  | Json b => ret b
  | Malformed m => throw (ErrorInstance m)
  end.

(** [x?.trim()] on a property of the body: [undefined] (here [None]) when
    the property is missing or null, the trimmed string for a string, and
    a [TypeError] for a value of any other type, which has no method
    [trim]. *)
Definition optional_trim {R} (callee : string) (f : field jtext)
  : M R (option text) :=
  match f with
  | Val (Str t) => ret (Some (trim t))
  | Val (NotStr _) => throw (ErrorInstance (not_a_function callee))
  | _ => ret None
  end.

(** [userId && id === userId] *)
Definition is_user (userId : option uuid) (id : uuid) : bool :=
  match userId with
  | Some u => truthy u && (id =? u)
  | None => false
  end.

(** Lookup of the row a foreign key points to, for embedded selects. *)
Definition profile_of (s : Store) (id : uuid) : option Profile :=
  find (fun p => p_id p =? id) (profiles s).

Definition job_of (s : Store) (id : uuid) : option Job :=
  find (fun j => j_id j =? id) (jobs s).

(** * manage-jobs *)

Module ManageJobs.

Record Body : Type := {
  action : field string;
  job_id : field string;
  title : field jtext;
  description : field jtext;
  conditions : field jtext;
  location : field jtext;
  max_applications : field Z;
  expires_at : field timestamp;
  new_status : field string;  (* the key [status] of the body *)
  message : field jtext;
  education_qualification : field jtext;
  experience_details : field jtext;
  application_id : field string;
  reply_type : field string
}.

Record Request : Type := {
  method : string;
  x_session_token : option string;
  json : parsed Body
}.

(** [profiles:creator_id (id, full_name, username, avatar_url)] *)
Record ProfileCard : Type := {
  pc_id : uuid;
  pc_full_name : option string;
  pc_username : option string;
  pc_avatar_url : option string
}.

(** [(id, full_name, username, avatar_url, mobile_number, email)] *)
Record ApplicantCard : Type := {
  ac_id : uuid;
  ac_full_name : option string;
  ac_username : option string;
  ac_avatar_url : option string;
  ac_mobile_number : option string;
  ac_email : option string
}.

(** A job row with its embedded creator profile. *)
Record JobRow : Type := {
  jr_job : Job;
  jr_profiles : option ProfileCard
}.

(** [{ ...job, application_count, has_applied }]; [my_jobs] sets no
    [has_applied]. *)
Record JobView : Type := {
  jv_row : JobRow;
  jv_application_count : Z;
  jv_has_applied : option bool
}.

(** An application with the embedded profile of its applicant. *)
Record ApplicationView : Type := {
  av_application : Application;
  av_profiles : option ApplicantCard
}.

(** [jobs:job_id (id, title, creator_id, status, approval_status)] *)
Record JobBrief : Type := {
  jb_id : uuid;
  jb_title : text;
  jb_creator_id : uuid;
  jb_status : job_status;
  jb_approval_status : option string
}.

Record AdminApplicationView : Type := {
  aav_application : Application;
  aav_jobs : option JobBrief;
  aav_applicant : option ApplicantCard
}.

(** [jobs:job_id (id, title, description, location, status,
    approval_status, creator_id, created_at, profiles:creator_id (...))] *)
Record MyJobBrief : Type := {
  mjb_id : uuid;
  mjb_title : text;
  mjb_description : text;
  mjb_location : option text;
  mjb_status : job_status;
  mjb_approval_status : option string;
  mjb_creator_id : uuid;
  mjb_created_at : timestamp;
  mjb_profiles : option ProfileCard
}.

Record MyApplicationView : Type := {
  mav_application : Application;
  mav_jobs : option MyJobBrief
}.

(** The JSON a response carries. *)
Inductive payload : Type :=
| NoBody
| Error (error : string)
| JobList (jobs : list JobView)
| JobDetail (job : JobView) (applications : list ApplicationView)
| JobCreated (job : Job) (message : string)
| Success
| SuccessMessage (message : string)
| AllApplications (applications : list AdminApplicationView)
| MyApplications (applications : list MyApplicationView)
| BusinessOwner (is_business_owner : bool).

Record Response : Type := {
  status : Z;
  content : payload
}.

Definition error_response (code : Z) (msg : string) : Response :=
  {| status := code; content := Error msg |}.

Definition ok (p : payload) : Response := {| status := 200; content := p |}.

(** *** Embedded selects *)

Definition card_of (p : Profile) : ProfileCard :=
  {| pc_id := p_id p; pc_full_name := p_full_name p;
     pc_username := p_username p; pc_avatar_url := p_avatar_url p |}.

Definition applicant_card_of (p : Profile) : ApplicantCard :=
  {| ac_id := p_id p; ac_full_name := p_full_name p;
     ac_username := p_username p; ac_avatar_url := p_avatar_url p;
     ac_mobile_number := p_mobile_number p; ac_email := p_email p |}.

Definition job_row (s : Store) (j : Job) : JobRow :=
  {| jr_job := j;
     jr_profiles := option_map card_of (profile_of s (j_creator_id j)) |}.

Definition application_view (s : Store) (a : Application) : ApplicationView :=
  {| av_application := a;
     av_profiles := option_map applicant_card_of (profile_of s (a_applicant_id a)) |}.

Definition job_brief (j : Job) : JobBrief :=
  {| jb_id := j_id j; jb_title := j_title j; jb_creator_id := j_creator_id j;
     jb_status := j_status j; jb_approval_status := j_approval_status j |}.

Definition admin_application_view (s : Store) (a : Application)
  : AdminApplicationView :=
  {| aav_application := a;
     aav_jobs := option_map job_brief (job_of s (a_job_id a));
     aav_applicant :=
       option_map applicant_card_of (profile_of s (a_applicant_id a)) |}.

Definition my_job_brief (s : Store) (j : Job) : MyJobBrief :=
  {| mjb_id := j_id j; mjb_title := j_title j;
     mjb_description := j_description j; mjb_location := j_location j;
     mjb_status := j_status j; mjb_approval_status := j_approval_status j;
     mjb_creator_id := j_creator_id j; mjb_created_at := j_created_at j;
     mjb_profiles := option_map card_of (profile_of s (j_creator_id j)) |}.

Definition my_application_view (s : Store) (a : Application)
  : MyApplicationView :=
  {| mav_application := a;
     mav_jobs := option_map (my_job_brief s) (job_of s (a_job_id a)) |}.

(** *** Row predicates and row updates *)

Definition approved_open (j : Job) : bool :=
  match j_approval_status j with
  | Some a => (a =? "approved") && job_status_eqb (j_status j) Open
  | None => false
  end.

(** The filter of the [list] action and the [canView] test of [get]. *)
Definition visible (userId : option uuid) (j : Job) : bool :=
  is_user userId (j_creator_id j) || approved_open j.

(** [.eq("status", "open").lt("expires_at", cut).not("expires_at", "is", null)] *)
Definition expired_open (cut : timestamp) (j : Job) : bool :=
  job_status_eqb (j_status j) Open &&
  match j_expires_at j with
  | Some e => (e <? cut)%Z
  | None => false
  end.

(** [.update({ status: "closed", updated_at })] on one row. *)
Definition close_job (upd : timestamp) (j : Job) : Job :=
  {| j_id := j_id j; j_creator_id := j_creator_id j; j_title := j_title j;
     j_description := j_description j; j_conditions := j_conditions j;
     j_location := j_location j; j_max_applications := j_max_applications j;
     j_expires_at := j_expires_at j; j_status := Closed;
     j_approval_status := j_approval_status j;
     j_created_at := j_created_at j; j_updated_at := upd |}.

Definition close_expired (upd cut : timestamp) (s : Store) : Store :=
  set_jobs s
    (map (fun j => if expired_open cut j then close_job upd j else j) (jobs s)).

Definition applications_of_job (s : Store) (id : uuid) : list Application :=
  filter (fun a => a_job_id a =? id) (job_applications s).

Definition applications_by (s : Store) (id : uuid) (u : uuid) : list Application :=
  filter (fun a => (a_job_id a =? id) && (a_applicant_id a =? u))
         (job_applications s).

(** The values of [filteredUpdates] on one row: a key of [allowedFields]
    that is present in the body overwrites the column, [null] included. *)
Definition patch {A} (f : field A) (old : option A) : option A :=
  match f with Absent => old | Null => None | Val a => Some a end.

Definition patch_required {A} (f : field A) (old : A) : A :=
  match f with Val a => a | _ => old end.

(** What the datastore stores for the value of a text column. *)
Definition stored_field (f : field jtext) : field text :=
  match f with Absent => Absent | Null => Null | Val v => Val (stored v) end.

Definition update_job (b : Body) (upd : timestamp) (j : Job) : Job :=
  {| j_id := j_id j; j_creator_id := j_creator_id j;
     j_title := patch_required (stored_field (title b)) (j_title j);
     j_description :=
       patch_required (stored_field (description b)) (j_description j);
     j_conditions := patch (stored_field (conditions b)) (j_conditions j);
     j_location := patch (stored_field (location b)) (j_location j);
     j_max_applications := patch (max_applications b) (j_max_applications j);
     j_expires_at := patch (expires_at b) (j_expires_at j);
     j_status :=
       match new_status b with
       | Val s => match parse_job_status s with
                  | Some st => st
                  | None => j_status j
                  end
       | _ => j_status j
       end;
     j_approval_status := j_approval_status j;
     j_created_at := j_created_at j; j_updated_at := upd |}.

(** What the jobs table refuses of an update: [null] in [title],
    [description] or [status] (not nullable in the [Job] interface of
    [useJobs.ts]) and a [status] outside the enum. *)
Definition update_refused (b : Body) : option string :=
  match title b, description b, new_status b with
  | Null, _, _ => Some "null value in column title violates not-null constraint"
  | _, Null, _ => Some "null value in column description violates not-null constraint"
  | _, _, Null => Some "null value in column status violates not-null constraint"
  | _, _, Val s =>
      match parse_job_status s with
      | Some _ => None
      | None => Some "invalid input value for enum job_status"
      end
  | _, _, Absent => None
  end.

Definition update_jobs_where_id (b : Body) (upd : timestamp) (id : uuid)
           (s : Store) : answer unit * Store :=
  match update_refused b with
  | Some m => (Failed m, s)
  | None =>
      (Data tt,
       set_jobs s (map (fun j => if j_id j =? id then update_job b upd j else j)
                       (jobs s)))
  end.

(** The row of an insert into [jobs]: [t], [d], [c] and [l] are the
    values of [title.trim()], [description.trim()],
    [conditions?.trim() || null] and [location?.trim() || null]. *)
Definition new_job (u : uuid) (b : Body) (t d : text) (c l : option text)
           (id : uuid) (now : timestamp) : Job :=
  {| j_id := id; j_creator_id := u;
     j_title := t; j_description := d;
     j_conditions := c;
     j_location := l;
     j_max_applications := num_or_null (max_applications b);
     j_expires_at := field_value (expires_at b);
     j_status := Open; j_approval_status := Some "pending";
     j_created_at := now; j_updated_at := now |}.

(** The row of an insert into [job_applications]: [m], [e] and [x] are
    the values of [message?.trim() || null] and of the same expression
    for the two other texts. *)
Definition new_application (u : uuid) (jid : uuid) (m e x : option text)
           (id : uuid) (now : timestamp) : Application :=
  {| a_id := id; a_job_id := jid; a_applicant_id := u;
     a_message := m;
     a_education_qualification := e;
     a_experience_details := x;
     a_creator_reply := None; a_replied_at := None; a_created_at := now |}.

(** [replyMessages[reply_type] || replyMessages.contact_soon], for a
    [reply_type] that names no property inherited from
    [Object.prototype]. *)
Definition replyMessages (k : string) : option string :=
  if k =? "contact_soon"
  then Some "We will contact you soon. Thank you for your interest!"
  else if k =? "shortlisted"
  then Some "Congratulations! You have been shortlisted. We will contact you for further details."
  else if k =? "not_selected"
  then Some "Thank you for applying. Unfortunately, we have decided to move forward with other candidates."
  else None.

Definition replyMessage (rt : field string) : string :=
  match rt with
  | Val k => match replyMessages k with
             | Some m => m
             | None => "We will contact you soon. Thank you for your interest!"
             end
  | _ => "We will contact you soon. Thank you for your interest!"
  end.

Definition reply_to (msg : string) (at_ : timestamp) (a : Application)
  : Application :=
  {| a_id := a_id a; a_job_id := a_job_id a; a_applicant_id := a_applicant_id a;
     a_message := a_message a;
     a_education_qualification := a_education_qualification a;
     a_experience_details := a_experience_details a;
     a_creator_reply := Some msg; a_replied_at := Some at_;
     a_created_at := a_created_at a |}.

(** Computations of this handler. *)
Definition H : Type -> Type := M Response.

Section Handler.
Variable env : Env.

(** Lines 21-30: the session is validated only if a token is sent. *)
Definition authenticate (req : Request) : H (option uuid) :=
  match x_session_token req with
  | Some t =>
      if truthy t
      then r <- rpc_validate_session env t ;;
           ret (match r with Data u => u | Failed _ => None end)
      else ret None
  | None => ret None
  end.

(** [if (!userId) return 401] *)
Definition require_user (userId : option uuid) : H uuid :=
  match userId with
  | Some u =>
      if truthy u then ret u
      else respond (error_response 401 "Authentication required")
  | None => respond (error_response 401 "Authentication required")
  end.

(** [if (!id) return 400] *)
Definition require_id (f : field string) (msg : string) : H uuid :=
  match str_or_null f with
  | Some id => ret id
  | None => respond (error_response 400 msg)
  end.

(** [select("*", { count: "exact", head: true }).eq("job_id", id)],
    then [count || 0]. *)
Definition application_count (id : uuid) : H Z :=
  r <- select env (fun s => Data (Z.of_nat (List.length (applications_of_job s id)))) ;;
  ret (match r with Data n => n | Failed _ => 0 end).

(** [hasApplied], asked only for a signed-in requester. *)
Definition has_applied (userId : option uuid) (id : uuid) : H bool :=
  match userId with
  | Some u =>
      if truthy u
      then r <- select env (fun s => maybeSingle (applications_by s id u)) ;;
           ret (match r with Data (Some _) => true | _ => false end)
      else ret false
  | None => ret false
  end.

(** The body of [filteredJobs.map(async (job) => ...)]; the calls of
    the mapped jobs only read, and are taken one job after the other. *)
Definition with_counts (userId : option uuid) (row : JobRow) : H JobView :=
  count <- application_count (j_id (jr_job row)) ;;
  hasApplied <- has_applied userId (j_id (jr_job row)) ;;
  ret {| jv_row := row; jv_application_count := count;
         jv_has_applied := Some hasApplied |}.

Definition list_jobs (userId : option uuid) : H payload :=
  upd <- date_now env ;;
  cut <- date_now env ;;
  write env (close_expired upd cut) ;;;
  r <- select env (fun s =>
         Data (order_desc (fun r => j_created_at (jr_job r))
                          (map (job_row s) (jobs s)))) ;;
  allJobs <- or_throw env r ;;
  let filteredJobs := filter (fun r => visible userId (jr_job r)) allJobs in
  jobsWithCounts <- mapM (with_counts userId) filteredJobs ;;
  ret (JobList jobsWithCounts).

Definition with_count (row : JobRow) : H JobView :=
  count <- application_count (j_id (jr_job row)) ;;
  ret {| jv_row := row; jv_application_count := count;
         jv_has_applied := None |}.

Definition my_jobs (userId : option uuid) : H payload :=
  u <- require_user userId ;;
  r <- select env (fun s =>
         Data (order_desc (fun r => j_created_at (jr_job r))
                 (map (job_row s)
                      (filter (fun j => j_creator_id j =? u) (jobs s))))) ;;
  data <- or_throw env r ;;
  jobsWithCounts <- mapM with_count data ;;
  ret (JobList jobsWithCounts).

Definition get_job (userId : option uuid) (b : Body) : H payload :=
  id <- require_id (job_id b) "Job ID required" ;;
  r <- select env (fun s =>
         single (map (job_row s) (filter (fun j => j_id j =? id) (jobs s)))) ;;
  job <- or_throw env r ;;
  if negb (visible userId (jr_job job))
  then respond (error_response 404 "Job not found or access denied")
  else
    count <- application_count id ;;
    hasApplied <- has_applied userId id ;;
    applications <-
      (if is_user userId (j_creator_id (jr_job job))
       then apps <- select env (fun s =>
                      Data (order_desc (fun v => a_created_at (av_application v))
                              (map (application_view s)
                                   (applications_of_job s id)))) ;;
            ret (rows_of apps)
       else ret []) ;;
    ret (JobDetail {| jv_row := job; jv_application_count := count;
                      jv_has_applied := Some hasApplied |}
                   applications).

Definition create (userId : option uuid) (b : Body) : H payload :=
  u <- require_user userId ;;
  t <- optional_trim "title?.trim" (title b) ;;
  match or_null t with
  | None => respond (error_response 400 "Title and description are required")
  | Some title_ =>
      d <- optional_trim "description?.trim" (description b) ;;
      match or_null d with
      | None =>
          respond (error_response 400 "Title and description are required")
      | Some description_ =>
          c <- optional_trim "conditions?.trim" (conditions b) ;;
          l <- optional_trim "location?.trim" (location b) ;;
          r <- insert env (fun id now s =>
                 let j := new_job u b title_ description_ (or_null c) (or_null l)
                                  id now in
                 (Data j, set_jobs s (jobs s ++ [j])%list)) ;;
          job <- or_throw env r ;;
          ret (JobCreated job
                 "Job created! It will be visible after admin approval.")
      end
  end.

(** The ownership test shared by [update] and [delete]. *)
Definition verify_ownership (u id : uuid) (msg : string) : H unit :=
  existing <- select env (fun s =>
                single (map j_creator_id
                            (filter (fun j => j_id j =? id) (jobs s)))) ;;
  match data_of existing with
  | Some creator =>
      if creator =? u then ret tt else respond (error_response 403 msg)
  | None => respond (error_response 403 msg)
  end.

Definition update (userId : option uuid) (b : Body) : H payload :=
  u <- require_user userId ;;
  id <- require_id (job_id b) "Job ID required" ;;
  verify_ownership u id "Not authorized to update this job" ;;;
  upd <- date_now env ;;
  r <- call env (update_jobs_where_id b upd id) ;;
  or_throw env r ;;;
  ret Success.

Definition delete (userId : option uuid) (b : Body) : H payload :=
  u <- require_user userId ;;
  id <- require_id (job_id b) "Job ID required" ;;
  verify_ownership u id "Not authorized to delete this job" ;;;
  write env (fun s =>
    set_job_applications s
      (filter (fun a => negb (a_job_id a =? id)) (job_applications s))) ;;;
  r <- write env (fun s =>
         set_jobs s (filter (fun j => negb (j_id j =? id)) (jobs s))) ;;
  or_throw env r ;;;
  ret Success.

Definition apply (userId : option uuid) (b : Body) : H payload :=
  u <- require_user userId ;;
  id <- require_id (job_id b) "Job ID required" ;;
  job <- select env (fun s => single (filter (fun j => j_id j =? id) (jobs s))) ;;
  match data_of job with
  | None => respond (error_response 400 "Job is not open for applications")
  | Some j =>
      if negb (approved_open j)
      then respond (error_response 400 "Job is not open for applications")
      else if j_creator_id j =? u
      then respond (error_response 400 "Cannot apply to your own job")
      else
        existing <- select env (fun s => maybeSingle (applications_by s id u)) ;;
        match data_of existing with
        | Some (Some _) =>
            respond (error_response 400 "You have already applied to this job")
        | _ =>
            m <- optional_trim "message?.trim" (message b) ;;
            e <- optional_trim "education_qualification?.trim"
                               (education_qualification b) ;;
            x <- optional_trim "experience_details?.trim"
                               (experience_details b) ;;
            r <- insert env (fun aid now s =>
                   (Data tt,
                    set_job_applications s
                      (job_applications s ++
                       [new_application u id (or_null m) (or_null e) (or_null x)
                                        aid now])%list)) ;;
            or_throw env r ;;;
            ret (SuccessMessage "Application submitted!")
        end
  end.

Definition reply (userId : option uuid) (b : Body) : H payload :=
  u <- require_user userId ;;
  id <- require_id (application_id b) "Application ID required" ;;
  application <- select env (fun s =>
    single (map (fun a => (a, option_map j_creator_id (job_of s (a_job_id a))))
                (filter (fun a => a_id a =? id) (job_applications s)))) ;;
  match data_of application with
  | None => respond (error_response 404 "Application not found")
  | Some (_, jobCreatorId) =>
      if negb (match jobCreatorId with Some c => c =? u | None => false end)
      then respond (error_response 403 "Not authorized to reply to this application")
      else
        at_ <- date_now env ;;
        r <- write env (fun s =>
               set_job_applications s
                 (map (fun a => if a_id a =? id
                                then reply_to (replyMessage (reply_type b)) at_ a
                                else a)
                      (job_applications s))) ;;
        or_throw env r ;;;
        ret (SuccessMessage "Reply sent!")
  end.

Definition live_session (token : string) (now : timestamp) (x : Session) : bool :=
  (s_session_token x =? token) && s_is_active x && (now <? s_expires_at x)%Z.

Definition get_all_applications (req : Request) : H payload :=
  match x_session_token req with
  | None => respond (error_response 401 "Admin authentication required")
  | Some sessionToken =>
      if negb (truthy sessionToken)
      then respond (error_response 401 "Admin authentication required")
      else
        now <- date_now env ;;
        session <- select env (fun s =>
                     single (filter (live_session sessionToken now)
                                    (user_sessions s))) ;;
        match data_of session with
        | None => respond (error_response 401 "Invalid or expired session")
        | Some x =>
            roles <- select env (fun s =>
                       Data (map r_role
                                 (filter (fun r => r_user_id r =? s_user_id x)
                                         (user_roles s)))) ;;
            match data_of roles with
            | None | Some [] =>
                respond (error_response 403 "Unauthorized: Admin access required")
            | Some (_ :: _) =>
                r <- select env (fun s =>
                       Data (order_desc (fun v => a_created_at (aav_application v))
                               (map (admin_application_view s)
                                    (job_applications s)))) ;;
                applications <- or_throw env r ;;
                ret (AllApplications applications)
            end
        end
  end.

Definition my_applications (userId : option uuid) : H payload :=
  u <- require_user userId ;;
  r <- select env (fun s =>
         Data (order_desc (fun v => a_created_at (mav_application v))
                 (map (my_application_view s)
                      (filter (fun a => a_applicant_id a =? u)
                              (job_applications s))))) ;;
  applications <- or_throw env r ;;
  ret (MyApplications applications).

Definition check_business_owner (userId : option uuid) : H payload :=
  u <- require_user userId ;;
  r <- select env (fun s =>
         Data (firstn 1
                 (filter (fun x => (b_owner_id x =? u) &&
                                   match b_approval_status x with
                                   | Some a => a =? "approved"
                                   | None => false
                                   end)
                         (businesses s)))) ;;
  found <- or_throw env r ;;
  ret (BusinessOwner (negb (is_empty found))).

(** [switch (action)] *)
Definition dispatch (req : Request) (userId : option uuid) (b : Body)
  : H payload :=
  match action b with
  | Val a =>
      if a =? "list" then list_jobs userId
      else if a =? "my_jobs" then my_jobs userId
      else if a =? "get" then get_job userId b
      else if a =? "create" then create userId b
      else if a =? "update" then update userId b
      else if a =? "delete" then delete userId b
      else if a =? "apply" then apply userId b
      else if a =? "reply" then reply userId b
      else if a =? "get_all_applications" then get_all_applications req
      else if a =? "my_applications" then my_applications userId
      else if a =? "check_business_owner" then check_business_owner userId
      else respond (error_response 400 "Invalid action")
  | _ => respond (error_response 400 "Invalid action")
  end.

(** The [try] block. *)
Definition handle (req : Request) : H Response :=
  userId <- authenticate req ;;
  b <- req_json (json req) ;;
  result <- dispatch req userId b ;;
  ret (ok result).

(** The [catch] block: the message of the thrown [Error], or
    ["Unknown error"]. *)
Definition on_error (e : thrown) : Response :=
  error_response 500
    match e with
    | ErrorInstance m => m
    | NotAnError => "Unknown error"
    end.

Definition serve (req : Request) (w : World) : Response * World :=
  if method req =? "OPTIONS"
  then ({| status := 200; content := NoBody |}, w)
  else
    match handle req w with
    | (Value r, w') => (r, w')
    | (Returned r, w') => (r, w')
    | (Threw e, w') => (on_error e, w')
    end.
End Handler.

End ManageJobs.

(** * The profiles table and its trigger *)

Definition super_admin_email : string := "evamarketingsolutions@gmail.com".

(** [auto_assign_super_admin], fired after each insert into [profiles]:
    [INSERT ... ON CONFLICT (user_id, role) DO NOTHING]. *)
Definition auto_assign_super_admin (p : Profile) (s : Store) : Store :=
  match p_email p with
  | Some e =>
      if e =? super_admin_email
      then
        if existsb (fun r => (r_user_id r =? p_id p) && (r_role r =? "super_admin"))
                   (user_roles s)
        then s
        else {| profiles := profiles s; user_credentials := user_credentials s;
                user_sessions := user_sessions s;
                user_roles := (user_roles s ++
                               [{| r_user_id := p_id p; r_role := "super_admin" |}])%list;
                jobs := jobs s; job_applications := job_applications s;
                businesses := businesses s; posts := posts s |}
      else s
  | None => s
  end.

Definition insert_profile (p : Profile) (s : Store) : Store :=
  auto_assign_super_admin p (set_profiles s (profiles s ++ [p])%list).

(** A row of [profiles] with nothing but its [id]. *)
Definition bare_profile (id : uuid) : Profile :=
  {| p_id := id; p_full_name := None; p_username := None; p_avatar_url := None;
     p_mobile_number := None; p_email := None; p_date_of_birth := None;
     p_is_online := false |}.

(** [.upsert({ id }, { onConflict: "id" })]: a row with this [id] is left
    as it is. *)
Definition upsert_profile_id (id : uuid) (s : Store) : Store :=
  if existsb (fun p => p_id p =? id) (profiles s) then s
  else insert_profile (bare_profile id) s.

(** * create-post *)

Module CreatePost.

Record Body : Type := {
  user_id : field string;
  content : field string;
  image_url : field string;
  youtube_url : field string
}.

(** The handler reads no header of the request; the session token a
    client may send is carried here to state that much. *)
Record Request : Type := {
  method : string;
  x_session_token : option string;
  json : parsed Body
}.

Inductive payload : Type :=
| NoBody
| Error (error : string)
| Created (post : Post).

Record Response : Type := {
  status : Z;
  content_of : payload
}.

Definition error_response (code : Z) (msg : string) : Response :=
  {| status := code; content_of := Error msg |}.

Definition H : Type -> Type := M Response.

Definition new_post (u : uuid) (b : Body) (id : uuid) (now : timestamp) : Post :=
  {| post_id := id; post_user_id := u;
     post_content := str_or_null (content b);
     post_image_url := str_or_null (image_url b);
     post_youtube_url := str_or_null (youtube_url b);
     post_created_at := now |}.

Section Handler.
Variable env : Env.

Definition handle (req : Request) : H Response :=
  b <- req_json (json req) ;;
  match str_or_null (user_id b) with
  | None => respond (error_response 400 "User ID is required")
  | Some u =>
      userProfile <- select env (fun s =>
                       maybeSingle (filter (fun p => p_id p =? u) (profiles s))) ;;
      (match userProfile with
       | Data (Some _) => ret tt
       | _ =>
           createProfile <- write env (upsert_profile_id u) ;;
           match createProfile with
           | Failed _ =>
               respond (error_response 400 "Please complete your profile setup first")
           | Data _ => ret tt
           end
       end) ;;;
      if negb (truthy_opt (str_or_null (content b))) &&
         negb (truthy_opt (str_or_null (image_url b))) &&
         negb (truthy_opt (str_or_null (youtube_url b)))
      then respond (error_response 400 "Post must have content, image, or video")
      else
        r <- insert env (fun id now s =>
               let p := new_post u b id now in
               (Data p, set_posts s (posts s ++ [p])%list)) ;;
        match r with
        | Failed _ => respond (error_response 500 "Failed to create post")
        | Data post => ret {| status := 200; content_of := Created post |}
        end
  end.

Definition on_error (e : thrown) : Response :=
  error_response 500 "Internal server error".

Definition serve (req : Request) (w : World) : Response * World :=
  if method req =? "OPTIONS"
  then ({| status := 200; content_of := NoBody |}, w)
  else
    match handle req w with
    | (Value r, w') => (r, w')
    | (Returned r, w') => (r, w')
    | (Threw e, w') => (on_error e, w')
    end.
End Handler.

End CreatePost.

(** * create-business *)

Module CreateBusiness.

Record Body : Type := {
  user_id : field string;
  name : field string;
  description : field string;
  category : field string;
  location : field string;
  logo_url : field string;
  cover_image_url : field string;
  website_url : field string;
  instagram_link : field string;
  youtube_link : field string
}.

Record Request : Type := {
  method : string;
  x_session_token : option string;
  json : parsed Body
}.

Inductive payload : Type :=
| NoBody
| Error (error : string)
| Created (business : Business).

Record Response : Type := {
  status : Z;
  content_of : payload
}.

Definition error_response (code : Z) (msg : string) : Response :=
  {| status := code; content_of := Error msg |}.

Definition H : Type -> Type := M Response.

Definition new_business (u n : string) (b : Body) (id : uuid) : Business :=
  {| b_id := id; b_owner_id := u; b_name := n;
     b_description := str_or_null (description b);
     b_category := match str_or_null (category b) with
                   | Some c => c
                   | None => "other"
                   end;
     b_location := str_or_null (location b);
     b_logo_url := str_or_null (logo_url b);
     b_cover_image_url := str_or_null (cover_image_url b);
     b_website_url := str_or_null (website_url b);
     b_instagram_link := str_or_null (instagram_link b);
     b_youtube_link := str_or_null (youtube_link b);
     b_approval_status := Some "pending" |}.

Section Handler.
Variable env : Env.

Definition handle (req : Request) : H Response :=
  b <- req_json (json req) ;;
  match str_or_null (user_id b) with
  | None => respond (error_response 400 "User ID is required")
  | Some u =>
      match str_or_null (name b) with
      | None => respond (error_response 400 "Business name is required")
      | Some n =>
          userProfile <- select env (fun s =>
                           maybeSingle (filter (fun p => p_id p =? u) (profiles s))) ;;
          match userProfile with
          | Data (Some _) =>
              r <- insert env (fun id _ s =>
                     let x := new_business u n b id in
                     (Data x, set_businesses s (businesses s ++ [x])%list)) ;;
              match r with
              | Failed m =>
                  respond (error_response 500 ("Failed to create business: " ++ m))
              | Data business =>
                  ret {| status := 200; content_of := Created business |}
              end
          | _ => respond (error_response 400 "User not found")
          end
      end
  end.

Definition on_error (e : thrown) : Response :=
  error_response 500 "Internal server error".

Definition serve (req : Request) (w : World) : Response * World :=
  if method req =? "OPTIONS"
  then ({| status := 200; content_of := NoBody |}, w)
  else
    match handle req w with
    | (Value r, w') => (r, w')
    | (Returned r, w') => (r, w')
    | (Threw e, w') => (on_error e, w')
    end.
End Handler.

End CreateBusiness.

(** * mobile-auth *)

Module MobileAuth.

Record Body : Type := {
  action : field string;
  mobile_number : field string;
  password : field string;
  full_name : field string;
  username : field string;
  date_of_birth : field string;
  session_token : field string
}.

Record Request : Type := {
  method : string;
  json : parsed Body
}.

Inductive payload : Type :=
| NoBody
| Error (error : string)
| AdminValidated (user : Profile) (roles : list string)
| SignedUp (id : uuid) (mobile full : string) (token : string)
| SignedIn (id : uuid) (mobile : string) (profile : option Profile)
           (token : string) (roles : list string).

Record Response : Type := {
  status : Z;
  content_of : payload
}.

Definition error_response (code : Z) (msg : string) : Response :=
  {| status := code; content_of := Error msg |}.

Definition H : Type -> Type := M Response.

(** [/^[a-zA-Z0-9_]{3,30}$/] *)
Definition is_word_char (c : ascii) : bool :=
  let n := nat_of_ascii c in
  ((48 <=? n) && (n <=? 57) || (65 <=? n) && (n <=? 90) ||
   (97 <=? n) && (n <=? 122) || (n =? 95))%nat.

Definition usernameRegex_test (s : string) : bool :=
  forallb is_word_char (list_ascii_of_string s) &&
  ((3 <=? String.length s) && (String.length s <=? 30))%nat.

(** [toLowerCase], which the handler applies only to names that passed
    [usernameRegex_test]: upper-case ASCII letters are the only
    characters it can meet and change. *)
Definition lower_char (c : ascii) : ascii :=
  let n := nat_of_ascii c in
  if ((65 <=? n) && (n <=? 90))%nat then ascii_of_nat (n + 32) else c.

Fixpoint toLowerCase (s : string) : string :=
  match s with
  | EmptyString => EmptyString
  | String c r => String (lower_char c) (toLowerCase r)
  end.

Definition thirty_days : Z := 30 * 24 * 60 * 60 * 1000.

Definition new_session (u : uuid) (token : string) (now : timestamp) : Session :=
  {| s_user_id := u; s_session_token := token;
     s_expires_at := now + thirty_days; s_is_active := true |}.

Definition new_profile (id : uuid) (full mobile user : string) (b : Body) : Profile :=
  {| p_id := id; p_full_name := Some full; p_username := Some (toLowerCase user);
     p_avatar_url := None; p_mobile_number := Some mobile; p_email := None;
     p_date_of_birth := str_or_null (date_of_birth b); p_is_online := false |}.

Definition set_online (p : Profile) : Profile :=
  {| p_id := p_id p; p_full_name := p_full_name p; p_username := p_username p;
     p_avatar_url := p_avatar_url p; p_mobile_number := p_mobile_number p;
     p_email := p_email p; p_date_of_birth := p_date_of_birth p;
     p_is_online := true |}.

Definition roles_of (s : Store) (u : uuid) : list string :=
  map r_role (filter (fun r => r_user_id r =? u) (user_roles s)).

Section Handler.
Variable env : Env.

(** [hashPassword]: the SHA-256 digest in hexadecimal. *)
Definition hashPassword (password : string) : string := sha256_hex env password.

Definition verifyPassword (password hash : string) : bool :=
  hashPassword password =? hash.

(** Session creation, shared by [signup] and [signin]. *)
Definition create_session (u : uuid) : H string :=
  sessionToken <- generateSessionToken env ;;
  now <- date_now env ;;
  sessionError <- write env (fun s =>
                    set_user_sessions s
                      (user_sessions s ++ [new_session u sessionToken now])%list) ;;
  match sessionError with
  | Failed _ => respond (error_response 500 "Failed to create session")
  | Data _ => ret sessionToken
  end.

Definition admin_validate (b : Body) : H Response :=
  match str_or_null (session_token b) with
  | None => respond (error_response 400 "Session token is required")
  | Some t =>
      sessionRow <- select env (fun s =>
                      maybeSingle
                        (filter (fun x => (s_session_token x =? t) && s_is_active x)
                                (user_sessions s))) ;;
      match sessionRow with
      | Data (Some x) =>
          now <- date_now env ;;
          if (s_expires_at x <=? now)%Z
          then respond (error_response 401 "Invalid or expired session")
          else
            profile <- select env (fun s =>
                         maybeSingle (filter (fun p => p_id p =? s_user_id x)
                                             (profiles s))) ;;
            userRoles <- select env (fun s => Data (roles_of s (s_user_id x))) ;;
            match profile with
            | Data (Some p) =>
                match userRoles with
                | Failed _ => respond (error_response 500 "Failed to validate roles")
                | Data roles =>
                    ret {| status := 200; content_of := AdminValidated p roles |}
                end
            | _ => respond (error_response 404 "Profile not found")
            end
      | _ => respond (error_response 401 "Invalid or expired session")
      end
  end.

Definition signup (b : Body) (mobile pass : string) : H Response :=
  match str_or_null (full_name b), str_or_null (username b) with
  | Some full, Some user =>
      if negb (usernameRegex_test user)
      then respond (error_response 400
             "Username must be 3-30 characters and only contain letters, numbers, and underscores")
      else
        existingUser <- select env (fun s =>
                          maybeSingle (filter (fun c => c_mobile_number c =? mobile)
                                              (user_credentials s))) ;;
        match existingUser with
        | Data (Some _) =>
            respond (error_response 400 "This mobile number is already registered")
        | _ =>
            existingUsername <- select env (fun s =>
                maybeSingle
                  (filter (fun p => match p_username p with
                                    | Some n => n =? toLowerCase user
                                    | None => false
                                    end)
                          (profiles s))) ;;
            match existingUsername with
            | Data (Some _) =>
                respond (error_response 400 "This username is already taken")
            | _ =>
                let passwordHash := hashPassword pass in
                cred <- insert env (fun id _ s =>
                          let c := {| c_id := id; c_mobile_number := mobile;
                                      c_password_hash := passwordHash |} in
                          (Data c,
                           set_user_credentials s (user_credentials s ++ [c])%list)) ;;
                match cred with
                | Failed _ => respond (error_response 500 "Failed to create account")
                | Data credentials =>
                    profileError <- write env
                      (insert_profile (new_profile (c_id credentials) full mobile user b)) ;;
                    match profileError with
                    | Failed _ =>
                        (* Rollback credentials if profile creation fails *)
                        write env (fun s =>
                          set_user_credentials s
                            (filter (fun c => negb (c_id c =? c_id credentials))
                                    (user_credentials s))) ;;;
                        respond (error_response 500 "Failed to create profile")
                    | Data _ =>
                        sessionToken <- create_session (c_id credentials) ;;
                        ret {| status := 200;
                               content_of :=
                                 SignedUp (c_id credentials) mobile full sessionToken |}
                    end
                end
            end
        end
  | _, _ =>
      respond (error_response 400 "Full name and username are required for signup")
  end.

Definition signin (mobile pass : string) : H Response :=
  cred <- select env (fun s =>
            maybeSingle (filter (fun c => c_mobile_number c =? mobile)
                                (user_credentials s))) ;;
  match cred with
  | Data (Some credentials) =>
      if negb (verifyPassword pass (c_password_hash credentials))
      then respond (error_response 401 "Invalid mobile number or password")
      else
        profile <- select env (fun s =>
                     single (filter (fun p => p_id p =? c_id credentials)
                                    (profiles s))) ;;
        userRoles <- select env (fun s => Data (roles_of s (c_id credentials))) ;;
        sessionToken <- create_session (c_id credentials) ;;
        write env (fun s =>
          set_profiles s
            (map (fun p => if p_id p =? c_id credentials then set_online p else p)
                 (profiles s))) ;;;
        ret {| status := 200;
               content_of :=
                 SignedIn (c_id credentials) mobile (data_of profile) sessionToken
                          (rows_of userRoles) |}
  | _ => respond (error_response 401 "Invalid mobile number or password")
  end.

Definition handle (req : Request) : H Response :=
  if negb (configured env)
  then respond (error_response 500 "Server not configured")
  else
    b <- req_json (json req) ;;
    if match action b with Val a => a =? "admin_validate" | _ => false end
    then admin_validate b
    else
      match str_or_null (mobile_number b), str_or_null (password b) with
      | Some mobile, Some pass =>
          match action b with
          | Val a =>
              if a =? "signup" then signup b mobile pass
              else if a =? "signin" then signin mobile pass
              else respond (error_response 400 "Invalid action")
          | _ => respond (error_response 400 "Invalid action")
          end
      | _, _ =>
          respond (error_response 400 "Mobile number and password are required")
      end.

Definition on_error (e : thrown) : Response :=
  error_response 500 "Internal server error".

Definition serve (req : Request) (w : World) : Response * World :=
  if method req =? "OPTIONS"
  then ({| status := 200; content_of := NoBody |}, w)
  else
    match handle req w with
    | (Value r, w') => (r, w')
    | (Returned r, w') => (r, w')
    | (Threw e, w') => (on_error e, w')
    end.
End Handler.

End MobileAuth.

(** * manage-community: the session gate

    Lines 9-47 of the handler and its [catch] block.  The action branches
    that follow the gate (lines 49-553) are a parameter: they run with the
    user the gate let through and the parsed body. *)

Module ManageCommunity.

Record Request (Body : Type) : Type := {
  method : string;
  x_session_token : option string;
  json : parsed Body
}.

Inductive payload (Result : Type) : Type :=
| NoBody
| Error (error : string)
| Result_ (r : Result).
Arguments NoBody {Result}.
Arguments Error {Result}.

Record Response (Result : Type) : Type := {
  status : Z;
  content_of : payload Result
}.

Definition error_response {Result} (code : Z) (msg : string) : Response Result :=
  {| status := code; content_of := Error msg |}.

Section Handler.
Variable env : Env.
Variables Body Result : Type.
Variable actions : uuid -> Body -> M (Response Result) (Response Result).

Definition handle (req : Request Body) : M (Response Result) (Response Result) :=
  if negb (configured env)
  then respond (error_response 500 "Server not configured")
  else
    match x_session_token req with
    | None => respond (error_response 401 "No session token provided")
    | Some sessionToken =>
        if negb (truthy sessionToken)
        then respond (error_response 401 "No session token provided")
        else
          r <- rpc_validate_session env sessionToken ;;
          match r with
          | Data (Some userId) =>
              if truthy userId
              then b <- req_json (json req) ;; actions userId b
              else respond (error_response 401 "Invalid or expired session")
          | _ => respond (error_response 401 "Invalid or expired session")
          end
    end.

Definition on_error (e : thrown) : Response Result :=
  error_response 500 "Internal server error".

Definition serve (req : Request Body) (w : World) : Response Result * World :=
  if method req =? "OPTIONS"
  then ({| status := 200; content_of := NoBody |}, w)
  else
    match handle req w with
    | (Value r, w') => (r, w')
    | (Returned r, w') => (r, w')
    | (Threw e, w') => (on_error e, w')
    end.
End Handler.

End ManageCommunity.

(** * Vocabulary of the properties *)

Unset Implicit Arguments.

(** A text property that is missing, [null], empty or made of white space
    only. *)
Definition absent_empty_or_whitespace (f : field jtext) : Prop :=
  match f with
  | Val (Str t) => forallb is_white_space t = true
  | Val (NotStr _) => False
  | _ => True
  end.

(** A text property that holds a string with something else than white
    space in it. *)
Definition text_with_content (f : field jtext) : Prop :=
  exists t, f = Val (Str t) /\ forallb is_white_space t = false.

(** A text property that is missing, [null] or a string. *)
Definition text_or_nothing (f : field jtext) : Prop :=
  match f with
  | Val (NotStr _) => False
  | _ => True
  end.

(** The column written for [x?.trim() || null]: the trimmed string, or
    [null] when the property is missing, [null] or blank. *)
Definition trimmed_or_null (f : field jtext) (column : option text) : Prop :=
  match f with
  | Val (Str t) => if is_empty (trim t) then column = None
                   else column = Some (trim t)
  | _ => column = None
  end.

Module ManageJobsSpec.
Import ManageJobs.

(** The request carries a token that [validate_session] maps to user
    [u], and the datastore answers the call. *)
Definition signed_in (env : Env) (req : Request) (w : World) (u : uuid) : Prop :=
  exists t, x_session_token req = Some t /\ truthy t = true /\
            fault_at env (tick w) = None /\
            validate_session env (db w) (clock_at env (tick w)) t = Some u /\
            truthy u = true.

(** The user the handler takes the requester for, if any. *)
Definition session_user (env : Env) (req : Request) (w : World) : option uuid :=
  match fst (authenticate env req w) with
  | Value (Some u) => if truthy u then Some u else None
  | _ => None
  end.

(** Who sends a request, told from the request and the
    [validate_session] oracle alone: user [u] when the request is
    signed in as [u]; nobody when it carries no token, an empty one, or
    one that the datastore does not map to a user. *)
Definition sent_by (env : Env) (req : Request) (w : World) (uo : option uuid)
  : Prop :=
  match uo with
  | Some u => signed_in env req w u
  | None =>
      match x_session_token req with
      | None => True
      | Some t =>
          truthy t = false \/ fault_at env (tick w) <> None \/
          validate_session env (db w) (clock_at env (tick w)) t = None
      end
  end.

(** Job [j] is one of the jobs of a listing. *)
Definition listed (vs : list JobView) (j : Job) : Prop :=
  exists v, In v vs /\ jr_job (jv_row v) = j.

(** The store the [list] action reads, for a run that reaches the
    auto-close in world [w]: the auto-close has been applied unless the
    datastore refused it. *)
Definition store_after_close (env : Env) (w : World) : Store :=
  match fault_at env (S (S (tick w))) with
  | Some _ => db w
  | None => close_expired (clock_at env (tick w)) (clock_at env (S (tick w))) (db w)
  end.

(** The four reasons for which [apply] answers 400. *)
Definition apply_refused (s : Store) (u : uuid) (b : Body) : Prop :=
  str_or_null (job_id b) = None \/
  exists id, str_or_null (job_id b) = Some id /\
    ((forall j, In j (jobs s) -> j_id j = id ->
        ~ (j_status j = Open /\ j_approval_status j = Some "approved")) \/
     (exists j, In j (jobs s) /\ j_id j = id /\ j_creator_id j = u) \/
     (exists a, In a (job_applications s) /\ a_job_id a = id /\ a_applicant_id a = u)).

(** The message of a status-500 response. *)
Definition thrown_message (e : thrown) : string :=
  match e with
  | ErrorInstance m => m
  | NotAnError => "Unknown error"
  end.

Definition client_error (r : Response) : Prop :=
  In (status r) [400; 401; 403; 404] /\ exists msg, content r = Error msg.

(** A computation whose early returns are all client errors. *)
Definition tidy {A : Type} (c : H A) : Prop :=
  forall w, match fst (c w) with
            | Returned r => client_error r
            | _ => True
            end.

(** The reading of the spec for the [catch] block: all status-500
    responses carry one and the same generic message. *)
Definition generic_failure_message (env : Env) : Prop :=
  exists g, forall req w,
    status (fst (serve env req w)) = 500 ->
    content (fst (serve env req w)) = Error g.

(** The reading of the spec for the auto-close: no job list that the
    [list] action returns holds a job that is open with an [expires_at]
    earlier than the current time, whenever the clock is read. *)
Definition lists_no_expired_open_job (env : Env) : Prop :=
  forall req w b vs,
    method req <> "OPTIONS" -> json req = Json b -> action b = Val "list" ->
    content (fst (serve env req w)) = JobList vs ->
    forall v, In v vs ->
      ~ (j_status (jr_job (jv_row v)) = Open /\
         exists e, j_expires_at (jr_job (jv_row v)) = Some e /\
                   forall n, (e < clock_at env n)%Z).

(** The actions that start with [if (!userId)]. *)
Definition needs_user : list string :=
  ["my_jobs"; "create"; "update"; "delete"; "apply"; "reply";
   "my_applications"; "check_business_owner"].

Definition request_body (a : string) (jid : field string) (t d : field jtext)
  : Body :=
  {| action := Val a; job_id := jid; title := t; description := d;
     conditions := Absent; location := Absent; max_applications := Absent;
     expires_at := Absent; new_status := Absent; message := Absent;
     education_qualification := Absent; experience_details := Absent;
     application_id := Absent; reply_type := Absent |}.

Definition post (token : option string) (b : parsed Body) : Request :=
  {| method := "POST"; x_session_token := token; json := b |}.
End ManageJobsSpec.

(** The reading of the spec for signup: the handler checks nothing against
    the stored rows, so whenever it answers 400 it has decided on the
    request alone, before any call of the datastore. *)
Definition every_400_precedes_the_datastore (env : Env) : Prop :=
  forall req w,
    MobileAuth.status (fst (MobileAuth.serve env req w)) = 400 ->
    tick (snd (MobileAuth.serve env req w)) = tick w.


(** The reading of the spec for create-post: a post is inserted only for
    a request that carries a token which [validate_session] accepts. *)
Definition create_post_verifies_session (env : Env) : Prop :=
  forall req w,
    posts (db (snd (CreatePost.serve env req w))) <> posts (db w) ->
    exists t u, CreatePost.x_session_token req = Some t /\
                validate_session env (db w) (clock_at env (tick w)) t = Some u.

(** ** Sample data *)

Module Samples.

(** A [validate_session] that looks the token up among the active,
    unexpired sessions. *)
Definition lookup_session (s : Store) (now : timestamp) (token : string)
  : option uuid :=
  option_map s_user_id
    (find (fun x => (s_session_token x =? token) && s_is_active x &&
                    (now <? s_expires_at x)%Z)
          (user_sessions s)).

Definition generated (n : nat) : uuid :=
  String (ascii_of_nat (97 + n)) "-generated".

(** A datastore that answers every call. *)
Definition sample_env : Env :=
  {| configured := true;
     fault_at := fun _ => None;
     pg_is_Error := true;
     uuid_at := generated;
     clock_at := fun n => 1000 + Z.of_nat n;
     token_at := fun _ => "4f1c9a";
     validate_session := lookup_session;
     sha256_hex := fun p => "sha256:" ++ p |}.

(** A datastore that refuses the fourth call of a run. *)
Definition fourth_call_refused : Env :=
  {| configured := true;
     fault_at := fun n => if Nat.eqb n 3
                          then Some "insert into profiles refused"
                          else None;
     pg_is_Error := true;
     uuid_at := generated;
     clock_at := fun n => 1000 + Z.of_nat n;
     token_at := fun _ => "4f1c9a";
     validate_session := lookup_session;
     sha256_hex := fun p => "sha256:" ++ p |}.

(** A datastore that refuses the calls of a run whose numbers are
    listed, and answers the others. *)
Definition refusing (calls : list nat) : Env :=
  {| configured := true;
     fault_at := fun n => if existsb (Nat.eqb n) calls
                          then Some "connection refused"
                          else None;
     pg_is_Error := true;
     uuid_at := generated;
     clock_at := fun n => 1000 + Z.of_nat n;
     token_at := fun _ => "4f1c9a";
     validate_session := lookup_session;
     sha256_hex := fun p => "sha256:" ++ p |}.

Definition person (id name mobile : string) : Profile :=
  {| p_id := id; p_full_name := Some name; p_username := Some name;
     p_avatar_url := None; p_mobile_number := Some mobile;
     p_email := None; p_date_of_birth := None; p_is_online := false |}.

Definition job (id creator : uuid) (st : job_status) (approval : string)
           (expires : option timestamp) (limit : option Z) (created : timestamp)
  : Job :=
  {| j_id := id; j_creator_id := creator;
     j_title := text_of_string "Tailor"; j_description := text_of_string "Stitching";
     j_conditions := None; j_location := None; j_max_applications := limit;
     j_expires_at := expires; j_status := st; j_approval_status := Some approval;
     j_created_at := created; j_updated_at := created |}.

(** Three users; [u2] holds one role; [j1] has run out of time, [j2]
    awaits approval, [j3] takes one application and has one. *)
Definition board : Store :=
  {| profiles := [person "u1" "anu" "9000000001";
                  person "u2" "binu" "9000000002";
                  person "u3" "cini" "9000000003"];
     user_credentials :=
       [{| c_id := "u1"; c_mobile_number := "9000000001";
           c_password_hash := "sha256:secret" |}];
     user_sessions :=
       [{| s_user_id := "u1"; s_session_token := "t-u1";
           s_expires_at := 5000000; s_is_active := true |};
        {| s_user_id := "u2"; s_session_token := "t-u2";
           s_expires_at := 5000000; s_is_active := true |}];
     user_roles := [{| r_user_id := "u2"; r_role := "content_moderator" |}];
     jobs := [job "j1" "u1" Open "approved" (Some 500) None 10;
              job "j2" "u1" Open "pending" None None 20;
              job "j3" "u2" Open "approved" None (Some 1) 30];
     job_applications :=
       [{| a_id := "a1"; a_job_id := "j3"; a_applicant_id := "u3";
           a_message := None; a_education_qualification := None;
           a_experience_details := None; a_creator_reply := None;
           a_replied_at := None; a_created_at := 40 |}];
     businesses := [];
     posts := [] |}.

Definition world0 : World := {| db := board; tick := 0 |}.

Definition blank_world : World := {| db := empty_store; tick := 0 |}.

Definition signup_body (mobile user : string) : MobileAuth.Body :=
  {| MobileAuth.action := Val "signup";
     MobileAuth.mobile_number := Val mobile;
     MobileAuth.password := Val "secret";
     MobileAuth.full_name := Val "Deepa";
     MobileAuth.username := Val user;
     MobileAuth.date_of_birth := Absent;
     MobileAuth.session_token := Absent |}.

Definition signup_request (mobile user : string) : MobileAuth.Request :=
  {| MobileAuth.method := "POST";
     MobileAuth.json := Json (signup_body mobile user) |}.

(** A post for [u1], sent without any session token. *)
Definition anonymous_post : CreatePost.Request :=
  {| CreatePost.method := "POST";
     CreatePost.x_session_token := None;
     CreatePost.json :=
       Json {| CreatePost.user_id := Val "u1";
               CreatePost.content := Val "hello";
               CreatePost.image_url := Absent;
               CreatePost.youtube_url := Absent |} |}.

Definition anonymous_business : CreateBusiness.Request :=
  {| CreateBusiness.method := "POST";
     CreateBusiness.x_session_token := None;
     CreateBusiness.json :=
       Json {| CreateBusiness.user_id := Val "u1";
               CreateBusiness.name := Val "Anu Tailors";
               CreateBusiness.description := Absent;
               CreateBusiness.category := Absent;
               CreateBusiness.location := Absent;
               CreateBusiness.logo_url := Absent;
               CreateBusiness.cover_image_url := Absent;
               CreateBusiness.website_url := Absent;
               CreateBusiness.instagram_link := Absent;
               CreateBusiness.youtube_link := Absent |} |}.
(** Requests to manage-jobs. *)
Definition list_body : ManageJobs.Body :=
  ManageJobsSpec.request_body "list" Absent Absent Absent.

Definition list_as_u1 : ManageJobs.Request :=
  ManageJobsSpec.post (Some "t-u1") (Json list_body).

Definition update_j3_body : ManageJobs.Body :=
  ManageJobsSpec.request_body "update" (Val "j3")
    (Val (Str (text_of_string "Cutter"))) Absent.

Definition update_j3_as_u1 : ManageJobs.Request :=
  ManageJobsSpec.post (Some "t-u1") (Json update_j3_body).

(** A title of two spaces and a no-break space. *)
Definition create_blank_body : ManageJobs.Body :=
  ManageJobsSpec.request_body "create" Absent
    (Val (Str [32; 32; 160]%N)) (Val (Str (text_of_string "Stitching"))).

Definition create_blank_as_u1 : ManageJobs.Request :=
  ManageJobsSpec.post (Some "t-u1") (Json create_blank_body).

(** [{ action: "create", title: 123, description: "" }] *)
Definition create_numeric_title_body : ManageJobs.Body :=
  ManageJobsSpec.request_body "create" Absent
    (Val (NotStr (text_of_string "123"))) (Val (Str [])).

Definition create_numeric_title_as_u1 : ManageJobs.Request :=
  ManageJobsSpec.post (Some "t-u1") (Json create_numeric_title_body).

Definition apply_j3_body : ManageJobs.Body :=
  ManageJobsSpec.request_body "apply" (Val "j3") Absent Absent.

(** [{ action: "apply", job_id: "j3", message: 123 }] *)
Definition apply_numeric_message_body : ManageJobs.Body :=
  {| ManageJobs.action := Val "apply"; ManageJobs.job_id := Val "j3";
     ManageJobs.title := Absent; ManageJobs.description := Absent;
     ManageJobs.conditions := Absent; ManageJobs.location := Absent;
     ManageJobs.max_applications := Absent; ManageJobs.expires_at := Absent;
     ManageJobs.new_status := Absent;
     ManageJobs.message := Val (NotStr (text_of_string "123"));
     ManageJobs.education_qualification := Absent;
     ManageJobs.experience_details := Absent;
     ManageJobs.application_id := Absent; ManageJobs.reply_type := Absent |}.

Definition apply_numeric_message_as_u1 : ManageJobs.Request :=
  ManageJobsSpec.post (Some "t-u1") (Json apply_numeric_message_body).

Definition apply_j3_as_u1 : ManageJobs.Request :=
  ManageJobsSpec.post (Some "t-u1") (Json apply_j3_body).



Definition get_body (id : string) : ManageJobs.Body :=
  ManageJobsSpec.request_body "get" (Val id) Absent Absent.

Definition get_anonymous (id : string) : ManageJobs.Request :=
  ManageJobsSpec.post None (Json (get_body id)).

Definition create_anonymous : ManageJobs.Request :=
  ManageJobsSpec.post None (Json create_blank_body).

(** Two bodies that are not JSON. *)
Definition truncated : ManageJobs.Request :=
  ManageJobsSpec.post None (Malformed "Unexpected end of JSON input").

Definition garbled : ManageJobs.Request :=
  ManageJobsSpec.post None (Malformed "Unexpected token < in JSON at position 0").
End Samples.

(** * admin-manage: the session and role gate

    The handler that follows mobile-auth in [create-business/index.ts]:
    its lines up to the [switch] on the action, the final response and
    the [catch] block.  The branches of the [switch] reach tables that
    are not part of [Store]; they are a parameter that runs with the
    user of the session and the parsed body, and may throw.  As in
    manage-jobs, the two environment variables are taken to be set. *)

Module AdminManage.

Set Implicit Arguments.

Record Request (Body : Type) : Type := {
  method : string;
  x_session_token : option string;
  json : parsed Body
}.

Inductive payload (Result : Type) : Type :=
| NoBody
| Error (error : string)
| Result_ (r : Result).
Arguments NoBody {Result}.
Arguments Error {Result}.

Record Response (Result : Type) : Type := {
  status : Z;
  content_of : payload Result
}.

Definition error_response {Result} (code : Z) (msg : string) : Response Result :=
  {| status := code; content_of := Error msg |}.

Section Handler.
Variable env : Env.
Variables Body Result : Type.
Variable actions : uuid -> Body -> M (Response Result) Result.

Definition handle (req : Request Body) : M (Response Result) (Response Result) :=
  match x_session_token req with
  | None => respond (error_response 401 "Missing session token")
  | Some sessionToken =>
      if negb (truthy sessionToken)
      then respond (error_response 401 "Missing session token")
      else
        now <- date_now env ;;
        sessions <- select env (fun s =>
                      Data (firstn 1 (filter (ManageJobs.live_session sessionToken now)
                                             (user_sessions s)))) ;;
        match sessions with
        | Data (session :: _) =>
            roles <- select env (fun s =>
                       Data (map r_role
                                 (filter (fun r => r_user_id r =? s_user_id session)
                                         (user_roles s)))) ;;
            match roles with
            | Data (_ :: _) =>
                b <- req_json (json req) ;;
                result <- actions (s_user_id session) b ;;
                ret {| status := 200; content_of := Result_ result |}
            | _ => respond (error_response 403 "Unauthorized: No admin roles")
            end
        | _ => respond (error_response 401 "Invalid or expired session")
        end
  end.

(** The [catch] block: the message of the thrown [Error], or
    ["Unknown error"]. *)
Definition on_error (e : thrown) : Response Result :=
  error_response 500
    match e with
    | ErrorInstance m => m
    | NotAnError => "Unknown error"
    end.

Definition serve (req : Request Body) (w : World) : Response Result * World :=
  if method req =? "OPTIONS"
  then ({| status := 200; content_of := NoBody |}, w)
  else
    match handle req w with
    | (Value r, w') => (r, w')
    | (Returned r, w') => (r, w')
    | (Threw e, w') => (on_error e, w')
    end.
End Handler.

Unset Implicit Arguments.

End AdminManage.

(** * manage-community: the actions

    Lines 47-553 of the handler: what runs once the gate of
    [ManageCommunity] has let user [userId] through and the body has
    been parsed.  The actions reach four tables and no other; these are
    kept in a store of their own, with its own counter of effects, read
    against the same [Env].  Columns that no action reads or writes
    ([is_disabled] and the like, the text of a discussion, [joined_at])
    are left out of the rows. *)

Module CommunityActions.

Record Community : Type := {
  cm_id : uuid;
  cm_name : text;
  cm_description : option text;
  cm_cover_image_url : option string;
  cm_created_by : option uuid;
  cm_approval_status : option string;
  cm_created_at : timestamp;
  cm_updated_at : timestamp
}.

Record Member : Type := {
  m_id : uuid;
  m_community_id : uuid;
  m_user_id : uuid;
  m_role : string
}.

Record Discussion : Type := {
  d_id : uuid;
  d_user_id : uuid;
  d_community_id : uuid
}.

Record Permission : Type := {
  pm_id : uuid;
  pm_community_id : uuid;
  pm_user_id : uuid;
  pm_permission : string;
  pm_granted_by : uuid
}.

Record Tables : Type := {
  communities : list Community;
  community_members : list Member;
  community_discussions : list Discussion;
  community_permissions : list Permission
}.

Definition set_communities (t : Tables) (l : list Community) : Tables :=
  {| communities := l; community_members := community_members t;
     community_discussions := community_discussions t;
     community_permissions := community_permissions t |}.

Definition set_community_members (t : Tables) (l : list Member) : Tables :=
  {| communities := communities t; community_members := l;
     community_discussions := community_discussions t;
     community_permissions := community_permissions t |}.

Definition set_community_discussions (t : Tables) (l : list Discussion) : Tables :=
  {| communities := communities t; community_members := community_members t;
     community_discussions := l;
     community_permissions := community_permissions t |}.

Definition set_community_permissions (t : Tables) (l : list Permission) : Tables :=
  {| communities := communities t; community_members := community_members t;
     community_discussions := community_discussions t;
     community_permissions := l |}.

Record Body : Type := {
  action : field string;
  community_id : field string;
  name : field jtext;
  description : field jtext;
  cover_image_url : field string;
  discussion_id : field string;
  member_user_id : field string;
  target_user_id : field string;
  permission : field string
}.

Inductive payload : Type :=
| Error (error : string)
| Created (community : Community)
| Success
| SuccessMessage (message : string).

Record Response : Type := {
  status : Z;
  content_of : payload
}.

Definition error_response (code : Z) (msg : string) : Response :=
  {| status := code; content_of := Error msg |}.

Definition ok (p : payload) : Response := {| status := 200; content_of := p |}.

(** ** The computations of the actions *)

Record State : Type := {
  tables : Tables;
  calls : nat
}.

Definition after (w : State) (t : Tables) : State :=
  {| tables := t; calls := S (calls w) |}.

(** A step yields a value or the response the handler returns at once. *)
Definition C (A : Type) : Type := State -> (A + Response) * State.

Definition pure {A} (a : A) : C A := fun w => (inl a, w).

Definition and_then {A B} (c : C A) (k : A -> C B) : C B :=
  fun w =>
    match c w with
    | (inl a, w') => k a w'
    | (inr r, w') => (inr r, w')
    end.

Notation "x <~ c ;; k" := (and_then c (fun x => k))
  (at level 61, c at next level, right associativity).

(** [return new Response(...)] *)
Definition stop {A} (r : Response) : C A := fun w => (inr r, w).

Section Effects.
Variable env : Env.

(** [new Date()] *)
Definition clock : C timestamp :=
  fun w => (inl (clock_at env (calls w)), after w (tables w)).

(** One awaited call of the datastore client. *)
Definition ask {A} (q : Tables -> answer A * Tables) : C (answer A) :=
  fun w =>
    match fault_at env (calls w) with
    | Some msg => (inl (Failed msg), after w (tables w))
    | None => let (r, t) := q (tables w) in (inl r, after w t)
    end.

Definition fetch {A} (q : Tables -> answer A) : C (answer A) :=
  ask (fun t => (q t, t)).

Definition modify (f : Tables -> Tables) : C (answer unit) :=
  ask (fun t => (Data tt, f t)).

(** An insert: the datastore generates [id] and the timestamps. *)
Definition add {A} (q : uuid -> timestamp -> Tables -> answer A * Tables)
  : C (answer A) :=
  fun w => ask (q (uuid_at env (calls w)) (clock_at env (calls w))) w.
End Effects.

(** [x?.trim()] on a property of the body.  The [TypeError] that a value
    without a method [trim] raises is caught by the [catch] block of the
    handler (lines 555-560), which answers 500: for the actions it is
    one more response returned at once. *)
Definition trim_call (f : field jtext) : C (option text) :=
  match f with
  | Val (Str t) => pure (Some (trim t))
  | Val (NotStr _) => stop (error_response 500 "Internal server error")
  | _ => pure None
  end.

(** [if (!x) return 400] *)
Definition required (f : field string) (msg : string) : C string :=
  match str_or_null f with
  | Some v => pure v
  | None => stop (error_response 400 msg)
  end.

(** [data] of a [.maybeSingle()] whose error is not looked at. *)
Definition row_of {A} (r : answer (option A)) : option A :=
  match r with Data (Some a) => Some a | _ => None end.

(** [select("created_by").eq("id", id)] *)
Definition created_by_of (t : Tables) (id : uuid) : list (option uuid) :=
  map cm_created_by (filter (fun c => cm_id c =? id) (communities t)).

(** [row?.created_by === x], on the row a lookup gave, if any. *)
Definition created_by_is (x : uuid) (row : option (option uuid)) : bool :=
  match row with
  | Some (Some c) => c =? x
  | _ => false
  end.

Definition permissions_of (t : Tables) (cid u : uuid) (p : string)
  : list Permission :=
  filter (fun x => (pm_community_id x =? cid) && (pm_user_id x =? u) &&
                   (pm_permission x =? p))
         (community_permissions t).

Definition memberships_of (t : Tables) (cid u : uuid) : list Member :=
  filter (fun m => (m_community_id m =? cid) && (m_user_id m =? u))
         (community_members t).

Definition validPermissions : list string :=
  ["edit_community"; "create_polls"; "moderate_discussions"; "manage_members"].

(** The row of an insert into [communities]: [n] and [d] are the values
    of [name.trim()] and [description?.trim() || null]. *)
Definition new_community (u : uuid) (b : Body) (n : text) (d : option text)
           (id : uuid) (now : timestamp) : Community :=
  {| cm_id := id; cm_name := n;
     cm_description := d;
     cm_cover_image_url := str_or_null (cover_image_url b);
     cm_created_by := Some u; cm_approval_status := Some "pending";
     cm_created_at := now; cm_updated_at := now |}.

(** The object given to [.update]: [n], the value of [name?.trim()], is
    [undefined], hence no key of the request, when the body has no name;
    the other three keys are always sent, [d] being the value of
    [description?.trim() || null]. *)
Definition update_community (b : Body) (n d : option text) (upd : timestamp)
           (c : Community) : Community :=
  {| cm_id := cm_id c;
     cm_name := match n with Some t => t | None => cm_name c end;
     cm_description := d;
     cm_cover_image_url := str_or_null (cover_image_url b);
     cm_created_by := cm_created_by c;
     cm_approval_status := cm_approval_status c;
     cm_created_at := cm_created_at c; cm_updated_at := upd |}.

Definition new_member (cid u : uuid) (role : string) (id : uuid) : Member :=
  {| m_id := id; m_community_id := cid; m_user_id := u; m_role := role |}.

(** [if (error) return 400 with error.message], else [{ success: true }]. *)
Definition finish (r : answer unit) : C Response :=
  match r with
  | Failed m => stop (error_response 400 m)
  | Data _ => pure (ok Success)
  end.

Section Actions.
Variable env : Env.
Variable userId : uuid.

Definition create (b : Body) : C Response :=
  n <~ trim_call (name b) ;;
  match or_null n with
  | None => stop (error_response 400 "Community name is required")
  | Some name_ =>
      d <~ trim_call (description b) ;;
      r <~ add env (fun id now t =>
             let c := new_community userId b name_ (or_null d) id now in
             (Data c, set_communities t (communities t ++ [c])%list)) ;;
      match r with
      | Failed m => stop (error_response 400 m)
      | Data community =>
          (* Auto-join creator as admin; a refusal is only logged *)
          _memberError <~ add env (fun id _ t =>
              (Data tt,
               set_community_members t
                 (community_members t ++
                  [new_member (cm_id community) userId "admin" id])%list)) ;;
          pure (ok (Created community))
      end
  end.

(** The ownership test of [update] and [delete], on a [.single()]. *)
Definition verify_ownership (cid : uuid) (msg : string) : C unit :=
  existing <~ fetch env (fun t => single (created_by_of t cid)) ;;
  if created_by_is userId (data_of existing)
  then pure tt
  else stop (error_response 403 msg).

Definition update (b : Body) : C Response :=
  cid <~ required (community_id b) "Community ID is required" ;;
  _owner <~ verify_ownership cid "Not authorized to update this community" ;;
  n <~ trim_call (name b) ;;
  d <~ trim_call (description b) ;;
  upd <~ clock env ;;
  r <~ modify env (fun t =>
         set_communities t
           (map (fun c => if cm_id c =? cid
                          then update_community b n (or_null d) upd c else c)
                (communities t))) ;;
  finish r.

Definition delete (b : Body) : C Response :=
  cid <~ required (community_id b) "Community ID is required" ;;
  _owner <~ verify_ownership cid "Not authorized to delete this community" ;;
  r <~ modify env (fun t =>
         set_communities t
           (filter (fun c => negb (cm_id c =? cid)) (communities t))) ;;
  finish r.

Definition join (b : Body) : C Response :=
  cid <~ required (community_id b) "Community ID is required" ;;
  r <~ add env (fun id _ t =>
         (Data tt,
          set_community_members t
            (community_members t ++ [new_member cid userId "member" id])%list)) ;;
  finish r.

Definition remove_membership (cid u : uuid) (t : Tables) : Tables :=
  set_community_members t
    (filter (fun m => negb ((m_community_id m =? cid) && (m_user_id m =? u)))
            (community_members t)).

Definition leave (b : Body) : C Response :=
  cid <~ required (community_id b) "Community ID is required" ;;
  r <~ modify env (remove_membership cid userId) ;;
  finish r.

(** [hasModeratePermission] and [hasManagePermission]: [!!permission]. *)
Definition holds_permission (cid : uuid) (p : string) : C bool :=
  r <~ fetch env (fun t => maybeSingle (permissions_of t cid userId p)) ;;
  pure (match row_of r with Some _ => true | None => false end).

Definition delete_discussion (b : Body) : C Response :=
  did <~ required (discussion_id b) "Discussion ID is required" ;;
  found <~ fetch env (fun t =>
             maybeSingle (filter (fun d => d_id d =? did)
                                 (community_discussions t))) ;;
  match found with
  | Data (Some discussion) =>
      let isOwner := d_user_id discussion =? userId in
      allowed <~
        (if isOwner then pure true
         else
           community <~ fetch env (fun t =>
                          maybeSingle (created_by_of t (d_community_id discussion))) ;;
           if created_by_is userId (row_of community) then pure true
           else holds_permission (d_community_id discussion)
                                 "moderate_discussions") ;;
      if negb allowed
      then stop (error_response 403 "Not authorized to delete this discussion")
      else
        r <~ modify env (fun t =>
               set_community_discussions t
                 (filter (fun d => negb (d_id d =? did))
                         (community_discussions t))) ;;
        finish r
  | _ => stop (error_response 404 "Discussion not found")
  end.

Definition remove_member (b : Body) : C Response :=
  cid <~ required (community_id b) "Community ID is required" ;;
  member <~ required (member_user_id b) "Member user ID is required" ;;
  communityCheck <~ fetch env (fun t => maybeSingle (created_by_of t cid)) ;;
  let isCreator := created_by_is userId (row_of communityCheck) in
  hasManagePermission <~
    (if isCreator then pure false else holds_permission cid "manage_members") ;;
  if negb isCreator && negb hasManagePermission
  then stop (error_response 403
         "Only community admins or members with manage permission can remove members")
  else if created_by_is member (row_of communityCheck)
  then stop (error_response 400 "Cannot remove the community creator")
  else if member =? userId
  then stop (error_response 400 "Cannot remove yourself from your own community")
  else
    r <~ modify env (remove_membership cid member) ;;
    finish r.

(** The three tests [grant_permission] and [revoke_permission] start
    with. *)
Definition permission_request (b : Body) : C (uuid * uuid * string) :=
  match str_or_null (community_id b), str_or_null (target_user_id b),
        str_or_null (permission b) with
  | Some cid, Some target, Some p =>
      if negb (existsb (String.eqb p) validPermissions)
      then stop (error_response 400 "Invalid permission type")
      else
        communityData <~ fetch env (fun t => maybeSingle (created_by_of t cid)) ;;
        if created_by_is userId (row_of communityData)
        then pure (cid, target, p)
        else stop (error_response 403
               "Only community creators can manage permissions")
  | _, _, _ =>
      stop (error_response 400
        "Community ID, target user ID, and permission are required")
  end.

Definition grant_permission (b : Body) : C Response :=
  req <~ permission_request b ;;
  let '(cid, target, p) := req in
  memberCheck <~ fetch env (fun t => maybeSingle (memberships_of t cid target)) ;;
  match row_of memberCheck with
  | None => stop (error_response 400 "User is not a member of this community")
  | Some _ =>
      existingPermission <~ fetch env (fun t =>
                              maybeSingle (permissions_of t cid target p)) ;;
      match row_of existingPermission with
      | Some _ => stop (ok (SuccessMessage "Permission already granted"))
      | None =>
          r <~ add env (fun id _ t =>
                 (Data tt,
                  set_community_permissions t
                    (community_permissions t ++
                     [{| pm_id := id; pm_community_id := cid;
                         pm_user_id := target; pm_permission := p;
                         pm_granted_by := userId |}])%list)) ;;
          finish r
      end
  end.

Definition revoke_permission (b : Body) : C Response :=
  req <~ permission_request b ;;
  let '(cid, target, p) := req in
  r <~ modify env (fun t =>
         set_community_permissions t
           (filter (fun x => negb ((pm_community_id x =? cid) &&
                                   (pm_user_id x =? target) &&
                                   (pm_permission x =? p)))
                   (community_permissions t))) ;;
  finish r.

(** The chain of [if (action === ...)]. *)
Definition actions (b : Body) : C Response :=
  match action b with
  | Val a =>
      if a =? "create" then create b
      else if a =? "update" then update b
      else if a =? "delete" then delete b
      else if a =? "join" then join b
      else if a =? "leave" then leave b
      else if a =? "delete_discussion" then delete_discussion b
      else if a =? "remove_member" then remove_member b
      else if a =? "grant_permission" then grant_permission b
      else if a =? "revoke_permission" then revoke_permission b
      else stop (error_response 400 "Invalid action")
  | _ => stop (error_response 400 "Invalid action")
  end.

(** The response and the tables a run of the actions ends with. *)
Definition run (b : Body) (w : State) : Response * State :=
  match actions b w with
  | (inl r, w') => (r, w')
  | (inr r, w') => (r, w')
  end.
End Actions.

End CommunityActions.

(** * Row-level policy of the jobs table

    The [SELECT] policy the approval migration creates on [jobs], in the
    three-valued logic of SQL.  [auth.uid()] and the function
    [has_any_admin_role], which the migration does not declare, are
    parameters. *)

Module Policies.

(** A truth value of SQL: [None] is [NULL]. *)
Definition sql_bool : Type := option bool.

Definition sql_and (a b : sql_bool) : sql_bool :=
  match a, b with
  | Some false, _ | _, Some false => Some false
  | Some true, Some true => Some true
  | _, _ => None
  end.

Definition sql_or (a b : sql_bool) : sql_bool :=
  match a, b with
  | Some true, _ | _, Some true => Some true
  | Some false, Some false => Some false
  | _, _ => None
  end.

(** [a = b] on text and uuid columns. *)
Definition sql_eq (a b : option string) : sql_bool :=
  match a, b with
  | Some x, Some y => Some (x =? y)
  | _, _ => None
  end.

(** A row is returned when the [USING] expression is true. *)
Definition passes (v : sql_bool) : bool :=
  match v with Some true => true | _ => false end.

Section Policy.
Variable auth_uid : option uuid.
Variable has_any_admin_role : option uuid -> sql_bool.

(** ["Approved open jobs are viewable"] *)
Definition jobs_select (j : Job) : sql_bool :=
  sql_or
    (sql_or
       (sql_and (sql_eq (j_approval_status j) (Some "approved"))
                (Some (job_status_eqb (j_status j) Open)))
       (sql_eq (Some (j_creator_id j)) auth_uid))
    (has_any_admin_role auth_uid).
End Policy.

End Policies.

(** * Vocabulary of the further properties *)

(** The property names of [Object.prototype] in the runtime of the
    handlers: the keys that [replyMessages[reply_type]] finds although the
    object literal does not list them. *)
Definition object_prototype_keys : list string :=
  ["constructor"; "__defineGetter__"; "__defineSetter__"; "hasOwnProperty";
   "__lookupGetter__"; "__lookupSetter__"; "isPrototypeOf";
   "propertyIsEnumerable"; "toString"; "valueOf"; "__proto__";
   "toLocaleString"].

(** What a property [f] of the body makes of a column that was [old]:
    the column is left alone when the property is missing, and takes its
    value, [null] included, when it is there. *)
Definition overwritten {A : Type} (f : field A) (old new : option A) : Prop :=
  (f = Absent -> new = old) /\ (f = Null -> new = None) /\
  (forall a, f = Val a -> new = Some a).

(** The same for a text column, which stores what the datastore makes of
    the JSON value. *)
Definition overwritten_text (f : field jtext) (old new : option text) : Prop :=
  (f = Absent -> new = old) /\ (f = Null -> new = None) /\
  (forall v, f = Val v -> new = Some (stored v)).

(** The column written for [x || null] on a string property: the
    string, or [null] when the property is missing, [null] or empty. *)
Definition value_or_null (f : field string) (column : option string) : Prop :=
  (forall v, f = Val v -> v <> "" -> column = Some v) /\
  (f = Absent \/ f = Null \/ f = Val "" -> column = None).

(** A computation whose run leaves the tables related by [P] to what they
    were, whatever the datastore answers. *)
Definition keeps {R A : Type} (P : Store -> Store -> Prop) (c : M R A) : Prop :=
  forall w, P (db w) (db (snd (c w))).

(** Every table but [jobs] and [job_applications] is as it was. *)
Definition same_outside_jobs (s s' : Store) : Prop :=
  profiles s' = profiles s /\ user_credentials s' = user_credentials s /\
  user_sessions s' = user_sessions s /\ user_roles s' = user_roles s /\
  businesses s' = businesses s /\ posts s' = posts s.

(** The actions of manage-jobs that send a write to the datastore. *)
Definition writing_actions : list string :=
  ["list"; "create"; "update"; "delete"; "apply"; "reply"].

(** Each job of [s'] is a job of [s] with the id, the creator and the
    approval status it had, or a job that awaits approval and has the
    requester [uo] for creator. *)
Definition jobs_from (uo : option uuid) (s s' : Store) : Prop :=
  forall j', In j' (jobs s') ->
    (exists j, In j (jobs s) /\ j_id j' = j_id j /\
               j_creator_id j' = j_creator_id j /\
               j_approval_status j' = j_approval_status j) \/
    (uo = Some (j_creator_id j') /\ j_approval_status j' = Some "pending").

(** The user names in use. *)
Definition usernames (s : Store) : list string :=
  flat_map (fun p => match p_username p with Some n => [n] | None => [] end)
           (profiles s).

(** The tables that hold no account data are as they were. *)
Definition same_outside_accounts (s s' : Store) : Prop :=
  user_roles s' = user_roles s /\ jobs s' = jobs s /\
  job_applications s' = job_applications s /\
  businesses s' = businesses s /\ posts s' = posts s.

(** Each community of [t'] is a community of [t] with the id, the
    creator and the approval status it had, or a community that awaits
    approval and has [u] for creator. *)
Definition communities_from (u : uuid) (t t' : CommunityActions.Tables) : Prop :=
  forall c', In c' (CommunityActions.communities t') ->
    (exists c, In c (CommunityActions.communities t) /\
               CommunityActions.cm_id c' = CommunityActions.cm_id c /\
               CommunityActions.cm_created_by c' = CommunityActions.cm_created_by c /\
               CommunityActions.cm_approval_status c' =
                 CommunityActions.cm_approval_status c) \/
    (CommunityActions.cm_created_by c' = Some u /\
     CommunityActions.cm_approval_status c' = Some "pending").

(** The key of a permission row. *)
Definition permission_key (x : CommunityActions.Permission)
  : uuid * uuid * string :=
  (CommunityActions.pm_community_id x, CommunityActions.pm_user_id x,
   CommunityActions.pm_permission x).

(** User [u] holds permission [p] in community [cid]. *)
Definition holds (t : CommunityActions.Tables) (cid u : uuid) (p : string) : Prop :=
  exists x, In x (CommunityActions.community_permissions t) /\
            permission_key x = (cid, u, p).

(** User [u] is a member of community [cid]. *)
Definition is_member (t : CommunityActions.Tables) (cid u : uuid) : Prop :=
  exists m, In m (CommunityActions.community_members t) /\
            CommunityActions.m_community_id m = cid /\
            CommunityActions.m_user_id m = u.

(** Timestamps from the latest to the earliest. *)
Fixpoint newest_first (l : list timestamp) : Prop :=
  match l with
  | [] => True
  | x :: r => (forall y, In y r -> (y <= x)%Z) /\ newest_first r
  end.

(** The three texts a reply to an application can carry. *)
Definition reply_texts : list string :=
  ["We will contact you soon. Thank you for your interest!";
   "Congratulations! You have been shortlisted. We will contact you for further details.";
   "Thank you for applying. Unfortunately, we have decided to move forward with other candidates."].


(** ** Further sample requests *)

Module MoreSamples.
Import Samples.

Definition my_jobs_as_u1 : ManageJobs.Request :=
  ManageJobsSpec.post (Some "t-u1")
    (Json (ManageJobsSpec.request_body "my_jobs" Absent Absent Absent)).

(** A title with a space before and after it. *)
Definition create_body : ManageJobs.Body :=
  ManageJobsSpec.request_body "create" Absent
    (Val (Str (text_of_string " Cutter ")))
    (Val (Str (text_of_string "Cutting cloth"))).

Definition create_as_u1 : ManageJobs.Request :=
  ManageJobsSpec.post (Some "t-u1") (Json create_body).

Definition update_j2_body : ManageJobs.Body :=
  ManageJobsSpec.request_body "update" (Val "j2")
    (Val (Str (text_of_string "Cutter"))) Absent.

Definition update_j2_as_u1 : ManageJobs.Request :=
  ManageJobsSpec.post (Some "t-u1") (Json update_j2_body).

Definition delete_body (id : string) : ManageJobs.Body :=
  ManageJobsSpec.request_body "delete" (Val id) Absent Absent.

Definition delete_as_u1 (id : string) : ManageJobs.Request :=
  ManageJobsSpec.post (Some "t-u1") (Json (delete_body id)).

Definition reply_body (rt : field string) : ManageJobs.Body :=
  {| ManageJobs.action := Val "reply"; ManageJobs.job_id := Absent;
     ManageJobs.title := Absent; ManageJobs.description := Absent;
     ManageJobs.conditions := Absent; ManageJobs.location := Absent;
     ManageJobs.max_applications := Absent; ManageJobs.expires_at := Absent;
     ManageJobs.new_status := Absent; ManageJobs.message := Absent;
     ManageJobs.education_qualification := Absent;
     ManageJobs.experience_details := Absent;
     ManageJobs.application_id := Val "a1"; ManageJobs.reply_type := rt |}.

Definition reply_as (token : string) (rt : field string) : ManageJobs.Request :=
  ManageJobsSpec.post (Some token) (Json (reply_body rt)).

Definition business_owner_as_u1 : ManageJobs.Request :=
  ManageJobsSpec.post (Some "t-u1")
    (Json (ManageJobsSpec.request_body "check_business_owner" Absent Absent Absent)).

(** The board with a business of [u1] that awaits approval. *)
Definition board_with_pending_business : Store :=
  set_businesses board
    [{| b_id := "b1"; b_owner_id := "u1"; b_name := "Anu Tailors";
        b_description := None; b_category := "other"; b_location := None;
        b_logo_url := None; b_cover_image_url := None; b_website_url := None;
        b_instagram_link := None; b_youtube_link := None;
        b_approval_status := Some "pending" |}].

Definition world1 : World := {| db := board_with_pending_business; tick := 0 |}.
Definition auth_body (act : string) (mobile pass : field string)
           (token : field string) : MobileAuth.Body :=
  {| MobileAuth.action := Val act;
     MobileAuth.mobile_number := mobile;
     MobileAuth.password := pass;
     MobileAuth.full_name := Absent;
     MobileAuth.username := Absent;
     MobileAuth.date_of_birth := Absent;
     MobileAuth.session_token := token |}.

Definition signin_request (mobile pass : string) : MobileAuth.Request :=
  {| MobileAuth.method := "POST";
     MobileAuth.json := Json (auth_body "signin" (Val mobile) (Val pass) Absent) |}.

Definition validate_request (token : string) : MobileAuth.Request :=
  {| MobileAuth.method := "POST";
     MobileAuth.json := Json (auth_body "admin_validate" Absent Absent (Val token)) |}.
(** A post without content for a user who has no profile. *)
Definition empty_post : CreatePost.Request :=
  {| CreatePost.method := "POST";
     CreatePost.x_session_token := None;
     CreatePost.json :=
       Json {| CreatePost.user_id := Val "u9";
               CreatePost.content := Val "";
               CreatePost.image_url := Absent;
               CreatePost.youtube_url := Null |} |}.

(** One community, created by [u1]; [u2] may manage its members; [u3]
    has written a discussion. *)
Definition weavers : CommunityActions.Community :=
  {| CommunityActions.cm_id := "k1";
     CommunityActions.cm_name := text_of_string "Weavers";
     CommunityActions.cm_description := Some (text_of_string "Looms and yarn");
     CommunityActions.cm_cover_image_url := None;
     CommunityActions.cm_created_by := Some "u1";
     CommunityActions.cm_approval_status := Some "approved";
     CommunityActions.cm_created_at := 5;
     CommunityActions.cm_updated_at := 5 |}.

Definition member_of_k1 (id u role : string) : CommunityActions.Member :=
  {| CommunityActions.m_id := id; CommunityActions.m_community_id := "k1";
     CommunityActions.m_user_id := u; CommunityActions.m_role := role |}.

Definition first_discussion : CommunityActions.Discussion :=
  {| CommunityActions.d_id := "d1"; CommunityActions.d_user_id := "u3";
     CommunityActions.d_community_id := "k1" |}.

Definition village : CommunityActions.Tables :=
  {| CommunityActions.communities := [weavers];
     CommunityActions.community_members :=
       [member_of_k1 "m1" "u1" "admin"; member_of_k1 "m2" "u2" "member";
        member_of_k1 "m3" "u3" "member"];
     CommunityActions.community_discussions := [first_discussion];
     CommunityActions.community_permissions :=
       [{| CommunityActions.pm_id := "p1";
           CommunityActions.pm_community_id := "k1";
           CommunityActions.pm_user_id := "u2";
           CommunityActions.pm_permission := "manage_members";
           CommunityActions.pm_granted_by := "u1" |}] |}.

Definition village0 : CommunityActions.State :=
  {| CommunityActions.tables := village; CommunityActions.calls := 0 |}.

Definition community_body (act : string) (cid : field string)
           (nm : field jtext) (disc member target perm : field string)
  : CommunityActions.Body :=
  {| CommunityActions.action := Val act;
     CommunityActions.community_id := cid;
     CommunityActions.name := nm;
     CommunityActions.description := Absent;
     CommunityActions.cover_image_url := Absent;
     CommunityActions.discussion_id := disc;
     CommunityActions.member_user_id := member;
     CommunityActions.target_user_id := target;
     CommunityActions.permission := perm |}.

(** An admin action that answers with the id of the admin, and throws
    for an action it does not know. *)
Definition whoami (u : uuid) (act : string)
  : M (AdminManage.Response string) string :=
  if act =? "whoami" then ret u
  else throw (ErrorInstance ("Unknown action: " ++ act)).

Definition admin_request (token : option string) (act : string)
  : AdminManage.Request string :=
  {| AdminManage.method := "POST"; AdminManage.x_session_token := token;
     AdminManage.json := Json act |}.
End MoreSamples.

(** * Facts about the embedding *)

(** ** Text *)

Lemma trim_start_nil (t : text) :
  trim_start t = [] <-> forallb is_white_space t = true.
Proof.
  induction t as [|c r IH]; simpl.
  - tauto.
  - destruct (is_white_space c); simpl.
    + exact IH.
    + split; discriminate.
Qed.

Lemma trim_start_keeps (t : text) :
  trim_start t = [] \/ exists c r, trim_start t = c :: r /\ is_white_space c = false.
Proof.
  induction t as [|c r IH]; simpl.
  - now left.
  - destruct (is_white_space c) eqn:E.
    + exact IH.
    + right. now exists c, r.
Qed.

Lemma forallb_rev {A : Type} (p : A -> bool) (l : list A) :
  forallb p (rev l) = forallb p l.
Proof.
  induction l as [|x l IH]; simpl; [reflexivity|].
  rewrite forallb_app, IH. simpl. rewrite andb_true_r. apply andb_comm.
Qed.

(** [trim] leaves nothing exactly of the texts made of white space. *)
Lemma trim_nil (t : text) :
  trim t = [] <-> forallb is_white_space t = true.
Proof.
  unfold trim, trim_end.
  destruct (trim_start_keeps t) as [E | (c & r & E & Hc)].
  - rewrite E. simpl. split; [intros _; now apply trim_start_nil | reflexivity].
  - rewrite E. split.
    + intros H. apply (f_equal (@rev N)) in H. rewrite rev_involutive in H.
      change (rev (@nil N)) with (@nil N) in H.
      apply trim_start_nil in H. rewrite forallb_rev in H. simpl in H.
      rewrite Hc in H. discriminate.
    + intros H. apply trim_start_nil in H. rewrite H in E. discriminate.
Qed.

Lemma or_null_trim (t : text) :
  (forallb is_white_space t = true /\ or_null (Some (trim t)) = None) \/
  (forallb is_white_space t = false /\ trim t <> [] /\
   or_null (Some (trim t)) = Some (trim t)).
Proof.
  unfold or_null. destruct (trim t) as [|c r] eqn:E; simpl.
  - left. split; [now apply trim_nil | reflexivity].
  - right. split; [|split; [discriminate | reflexivity]].
    destruct (forallb is_white_space t) eqn:Ew; [|reflexivity].
    apply trim_nil in Ew. congruence.
Qed.

(** [x?.trim()] on a property that is a string, or nothing. *)
Lemma optional_trim_blank {R : Type} (callee : string) (f : field jtext) :
  absent_empty_or_whitespace f ->
  exists o, optional_trim (R := R) callee f = ret o /\ or_null o = None.
Proof.
  destruct f as [| |[t|r]]; simpl; intros H; try contradiction;
    try (exists None; split; reflexivity).
  exists (Some (trim t)). split; [reflexivity|].
  destruct (or_null_trim t) as [[_ E] | [E _]]; [exact E | congruence].
Qed.

Lemma optional_trim_content {R : Type} (callee : string) (f : field jtext) :
  text_with_content f ->
  exists t, f = Val (Str t) /\ trim t <> [] /\
            optional_trim (R := R) callee f = ret (Some (trim t)) /\
            or_null (Some (trim t)) = Some (trim t).
Proof.
  intros (t & -> & Hw). exists t.
  destruct (or_null_trim t) as [[E _] | (_ & Hne & E)]; [congruence|].
  repeat split; assumption.
Qed.

Lemma optional_trim_text {R : Type} (callee : string) (f : field jtext) :
  text_or_nothing f ->
  exists o, optional_trim (R := R) callee f = ret o /\
            trimmed_or_null f (or_null o).
Proof.
  destruct f as [| |[t|r]]; simpl; intros H; try contradiction;
    try (exists None; split; reflexivity).
  exists (Some (trim t)). split; [reflexivity|].
  unfold trimmed_or_null, or_null. destruct (is_empty (trim t)); reflexivity.
Qed.

Lemma str_or_null_spec (f : field string) : value_or_null f (str_or_null f).
Proof.
  unfold value_or_null, str_or_null, truthy. split.
  - intros v -> Hv. apply String.eqb_neq in Hv. now rewrite Hv.
  - intros [-> | [-> | ->]]; reflexivity.
Qed.

(** ** Rows *)

Lemma insert_desc_perm {A : Type} (key : A -> Z) (x : A) (l : list A) :
  Permutation (insert_desc key x l) (x :: l).
Proof.
  induction l as [|y r IH]; simpl.
  - apply Permutation_refl.
  - destruct (key y <=? key x)%Z.
    + apply Permutation_refl.
    + eapply perm_trans; [apply perm_skip, IH | apply perm_swap].
Qed.

Lemma order_desc_perm {A : Type} (key : A -> Z) (l : list A) :
  Permutation (order_desc key l) l.
Proof.
  induction l as [|x r IH]; simpl.
  - apply perm_nil.
  - eapply perm_trans; [apply insert_desc_perm | apply perm_skip, IH].
Qed.

Lemma order_desc_in {A : Type} (key : A -> Z) (l : list A) (x : A) :
  In x (order_desc key l) <-> In x l.
Proof.
  split; apply Permutation_in;
    [apply order_desc_perm | apply Permutation_sym, order_desc_perm].
Qed.

Lemma filter_nil_iff {A : Type} (p : A -> bool) (l : list A) :
  filter p l = [] <-> forall x, In x l -> p x = false.
Proof.
  induction l as [|y r IH]; simpl.
  - split; [intros _ x [] | reflexivity].
  - destruct (p y) eqn:Ey.
    + split; [discriminate | intros H; specialize (H y (or_introl eq_refl)); congruence].
    + rewrite IH. split.
      * intros H x [<-|Hx]; [exact Ey | now apply H].
      * intros H x Hx. apply H. now right.
Qed.

(** A lookup by a unique key finds no row or one. *)
Lemma filter_unique {A K : Type} (f : A -> K) (p : A -> bool) (k : K) (l : list A) :
  (forall x, p x = true <-> f x = k) -> NoDup (map f l) ->
  filter p l = [] \/ exists x, filter p l = [x] /\ In x l /\ f x = k.
Proof.
  intros Hp. induction l as [|y r IH]; simpl; intros Hnd.
  - now left.
  - inversion Hnd as [|? ? Hnotin Hnd']; subst.
    destruct (p y) eqn:Ey.
    + right. exists y. apply Hp in Ey. split; [|split; [now left | exact Ey]].
      f_equal. destruct (IH Hnd') as [E | (x & _ & Hin & Hx)]; [exact E|].
      exfalso. apply Hnotin. rewrite Ey, <- Hx. now apply in_map.
    + destruct (IH Hnd') as [E | (x & E & Hin & Hx)]; [now left|].
      right. exists x. split; [exact E | split; [now right | exact Hx]].
Qed.

Lemma filter_unique_in {A K : Type} (f : A -> K) (p : A -> bool) (k : K)
      (l : list A) (x : A) :
  (forall y, p y = true -> f y = k) -> NoDup (map f l) ->
  In x l -> p x = true -> filter p l = [x].
Proof.
  intros Hp. induction l as [|y r IH]; simpl; intros Hnd Hin Hx; [contradiction|].
  inversion Hnd as [|? ? Hnotin Hnd']; subst.
  destruct Hin as [-> | Hin].
  - rewrite Hx. f_equal. apply filter_nil_iff. intros z Hz.
    destruct (p z) eqn:Ez; [|reflexivity].
    exfalso. apply Hnotin. rewrite (Hp x Hx), <- (Hp z Ez). now apply in_map.
  - destruct (p y) eqn:Ey.
    + exfalso. apply Hnotin. rewrite (Hp y Ey), <- (Hp x Hx). now apply in_map.
    + now apply IH.
Qed.

Lemma unique_key {A K : Type} (f : A -> K) (l : list A) (x y : A) :
  NoDup (map f l) -> In x l -> In y l -> f x = f y -> x = y.
Proof.
  induction l as [|z r IH]; simpl; intros Hnd Hx Hy E; [contradiction|].
  inversion Hnd as [|? ? Hnotin Hnd']; subst.
  destruct Hx as [-> | Hx], Hy as [-> | Hy].
  - reflexivity.
  - exfalso. apply Hnotin. rewrite E. now apply in_map.
  - exfalso. apply Hnotin. rewrite <- E. now apply in_map.
  - now apply IH.
Qed.

Lemma profile_of_unique (s : Store) (id : uuid) (p : Profile) :
  NoDup (map p_id (profiles s)) -> In p (profiles s) -> p_id p = id ->
  profile_of s id = Some p.
Proof.
  unfold profile_of. induction (profiles s) as [|q r IH]; simpl;
    intros Hnd Hin Hid; [contradiction|].
  inversion Hnd as [|? ? Hnotin Hnd']; subst.
  destruct Hin as [-> | Hin].
  - now rewrite String.eqb_refl.
  - destruct (p_id q =? p_id p) eqn:E; [|now apply IH].
    apply String.eqb_eq in E. exfalso. apply Hnotin. rewrite E. now apply in_map.
Qed.

Lemma profile_of_none (s : Store) (id : uuid) :
  (forall p, In p (profiles s) -> p_id p <> id) -> profile_of s id = None.
Proof.
  unfold profile_of. induction (profiles s) as [|q r IH]; simpl;
    intros Hno; [reflexivity|].
  destruct (p_id q =? id) eqn:E.
  - apply String.eqb_eq in E. exfalso. apply (Hno q); auto.
  - apply IH. intros p Hp. apply Hno. now right.
Qed.

Lemma single_map_data {A B : Type} (f : A -> B) (l : list A) (c : B) :
  single (map f l) = Data c -> exists x, l = [x] /\ c = f x.
Proof.
  destruct l as [|x [|y r]]; simpl; try discriminate.
  intros H. injection H as <-. now exists x.
Qed.



Lemma upsert_profile_id_keeps (u : uuid) (s : Store) :
  posts (upsert_profile_id u s) = posts s /\
  user_sessions (upsert_profile_id u s) = user_sessions s.
Proof.
  unfold upsert_profile_id, insert_profile, auto_assign_super_admin.
  destruct (existsb (fun p => p_id p =? u) (profiles s)); split; reflexivity.
Qed.

(** ** Steps of the monad *)


Section Steps.
Variable env : Env.
Variable R : Type.

Lemma call_answered {A : Type} (q : Store -> answer A * Store) (w : World) :
  fault_at env (tick w) = None ->
  call env (R := R) q w = (Value (fst (q (db w))), next w (snd (q (db w)))).
Proof.
  intros H. unfold call. rewrite H. now destruct (q (db w)).
Qed.

Lemma call_refused {A : Type} (q : Store -> answer A * Store) (w : World)
      (m : string) :
  fault_at env (tick w) = Some m ->
  call env (R := R) q w = (Value (Failed m), next w (db w)).
Proof.
  intros H. unfold call. now rewrite H.
Qed.

(** A read leaves the tables alone, answered or not. *)
Lemma select_run {A : Type} (q : Store -> answer A) (w : World) :
  exists r, select env (R := R) q w = (Value r, next w (db w)) /\
            (fault_at env (tick w) = None -> r = q (db w)).
Proof.
  unfold select, call. destruct (fault_at env (tick w)) as [m|].
  - exists (Failed m). split; [reflexivity | discriminate].
  - exists (q (db w)). split; reflexivity.
Qed.
End Steps.

(** * manage-jobs: properties *)

Module ManageJobsFacts.
Import ManageJobs ManageJobsSpec.

Lemma approved_open_spec (j : Job) :
  approved_open j = true <->
  j_approval_status j = Some "approved" /\ j_status j = Open.
Proof.
  unfold approved_open. destruct (j_approval_status j) as [a|].
  - rewrite andb_true_iff, String.eqb_eq.
    destruct (j_status j); simpl; split; intros [H1 H2];
      try discriminate; split; congruence.
  - split; [discriminate | intros [H _]; discriminate].
Qed.

Lemma expired_open_spec (cut : timestamp) (j : Job) :
  expired_open cut j = true <->
  j_status j = Open /\ exists e, j_expires_at j = Some e /\ (e < cut)%Z.
Proof.
  unfold expired_open. rewrite andb_true_iff. split.
  - intros [Hs He]. split; [now destruct (j_status j)|].
    destruct (j_expires_at j) as [e|]; [|discriminate].
    exists e. split; [reflexivity | now apply Z.ltb_lt].
  - intros [Hs (e & He & Hlt)]. rewrite Hs, He.
    split; [reflexivity | now apply Z.ltb_lt].
Qed.

Section WithEnv.
Variable env : Env.

(** *** The frame of the handler *)

Lemma manage_jobs_serve_post (req : Request) (w : World) :
  method req <> "OPTIONS" ->
  serve env req w =
    match handle env req w with
    | (Value r, w') => (r, w')
    | (Returned r, w') => (r, w')
    | (Threw e, w') => (on_error e, w')
    end.
Proof.
  intros H. unfold serve. apply String.eqb_neq in H. now rewrite H.
Qed.

Lemma authenticate_run (req : Request) (w : World) :
  exists uo w1, authenticate env req w = (Value uo, w1) /\
                db w1 = db w /\ (tick w1 = tick w \/ tick w1 = S (tick w)).
Proof.
  unfold authenticate.
  destruct (x_session_token req) as [t|]; [destruct (truthy t)|].
  - unfold bind.
    destruct (select_run env Response
                (fun s => Data (validate_session env s (clock_at env (tick w)) t)) w)
      as (r & Hr & _).
    unfold rpc_validate_session. rewrite Hr.
    do 2 eexists. split; [reflexivity | split; [reflexivity | now right]].
  - do 2 eexists. split; [reflexivity | split; [reflexivity | now left]].
  - do 2 eexists. split; [reflexivity | split; [reflexivity | now left]].
Qed.

Lemma authenticate_signed_in (req : Request) (w : World) (u : uuid) :
  signed_in env req w u ->
  authenticate env req w = (Value (Some u), next w (db w)).
Proof.
  intros (t & Ht & Htt & Hf & Hv & _).
  unfold authenticate. rewrite Ht, Htt.
  unfold bind, rpc_validate_session, select, call. rewrite Hf, Hv. reflexivity.
Qed.

Lemma handle_run (req : Request) (w : World) (b : Body)
      (uo : option uuid) (w1 : World) :
  json req = Json b -> authenticate env req w = (Value uo, w1) ->
  handle env req w =
    match dispatch env req uo b w1 with
    | (Value p, w') => (Value (ok p), w')
    | (Returned r, w') => (Returned r, w')
    | (Threw e, w') => (Threw e, w')
    end.
Proof.
  intros Hj Ha. unfold handle, bind at 1. rewrite Ha, Hj. reflexivity.
Qed.

Lemma handle_signed_in (req : Request) (w : World) (b : Body) (u : uuid) :
  json req = Json b -> signed_in env req w u ->
  handle env req w =
    match dispatch env req (Some u) b (next w (db w)) with
    | (Value p, w') => (Value (ok p), w')
    | (Returned r, w') => (Returned r, w')
    | (Threw e, w') => (Threw e, w')
    end.
Proof.
  intros Hj Hs. apply handle_run; [exact Hj | now apply authenticate_signed_in].
Qed.

Lemma is_user_session (req : Request) (w : World) (uo : option uuid)
      (w1 : World) (c : uuid) :
  authenticate env req w = (Value uo, w1) ->
  is_user uo c = true <-> session_user env req w = Some c.
Proof.
  intros Ha. unfold session_user, is_user. rewrite Ha. simpl.
  destruct uo as [u|]; [|split; discriminate].
  destruct (truthy u); simpl.
  - rewrite String.eqb_eq. split; congruence.
  - split; discriminate.
Qed.

Lemma dispatch_list (req : Request) (uo : option uuid) (b : Body) :
  action b = Val "list" -> dispatch env req uo b = list_jobs env uo.
Proof. intros H. unfold dispatch. now rewrite H. Qed.

Lemma dispatch_get (req : Request) (uo : option uuid) (b : Body) :
  action b = Val "get" -> dispatch env req uo b = get_job env uo b.
Proof. intros H. unfold dispatch. now rewrite H. Qed.

Lemma dispatch_create (req : Request) (uo : option uuid) (b : Body) :
  action b = Val "create" -> dispatch env req uo b = create env uo b.
Proof. intros H. unfold dispatch. now rewrite H. Qed.

Lemma dispatch_update (req : Request) (uo : option uuid) (b : Body) :
  action b = Val "update" -> dispatch env req uo b = update env uo b.
Proof. intros H. unfold dispatch. now rewrite H. Qed.

Lemma dispatch_apply (req : Request) (uo : option uuid) (b : Body) :
  action b = Val "apply" -> dispatch env req uo b = apply env uo b.
Proof. intros H. unfold dispatch. now rewrite H. Qed.


(** *** The listing *)

Lemma application_count_run (id : uuid) (w : World) :
  exists n, application_count env id w = (Value n, next w (db w)).
Proof.
  unfold application_count, bind.
  destruct (select_run env Response
              (fun s => Data (Z.of_nat (List.length (applications_of_job s id)))) w)
    as (r & -> & _).
  eexists. reflexivity.
Qed.

Lemma has_applied_run (userId : option uuid) (id : uuid) (w : World) :
  exists h w', has_applied env userId id w = (Value h, w') /\ db w' = db w.
Proof.
  unfold has_applied. destruct userId as [u|]; [destruct (truthy u)|].
  - unfold bind.
    destruct (select_run env Response
                (fun s => maybeSingle (applications_by s id u)) w) as (r & -> & _).
    do 2 eexists. split; reflexivity.
  - do 2 eexists. split; reflexivity.
  - do 2 eexists. split; reflexivity.
Qed.

Lemma with_counts_run (userId : option uuid) (row : JobRow) (w : World) :
  exists v w', with_counts env userId row w = (Value v, w') /\
               jv_row v = row /\ db w' = db w.
Proof.
  unfold with_counts, bind.
  destruct (application_count_run (j_id (jr_job row)) w) as (n & ->).
  destruct (has_applied_run userId (j_id (jr_job row)) (next w (db w)))
    as (h & w' & -> & Hdb).
  do 2 eexists. split; [reflexivity | split; [reflexivity | exact Hdb]].
Qed.

Lemma mapM_with_counts (userId : option uuid) (rows : list JobRow) (w : World) :
  exists vs w', mapM (with_counts env userId) rows w = (Value vs, w') /\
                map jv_row vs = rows /\ db w' = db w.
Proof.
  revert w. induction rows as [|row rows IH]; intros w; simpl.
  - exists [], w. repeat split.
  - unfold bind.
    destruct (with_counts_run userId row w) as (v & w1 & -> & Hv & Hdb1).
    destruct (IH w1) as (vs & w2 & -> & Hvs & Hdb2).
    exists (v :: vs), w2. simpl. rewrite Hv, Hvs, Hdb2, Hdb1. repeat split.
Qed.

(** What a run of [list] comes to: it throws when the fetch is
    refused, and otherwise lists the visible rows of the store left by
    the auto-close. *)
Lemma list_jobs_run (userId : option uuid) (w : World) :
  match fault_at env (S (S (S (tick w)))) with
  | Some m =>
      exists w', list_jobs env userId w = (Threw (pg_error env m), w') /\
                 db w' = store_after_close env w
  | None =>
      exists vs w',
        list_jobs env userId w = (Value (JobList vs), w') /\
        db w' = store_after_close env w /\
        map jv_row vs =
          filter (fun r => visible userId (jr_job r))
                 (order_desc (fun r => j_created_at (jr_job r))
                    (map (job_row (store_after_close env w))
                         (jobs (store_after_close env w))))
  end.
Proof.
  unfold list_jobs, store_after_close.
  cbv beta iota delta [bind date_now write select call or_throw ret throw next].
  cbn [tick db].
  destruct (fault_at env (S (S (tick w)))) as [m2|]; cbn [tick db];
    destruct (fault_at env (S (S (S (tick w))))) as [m3|]; cbn [tick db];
    try (eexists; split; reflexivity);
    match goal with
    | |- context [mapM ?f ?rows ?w0] =>
        destruct (mapM_with_counts userId rows w0) as (vs & w' & -> & Hvs & Hdb)
    end;
    (exists vs, w'; split; [reflexivity | split; [exact Hdb | exact Hvs]]).
Qed.

Lemma store_after_close_responsive (w : World) :
  responsive env ->
  store_after_close env w =
    close_expired (clock_at env (tick w)) (clock_at env (S (tick w))) (db w).
Proof. intros H. unfold store_after_close. now rewrite H. Qed.

Lemma sent_by_session_user (req : Request) (w : World) (uo : option uuid) :
  sent_by env req w uo -> session_user env req w = uo.
Proof.
  unfold sent_by, session_user. destruct uo as [u|].
  - intros Hs. rewrite (authenticate_signed_in req w u Hs). simpl.
    destruct Hs as (_ & _ & _ & _ & _ & ->). reflexivity.
  - unfold authenticate. destruct (x_session_token req) as [t|]; [|reflexivity].
    destruct (truthy t); [|reflexivity].
    intros [H | [H | H]]; [discriminate | |];
      unfold bind, rpc_validate_session, select, call;
      destruct (fault_at env (tick w)); try reflexivity; try congruence.
    now rewrite H.
Qed.

(** What the listing holds, with the requester the handler made out for
    itself. *)
Lemma list_by_session_user (req : Request) (w : World) (b : Body) :
  method req <> "OPTIONS" -> json req = Json b -> action b = Val "list" ->
  (responsive env -> exists vs, fst (serve env req w) = ok (JobList vs)) /\
  (forall vs, content (fst (serve env req w)) = JobList vs ->
     (forall v, In v vs ->
        In (jr_job (jv_row v)) (jobs (db (snd (serve env req w))))) /\
     (forall j, In j (jobs (db (snd (serve env req w)))) ->
        (session_user env req w = Some (j_creator_id j) -> listed vs j) /\
        (session_user env req w <> Some (j_creator_id j) ->
           (listed vs j <->
            j_approval_status j = Some "approved" /\ j_status j = Open)))).
Proof.
  intros Hm Hj Ha.
  destruct (authenticate_run req w) as (uo & w1 & Hauth & _ & _).
  rewrite (manage_jobs_serve_post req w Hm), (handle_run req w b uo w1 Hj Hauth),
    (dispatch_list req uo b Ha).
  pose proof (list_jobs_run uo w1) as Hrun.
  destruct (fault_at env (S (S (S (tick w1))))) as [m|] eqn:Hf.
  - destruct Hrun as (w' & -> & _). simpl. split.
    + intros Hresp. rewrite Hresp in Hf. discriminate.
    + intros vs Hc. discriminate.
  - destruct Hrun as (vs0 & w' & -> & Hdb & Hrows). simpl. split.
    + intros _. now exists vs0.
    + intros vs Hc. injection Hc as <-. rewrite Hdb.
      assert (Hl : forall j, listed vs0 j <->
                In j (jobs (store_after_close env w1)) /\ visible uo j = true).
      { intros j. unfold listed. split.
        - intros (v & Hv & <-).
          assert (Hin : In (jv_row v) (map jv_row vs0)) by now apply in_map.
          rewrite Hrows in Hin. apply filter_In in Hin. destruct Hin as [Hin Hvis].
          apply order_desc_in, in_map_iff in Hin. destruct Hin as (j & Heq & Hj').
          rewrite <- Heq in Hvis |- *. simpl in *. now split.
        - intros [Hin Hvis].
          assert (Hrow : In (job_row (store_after_close env w1) j) (map jv_row vs0)).
          { rewrite Hrows. apply filter_In. split; [|exact Hvis].
            apply order_desc_in. now apply in_map. }
          apply in_map_iff in Hrow. destruct Hrow as (v & Hv & Hin').
          exists v. split; [exact Hin'|]. now rewrite Hv. }
      split.
      * intros v Hv. apply (Hl (jr_job (jv_row v))). now exists v.
      * intros j Hin. split.
        -- intros Hs. apply Hl. split; [exact Hin|]. unfold visible.
           apply (is_user_session req w uo w1 _ Hauth) in Hs. now rewrite Hs.
        -- intros Hs. rewrite Hl, <- approved_open_spec. unfold visible.
           destruct (is_user uo (j_creator_id j)) eqn:E.
           ++ apply (is_user_session req w uo w1 _ Hauth) in E. contradiction.
           ++ simpl. tauto.
Qed.

(** C3.  Approval status gates the visibility of a job in the [list]
    action.  Let the request be sent by [uo]: [Some u] when its token
    is one that [validate_session] maps to user [u], [None] when it
    carries no token or one that is not accepted.  When the datastore
    answers, the action returns a job list; and whenever it returns
    one, the list holds rows of the jobs table only, and for every job
    row, as the listing reads it (after the auto-close): when [uo] is
    its creator the job is listed whatever its approval status and its
    status, and when [uo] is anyone else, or nobody, the job is listed
    if and only if its approval status is ["approved"] and its status
    is open. *)
Theorem list_visibility (req : Request) (w : World) (b : Body)
        (uo : option uuid) :
  method req <> "OPTIONS" -> json req = Json b -> action b = Val "list" ->
  sent_by env req w uo ->
  (responsive env -> exists vs, fst (serve env req w) = ok (JobList vs)) /\
  (forall vs, content (fst (serve env req w)) = JobList vs ->
     (forall v, In v vs ->
        In (jr_job (jv_row v)) (jobs (db (snd (serve env req w))))) /\
     (forall j, In j (jobs (db (snd (serve env req w)))) ->
        (uo = Some (j_creator_id j) -> listed vs j) /\
        (uo <> Some (j_creator_id j) ->
           (listed vs j <->
            j_approval_status j = Some "approved" /\ j_status j = Open)))).
Proof.
  intros Hm Hj Ha Hs.
  pose proof (list_by_session_user req w b Hm Hj Ha) as H.
  rewrite (sent_by_session_user req w uo Hs) in H. exact H.
Qed.

(** C4.  An expired job is auto-closed before listing.  A run of
    [list] reads the clock twice, [upd = clock_at env k] and then [cut
    = clock_at env (S k)], sends the update (call [S (S k)]) without
    reading its result, and fetches the jobs (call [S (S (S k))]).
    When the datastore performs the update, every job that was open
    with a non-null [expires_at] earlier than [cut] is in the final
    store with status closed, [updated_at = upd] and its other columns
    as they were, every other job is there untouched, and no job of a
    list returned is open and expired.  When the datastore refuses the
    update, the tables are left as they were.  In both cases the fetch,
    when the datastore answers it, returns a list, and a list returned
    holds rows of the final jobs table only. *)
Theorem list_closes_expired (req : Request) (w : World) (b : Body) :
  method req <> "OPTIONS" -> json req = Json b -> action b = Val "list" ->
  exists k,
    (tick w <= k)%nat /\
    (fault_at env (S (S k)) = None ->
       (forall j, In j (jobs (db w)) ->
          j_status j = Open ->
          forall e, j_expires_at j = Some e -> (e < clock_at env (S k))%Z ->
          In {| j_id := j_id j; j_creator_id := j_creator_id j;
                j_title := j_title j; j_description := j_description j;
                j_conditions := j_conditions j; j_location := j_location j;
                j_max_applications := j_max_applications j;
                j_expires_at := Some e; j_status := Closed;
                j_approval_status := j_approval_status j;
                j_created_at := j_created_at j;
                j_updated_at := clock_at env k |}
             (jobs (db (snd (serve env req w))))) /\
       (forall j, In j (jobs (db w)) ->
          ~ (j_status j = Open /\
             exists e, j_expires_at j = Some e /\ (e < clock_at env (S k))%Z) ->
          In j (jobs (db (snd (serve env req w))))) /\
       (forall vs, content (fst (serve env req w)) = JobList vs ->
          forall v, In v vs ->
            ~ (j_status (jr_job (jv_row v)) = Open /\
               exists e, j_expires_at (jr_job (jv_row v)) = Some e /\
                         (e < clock_at env (S k))%Z))) /\
    (fault_at env (S (S k)) <> None -> db (snd (serve env req w)) = db w) /\
    (fault_at env (S (S (S k))) = None ->
       exists vs, fst (serve env req w) = ok (JobList vs)) /\
    (forall vs, content (fst (serve env req w)) = JobList vs ->
       forall v, In v vs ->
         In (jr_job (jv_row v)) (jobs (db (snd (serve env req w))))).
Proof.
  intros Hm Hj Ha.
  destruct (authenticate_run req w) as (uo & w1 & Hauth & Hdb1 & Htick).
  rewrite (manage_jobs_serve_post req w Hm), (handle_run req w b uo w1 Hj Hauth),
    (dispatch_list req uo b Ha).
  pose proof (list_jobs_run uo w1) as Hrun.
  exists (tick w1). split; [destruct Htick as [-> | ->]; lia|].
  assert (Hlisted : forall vs : list JobView,
             map jv_row vs =
               filter (fun r => visible uo (jr_job r))
                 (order_desc (fun r => j_created_at (jr_job r))
                    (map (job_row (store_after_close env w1))
                         (jobs (store_after_close env w1)))) ->
             forall v, In v vs ->
               In (jr_job (jv_row v)) (jobs (store_after_close env w1))).
  { intros vs Hrows v Hv.
    assert (Hin : In (jv_row v) (map jv_row vs)) by now apply in_map.
    rewrite Hrows in Hin. apply filter_In in Hin. destruct Hin as [Hin _].
    apply order_desc_in, in_map_iff in Hin. destruct Hin as (j' & <- & Hj').
    exact Hj'. }
  assert (Hclosed : fault_at env (S (S (tick w1))) = None ->
             store_after_close env w1 =
               close_expired (clock_at env (tick w1)) (clock_at env (S (tick w1)))
                             (db w)).
  { intros E. unfold store_after_close. now rewrite E, Hdb1. }
  assert (Hkept : fault_at env (S (S (tick w1))) <> None ->
             store_after_close env w1 = db w).
  { intros E. unfold store_after_close.
    destruct (fault_at env (S (S (tick w1)))); [exact Hdb1 | contradiction]. }
  assert (Hcl : forall j, In j (jobs (db w)) ->
             j_status j = Open ->
             forall e, j_expires_at j = Some e ->
               (e < clock_at env (S (tick w1)))%Z ->
               In {| j_id := j_id j; j_creator_id := j_creator_id j;
                     j_title := j_title j; j_description := j_description j;
                     j_conditions := j_conditions j; j_location := j_location j;
                     j_max_applications := j_max_applications j;
                     j_expires_at := Some e; j_status := Closed;
                     j_approval_status := j_approval_status j;
                     j_created_at := j_created_at j;
                     j_updated_at := clock_at env (tick w1) |}
                  (jobs (close_expired (clock_at env (tick w1))
                                       (clock_at env (S (tick w1))) (db w)))).
  { intros j Hin Hs e He Hlt. unfold close_expired. simpl.
    apply in_map_iff. exists j. split; [|exact Hin].
    assert (E : expired_open (clock_at env (S (tick w1))) j = true).
    { apply expired_open_spec. split; [exact Hs | now exists e]. }
    rewrite E. unfold close_job. now rewrite He. }
  assert (Hkp : forall j, In j (jobs (db w)) ->
             ~ (j_status j = Open /\
                exists e, j_expires_at j = Some e /\
                          (e < clock_at env (S (tick w1)))%Z) ->
             In j (jobs (close_expired (clock_at env (tick w1))
                                       (clock_at env (S (tick w1))) (db w)))).
  { intros j Hin Hn. unfold close_expired. simpl.
    apply in_map_iff. exists j. split; [|exact Hin].
    destruct (expired_open (clock_at env (S (tick w1))) j) eqn:E; [|reflexivity].
    apply expired_open_spec in E. contradiction. }
  assert (Hno : forall j',
             In j' (jobs (close_expired (clock_at env (tick w1))
                                        (clock_at env (S (tick w1))) (db w))) ->
             ~ (j_status j' = Open /\
                exists e, j_expires_at j' = Some e /\
                          (e < clock_at env (S (tick w1)))%Z)).
  { intros j' Hj'. unfold close_expired in Hj'. simpl in Hj'.
    apply in_map_iff in Hj'. destruct Hj' as (j & Hjj & _).
    destruct (expired_open (clock_at env (S (tick w1))) j) eqn:E.
    - subst j'. simpl. intros [Hs _]. discriminate.
    - subst j'. rewrite <- expired_open_spec. congruence. }
  destruct (fault_at env (S (S (S (tick w1))))) as [m|] eqn:Hf.
  - destruct Hrun as (w' & -> & Hdb). simpl. rewrite Hdb.
    split; [|split; [|split]].
    + intros E. rewrite (Hclosed E).
      split; [exact Hcl | split; [exact Hkp|]]. intros vs Hc. discriminate.
    + exact Hkept.
    + discriminate.
    + intros vs Hc. discriminate.
  - destruct Hrun as (vs0 & w' & -> & Hdb & Hrows). simpl. rewrite Hdb.
    split; [|split; [|split]].
    + intros E. rewrite (Hclosed E).
      split; [exact Hcl | split; [exact Hkp|]].
      intros vs Hc. injection Hc as <-. intros v Hv. apply Hno.
      rewrite <- (Hclosed E). exact (Hlisted vs0 Hrows v Hv).
    + exact Hkept.
    + intros _. now exists vs0.
    + intros vs Hc. injection Hc as <-. exact (Hlisted vs0 Hrows).
Qed.

(** *** Ownership *)

Lemma verify_ownership_refuses (u id : uuid) (msg : string) (w : World) :
  (forall j, In j (jobs (db w)) -> j_id j = id -> j_creator_id j <> u) ->
  verify_ownership env u id msg w =
    (Returned (error_response 403 msg), next w (db w)).
Proof.
  intros Hno. unfold verify_ownership, bind, select, call.
  destruct (fault_at env (tick w)) as [m|]; [reflexivity|].
  destruct (single (map j_creator_id (filter (fun j => j_id j =? id) (jobs (db w)))))
    as [c|m] eqn:E; simpl; [|reflexivity].
  apply single_map_data in E. destruct E as (j & Hf & ->).
  assert (Hin : In j (filter (fun j => j_id j =? id) (jobs (db w))))
    by (rewrite Hf; now left).
  apply filter_In in Hin. destruct Hin as [Hin Hid]. apply String.eqb_eq in Hid.
  specialize (Hno j Hin Hid). apply String.eqb_neq in Hno. now rewrite Hno.
Qed.

(** C5.  A non-owner updating a job gets 403.  For a signed-in user
    [u] and a request that names job [id]: if no job with this id has
    [u] for creator -- the job belongs to someone else, or there is no
    such job -- the [update] action answers 403 and leaves every table
    as it was, whether or not the datastore answers the lookup. *)
Theorem update_by_non_owner_is_403 (req : Request) (w : World) (b : Body)
        (u id : uuid) :
  method req <> "OPTIONS" -> json req = Json b -> action b = Val "update" ->
  signed_in env req w u ->
  str_or_null (job_id b) = Some id ->
  (forall j, In j (jobs (db w)) -> j_id j = id -> j_creator_id j <> u) ->
  fst (serve env req w) = error_response 403 "Not authorized to update this job" /\
  db (snd (serve env req w)) = db w.
Proof.
  intros Hm Hj Ha Hs Hid Hno.
  rewrite (manage_jobs_serve_post req w Hm), (handle_signed_in req w b u Hj Hs),
    (dispatch_update req (Some u) b Ha).
  destruct Hs as (_ & _ & _ & _ & _ & Hu).
  unfold update.
  cbv beta iota delta [bind require_user require_id ret].
  rewrite Hu, Hid.
  rewrite (verify_ownership_refuses u id _ (next w (db w)) Hno).
  simpl. auto.
Qed.

(** A [create] whose title is blank, or whose title has content and
    whose description is blank, is answered with 400 and leaves every
    table as it was. *)
Lemma create_blank_is_400 (req : Request) (w : World) (b : Body) (u : uuid) :
  method req <> "OPTIONS" -> json req = Json b -> action b = Val "create" ->
  signed_in env req w u ->
  absent_empty_or_whitespace (title b) \/
  (text_with_content (title b) /\ absent_empty_or_whitespace (description b)) ->
  fst (serve env req w) =
    error_response 400 "Title and description are required" /\
  db (snd (serve env req w)) = db w.
Proof.
  intros Hm Hj Ha Hs Hb.
  assert (E : serve env req w =
              (error_response 400 "Title and description are required",
               next w (db w))).
  { rewrite (manage_jobs_serve_post req w Hm),
      (handle_signed_in req w b u Hj Hs), (dispatch_create req (Some u) b Ha).
    unfold create, bind at 1, require_user.
    destruct Hs as (_ & _ & _ & _ & _ & Hu). rewrite Hu. unfold ret at 1.
    destruct Hb as [Ht | [Ht Hd]].
    - destruct (optional_trim_blank (R := Response) "title?.trim" (title b) Ht)
        as (o & -> & Ho).
      unfold bind, ret. now rewrite Ho.
    - destruct (optional_trim_content (R := Response) "title?.trim" (title b) Ht)
        as (t & _ & _ & -> & Ho).
      unfold bind at 1, ret at 1. rewrite Ho.
      destruct (optional_trim_blank (R := Response) "description?.trim"
                  (description b) Hd) as (o & -> & Hod).
      unfold bind, ret. now rewrite Hod. }
  rewrite E. simpl. auto.
Qed.

(** A [create] whose title is neither a string nor nothing stops at
    [title?.trim()]: the [catch] block answers 500 with the message of
    the [TypeError], whatever the description is. *)
Lemma create_mistyped_title_is_500 (req : Request) (w : World) (b : Body)
      (u : uuid) (r : text) :
  method req <> "OPTIONS" -> json req = Json b -> action b = Val "create" ->
  signed_in env req w u ->
  title b = Val (NotStr r) ->
  fst (serve env req w) = error_response 500 (not_a_function "title?.trim") /\
  db (snd (serve env req w)) = db w.
Proof.
  intros Hm Hj Ha Hs Ht.
  rewrite (manage_jobs_serve_post req w Hm), (handle_signed_in req w b u Hj Hs),
    (dispatch_create req (Some u) b Ha).
  unfold create, bind, require_user.
  destruct Hs as (_ & _ & _ & _ & _ & Hu). rewrite Hu, Ht. simpl. auto.
Qed.

(** *** Applications *)

Lemma applications_by_unique (s : Store) (id u : uuid) :
  NoDup (map (fun a => (a_job_id a, a_applicant_id a)) (job_applications s)) ->
  applications_by s id u = [] \/
  exists a, applications_by s id u = [a] /\ In a (job_applications s) /\
            a_job_id a = id /\ a_applicant_id a = u.
Proof.
  intros Hnd. unfold applications_by.
  destruct (filter_unique (fun a => (a_job_id a, a_applicant_id a))
              (fun a => (a_job_id a =? id) && (a_applicant_id a =? u)) (id, u)
              (job_applications s)) as [E | (a & E & Hin & Hk)];
    [| exact Hnd | now left |].
  - intros a. rewrite andb_true_iff, !String.eqb_eq. split.
    + intros [-> ->]. reflexivity.
    + intros H. injection H as -> ->. now split.
  - right. exists a. injection Hk as H1 H2. now repeat split.
Qed.

Lemma jobs_by_id_unique (s : Store) (id : uuid) :
  NoDup (map j_id (jobs s)) ->
  filter (fun j => j_id j =? id) (jobs s) = [] \/
  exists j, filter (fun j => j_id j =? id) (jobs s) = [j] /\
            In j (jobs s) /\ j_id j = id.
Proof.
  intros Hnd. apply (filter_unique j_id); [|exact Hnd].
  intros j. apply String.eqb_eq.
Qed.

(** For a signed-in user [u], a datastore that answers, job ids that
    are unique, at most one application per applicant and job, and a
    message, an education and an experience that are strings or
    nothing: the [apply] action answers 400 if and only if the job id
    is missing, or no job with that id is both open and approved, or
    [u] created the job, or [u] has applied to it already; it then
    changes nothing.  In every other case it answers 200 and one row
    is appended to the table: the application of [u] to the job, with
    the three texts trimmed, or [null] where they are blank, and no
    reply.  Neither side mentions [max_applications] or the number of
    applications the job has: the limit is never consulted. *)
Lemma apply_refused_iff_400 (req : Request) (w : World) (b : Body) (u : uuid) :
  method req <> "OPTIONS" -> json req = Json b -> action b = Val "apply" ->
  signed_in env req w u -> responsive env ->
  NoDup (map j_id (jobs (db w))) ->
  NoDup (map (fun a => (a_job_id a, a_applicant_id a)) (job_applications (db w))) ->
  text_or_nothing (message b) ->
  text_or_nothing (education_qualification b) ->
  text_or_nothing (experience_details b) ->
  (status (fst (serve env req w)) = 400 <-> apply_refused (db w) u b) /\
  (apply_refused (db w) u b -> db (snd (serve env req w)) = db w) /\
  (~ apply_refused (db w) u b ->
     exists id m e x,
       str_or_null (job_id b) = Some id /\
       trimmed_or_null (message b) m /\
       trimmed_or_null (education_qualification b) e /\
       trimmed_or_null (experience_details b) x /\
       fst (serve env req w) = ok (SuccessMessage "Application submitted!") /\
       job_applications (db (snd (serve env req w))) =
         (job_applications (db w) ++
          [{| a_id := uuid_at env (3 + tick w);
              a_job_id := id; a_applicant_id := u;
              a_message := m; a_education_qualification := e;
              a_experience_details := x;
              a_creator_reply := None; a_replied_at := None;
              a_created_at := clock_at env (3 + tick w) |}])%list).
Proof.
  intros Hm Hj Ha Hs Hresp Hjobs Happs Htm Hte Htx.
  destruct (optional_trim_text (R := Response) "message?.trim" (message b) Htm)
    as (om & Em & Hom).
  destruct (optional_trim_text (R := Response) "education_qualification?.trim"
              (education_qualification b) Hte) as (oe & Ee & Hoe).
  destruct (optional_trim_text (R := Response) "experience_details?.trim"
              (experience_details b) Htx) as (ox & Ex & Hox).
  rewrite (manage_jobs_serve_post req w Hm), (handle_signed_in req w b u Hj Hs),
    (dispatch_apply req (Some u) b Ha).
  destruct Hs as (_ & _ & _ & _ & _ & Hu).
  remember (apply_refused (db w) u b) as P eqn:HP.
  unfold apply.
  cbv beta iota delta [bind require_user require_id select call insert or_throw
                       ret respond throw next].
  rewrite Hu. cbn [tick db].
  destruct (str_or_null (job_id b)) as [id|] eqn:Hid.
  2:{ assert (Href : P) by (subst P; left; exact Hid).
      simpl. repeat split; auto. contradiction. }
  rewrite Hresp. cbn [tick db fst snd data_of].
  destruct (jobs_by_id_unique (db w) id Hjobs) as [E | (j & E & Hin & Hjid)];
    rewrite E.
  { assert (Href : P).
    { subst P. right. exists id. split; [exact Hid|]. left. intros j Hin Hjid.
      apply filter_nil_iff with (x := j) in E; [|exact Hin].
      apply String.eqb_neq in E. contradiction. }
    simpl. repeat split; auto. contradiction. }
  assert (Huniq : forall j', In j' (jobs (db w)) -> j_id j' = id -> j' = j).
  { intros j' Hin' Hid'.
    assert (H : In j' (filter (fun j => j_id j =? id) (jobs (db w)))).
    { apply filter_In. split; [exact Hin' | now apply String.eqb_eq]. }
    rewrite E in H. destruct H as [H|[]]. now symmetry. }
  cbn [single data_of].
  destruct (approved_open j) eqn:Eao; cbn [negb].
  2:{ assert (Href : P).
      { subst P. right. exists id. split; [exact Hid|]. left.
        intros j' Hin' Hid' [H1 H2]. rewrite (Huniq j' Hin' Hid') in H1, H2.
        assert (approved_open j = true) by (apply approved_open_spec; now split).
        congruence. }
      simpl. repeat split; auto. contradiction. }
  apply approved_open_spec in Eao. destruct Eao as [Hap Hop].
  destruct (j_creator_id j =? u) eqn:Ecr.
  { apply String.eqb_eq in Ecr.
    assert (Href : P).
    { subst P. right. exists id. split; [exact Hid|]. right; left. now exists j. }
    simpl. repeat split; auto. contradiction. }
  apply String.eqb_neq in Ecr.
  rewrite Hresp. cbn [tick db fst snd].
  destruct (applications_by_unique (db w) id u Happs)
    as [Ea | (a & Ea & Hina & Haj & Hau)];
    rewrite Ea; cbn [maybeSingle data_of].
  2:{ assert (Href : P).
      { subst P. right. exists id. split; [exact Hid|]. right; right. now exists a. }
      simpl. repeat split; auto. contradiction. }
  rewrite Em, Ee, Ex. cbv beta iota delta [ret].
  rewrite Hresp. cbn [tick db fst snd status ok].
  assert (Hnot : ~ P).
  { subst P.
    intros [H | (id0 & H0 & [H | [(j' & Hin' & Hid' & Hc') | (a & Hina & Haj & Hau)]])].
    - congruence.
    - assert (Heq : id0 = id) by congruence. rewrite Heq in *.
      apply (H j Hin Hjid). now split.
    - assert (Heq : id0 = id) by congruence. rewrite Heq in *.
      rewrite (Huniq j' Hin' Hid') in Hc'. contradiction.
    - assert (Heq : id0 = id) by congruence. rewrite Heq in *.
      unfold applications_by in Ea.
      apply filter_nil_iff with (x := a) in Ea; [|exact Hina].
      rewrite Haj, Hau, !String.eqb_refl in Ea. discriminate. }
  split; [split; [discriminate | contradiction] | split; [contradiction|]].
  intros _. exists id, (or_null om), (or_null oe), (or_null ox).
  repeat (split; [first [reflexivity | assumption]|]). reflexivity.
Qed.

(** An [apply] that nothing refuses and whose message is neither a
    string nor nothing stops at [message?.trim()]: the [catch] block
    answers 500 with the message of the [TypeError], and no application
    is inserted. *)
Lemma apply_mistyped_message_is_500 (req : Request) (w : World) (b : Body)
      (u : uuid) (r : text) :
  method req <> "OPTIONS" -> json req = Json b -> action b = Val "apply" ->
  signed_in env req w u -> responsive env ->
  NoDup (map j_id (jobs (db w))) ->
  NoDup (map (fun a => (a_job_id a, a_applicant_id a)) (job_applications (db w))) ->
  ~ apply_refused (db w) u b ->
  message b = Val (NotStr r) ->
  fst (serve env req w) = error_response 500 (not_a_function "message?.trim") /\
  db (snd (serve env req w)) = db w.
Proof.
  intros Hm Hj Ha Hs Hresp Hjobs Happs Hnot Hmsg.
  assert (E : serve env req w =
              (error_response 500 (not_a_function "message?.trim"),
               next (next (next w (db w)) (db w)) (db w))).
  { rewrite (manage_jobs_serve_post req w Hm),
      (handle_signed_in req w b u Hj Hs), (dispatch_apply req (Some u) b Ha).
    destruct Hs as (_ & _ & _ & _ & _ & Hu).
    unfold apply.
    cbv beta iota delta [bind require_user require_id select call insert or_throw
                         ret respond throw next].
    rewrite Hu. cbn [tick db].
    destruct (str_or_null (job_id b)) as [id|] eqn:Hid.
    2:{ exfalso. apply Hnot. now left. }
    rewrite Hresp. cbn [tick db fst snd data_of].
    destruct (jobs_by_id_unique (db w) id Hjobs) as [E | (j & E & Hin & Hjid)];
      rewrite E.
    { exfalso. apply Hnot. right. exists id. split; [exact Hid|]. left.
      intros j Hin Hjid.
      apply filter_nil_iff with (x := j) in E; [|exact Hin].
      apply String.eqb_neq in E. contradiction. }
    assert (Huniq : forall j', In j' (jobs (db w)) -> j_id j' = id -> j' = j).
    { intros j' Hin' Hid'.
      assert (H : In j' (filter (fun j => j_id j =? id) (jobs (db w)))).
      { apply filter_In. split; [exact Hin' | now apply String.eqb_eq]. }
      rewrite E in H. destruct H as [H|[]]. now symmetry. }
    cbn [single data_of].
    destruct (approved_open j) eqn:Eao; cbn [negb].
    2:{ exfalso. apply Hnot. right. exists id. split; [exact Hid|]. left.
        intros j' Hin' Hid' [H1 H2]. rewrite (Huniq j' Hin' Hid') in H1, H2.
        assert (approved_open j = true) by (apply approved_open_spec; now split).
        congruence. }
    destruct (j_creator_id j =? u) eqn:Ecr.
    { apply String.eqb_eq in Ecr. exfalso. apply Hnot. right. exists id.
      split; [exact Hid|]. right; left. now exists j. }
    rewrite Hresp. cbn [tick db fst snd].
    destruct (applications_by_unique (db w) id u Happs)
      as [Ea | (a & Ea & Hina & Haj & Hau)];
      rewrite Ea; cbn [maybeSingle data_of].
    2:{ exfalso. apply Hnot. right. exists id. split; [exact Hid|].
        right; right. now exists a. }
    rewrite Hmsg. reflexivity. }
  rewrite E. simpl. auto.
Qed.



(** X10.  [apply] keeps applications unique.  For a signed-in user and
    a datastore that answers: when no applicant has two applications
    to the same job before an [apply] request, none has after it --
    the lookup of an existing application is what keeps a user from
    applying twice. *)
Lemma apply_keeps_one_application_each
      (req : Request) (w : World) (b : Body) (u : uuid) :
  method req <> "OPTIONS" -> json req = Json b -> action b = Val "apply" ->
  signed_in env req w u -> responsive env ->
  NoDup (map (fun a => (a_job_id a, a_applicant_id a)) (job_applications (db w))) ->
  NoDup (map (fun a => (a_job_id a, a_applicant_id a))
             (job_applications (db (snd (serve env req w))))).
Proof.
  intros Hm Hj Ha Hs Hresp Happs.
  rewrite (manage_jobs_serve_post req w Hm), (handle_signed_in req w b u Hj Hs),
    (dispatch_apply req (Some u) b Ha).
  destruct Hs as (_ & _ & _ & _ & _ & Hu).
  unfold apply.
  cbv beta iota delta [bind require_user require_id select call insert or_throw
                       ret respond throw next].
  rewrite Hu. cbn [tick db].
  destruct (str_or_null (job_id b)) as [id|]; [|exact Happs].
  rewrite Hresp. cbn [tick db fst snd].
  destruct (single (filter (fun j => j_id j =? id) (jobs (db w)))) as [j|m];
    cbn [data_of]; [|exact Happs].
  destruct (negb (approved_open j)); [exact Happs|].
  destruct (j_creator_id j =? u); [exact Happs|].
  rewrite Hresp. cbn [tick db fst snd].
  destruct (applications_by_unique (db w) id u Happs)
    as [Ea | (a & Ea & _)]; rewrite Ea; cbn [maybeSingle data_of];
    [|exact Happs].
  destruct (message b) as [| |[tm|rm]]; cbn [optional_trim];
    cbv beta iota delta [ret throw]; cbn [snd db]; try exact Happs.
  all: destruct (education_qualification b) as [| |[te|re]]; cbn [optional_trim];
    cbv beta iota delta [ret throw]; cbn [snd db]; try exact Happs.
  all: destruct (experience_details b) as [| |[tx|rx]]; cbn [optional_trim];
    cbv beta iota delta [ret throw]; cbn [snd db]; try exact Happs.
  all: rewrite Hresp; cbn [tick db fst snd job_applications set_job_applications].
  all: rewrite map_app;
    apply NoDup_app; [exact Happs | repeat constructor; intros [] |].
  all: intros k Hk [<- | []]; apply in_map_iff in Hk;
    destruct Hk as (a & Hka & Hin); unfold applications_by in Ea;
    apply filter_nil_iff with (x := a) in Ea; [|exact Hin];
    simpl in Hka; injection Hka as H1 H2;
    rewrite H1, H2, !String.eqb_refl in Ea; discriminate.
Qed.


(** *** The statuses of the responses *)

Lemma tidy_ret {A : Type} (a : A) : tidy (ret a).
Proof. intros w. exact I. Qed.

Lemma tidy_throw {A : Type} (e : thrown) : tidy (throw (A := A) e).
Proof. intros w. exact I. Qed.

Lemma tidy_respond {A : Type} (code : Z) (msg : string) :
  In code [400; 401; 403; 404]%Z ->
  tidy (respond (A := A) (error_response code msg)).
Proof. intros Hc w. split; [exact Hc | now exists msg]. Qed.

Lemma tidy_bind {A B : Type} (c : H A) (k : A -> H B) :
  tidy c -> (forall a, tidy (k a)) -> tidy (bind c k).
Proof.
  intros Hc Hk w. unfold bind. specialize (Hc w).
  destruct (c w) as [[a|r|e] w']; simpl in *; [apply Hk | exact Hc | exact I].
Qed.

Lemma tidy_date_now : tidy (date_now env).
Proof. intros w. exact I. Qed.

Lemma tidy_call {A : Type} (q : Store -> answer A * Store) : tidy (call env q).
Proof.
  intros w. unfold call.
  destruct (fault_at env (tick w)); [exact I | now destruct (q (db w))].
Qed.

Lemma tidy_select {A : Type} (q : Store -> answer A) : tidy (select env q).
Proof. apply tidy_call. Qed.

Lemma tidy_write (f : Store -> Store) : tidy (write env f).
Proof. apply tidy_call. Qed.

Lemma tidy_insert {A : Type}
      (q : uuid -> timestamp -> Store -> answer A * Store) :
  tidy (insert env q).
Proof. intros w. unfold insert. apply tidy_call. Qed.

Lemma tidy_rpc (t : string) : tidy (rpc_validate_session env t).
Proof. intros w. unfold rpc_validate_session. apply tidy_select. Qed.

Lemma tidy_or_throw {A : Type} (r : answer A) : tidy (or_throw env r).
Proof. destruct r; [apply tidy_ret | apply tidy_throw]. Qed.

Lemma tidy_req_json {B : Type} (p : parsed B) : tidy (req_json p).
Proof. destruct p; [apply tidy_ret | apply tidy_throw]. Qed.

Lemma tidy_optional_trim (callee : string) (f : field jtext) :
  tidy (optional_trim callee f).
Proof.
  destruct f as [| |[t|r]]; first [apply tidy_ret | apply tidy_throw].
Qed.

Lemma tidy_mapM {A B : Type} (f : A -> H B) (l : list A) :
  (forall x, tidy (f x)) -> tidy (mapM f l).
Proof.
  intros Hf. induction l as [|x r IH]; simpl.
  - apply tidy_ret.
  - apply tidy_bind; [apply Hf | intros y].
    apply tidy_bind; [exact IH | intros ys; apply tidy_ret].
Qed.

Lemma in_400 : In 400%Z [400; 401; 403; 404]%Z. Proof. simpl; auto. Qed.
Lemma in_401 : In 401%Z [400; 401; 403; 404]%Z. Proof. simpl; auto. Qed.
Lemma in_403 : In 403%Z [400; 401; 403; 404]%Z. Proof. simpl; auto. Qed.
Lemma in_404 : In 404%Z [400; 401; 403; 404]%Z. Proof. simpl; auto. Qed.

Create HintDb tidy.
#[local] Hint Resolve tidy_ret tidy_throw tidy_date_now tidy_call tidy_select
  tidy_write tidy_insert tidy_rpc tidy_or_throw tidy_req_json
  tidy_optional_trim in_400 in_401 in_403 in_404 : tidy.

Ltac tidy_step :=
  match goal with
  | |- tidy (bind _ _) => apply tidy_bind; [|intro]
  | |- tidy (respond _) => apply tidy_respond
  | |- tidy (mapM _ _) => apply tidy_mapM; intro
  | |- tidy (match ?x with _ => _ end) => destruct x
  | |- tidy (let _ := _ in _) => cbv zeta
  | |- _ => solve [auto with tidy]
  end.

Ltac tidy_all := repeat tidy_step.

Lemma tidy_authenticate (req : Request) : tidy (authenticate env req).
Proof. unfold authenticate. tidy_all. Qed.

Lemma tidy_require_user (uo : option uuid) : tidy (require_user uo).
Proof. unfold require_user. tidy_all. Qed.

Lemma tidy_require_id (f : field string) (msg : string) :
  tidy (require_id f msg).
Proof. unfold require_id. tidy_all. Qed.

Lemma tidy_application_count (id : uuid) : tidy (application_count env id).
Proof. unfold application_count. tidy_all. Qed.

Lemma tidy_has_applied (uo : option uuid) (id : uuid) :
  tidy (has_applied env uo id).
Proof. unfold has_applied. tidy_all. Qed.

#[local] Hint Resolve tidy_authenticate tidy_require_user tidy_require_id
  tidy_application_count tidy_has_applied : tidy.

Lemma tidy_with_counts (uo : option uuid) (row : JobRow) :
  tidy (with_counts env uo row).
Proof. unfold with_counts. tidy_all. Qed.

Lemma tidy_with_count (row : JobRow) : tidy (with_count env row).
Proof. unfold with_count. tidy_all. Qed.

Lemma tidy_verify_ownership (u id : uuid) (msg : string) :
  tidy (verify_ownership env u id msg).
Proof. unfold verify_ownership. tidy_all. Qed.

#[local] Hint Resolve tidy_with_counts tidy_with_count
  tidy_verify_ownership : tidy.

Lemma tidy_dispatch (req : Request) (uo : option uuid) (b : Body) :
  tidy (dispatch env req uo b).
Proof.
  unfold dispatch. destruct (action b) as [| |a]; [tidy_all | tidy_all |].
  repeat match goal with
         | |- tidy (if ?a =? ?s then _ else _) => destruct (a =? s)
         end.
  - unfold list_jobs. tidy_all.
  - unfold my_jobs. tidy_all.
  - unfold get_job. tidy_all.
  - unfold create. tidy_all.
  - unfold update. tidy_all.
  - unfold delete. tidy_all.
  - unfold apply. tidy_all.
  - unfold reply. tidy_all.
  - unfold get_all_applications. tidy_all.
  - unfold my_applications. tidy_all.
  - unfold check_business_owner. tidy_all.
  - tidy_all.
Qed.

Lemma tidy_handle (req : Request) : tidy (handle env req).
Proof.
  unfold handle. pose proof tidy_dispatch. tidy_all.
Qed.

Lemma handle_value (req : Request) (w : World) (r : Response) :
  fst (handle env req w) = Value r -> exists p, r = ok p.
Proof.
  unfold handle, bind.
  destruct (authenticate env req w) as [[uo|?|?] w1]; simpl; try discriminate.
  destruct (req_json (json req) w1) as [[b|?|?] w2]; simpl; try discriminate.
  destruct (dispatch env req uo b w2) as [[p|?|?] w3]; simpl; try discriminate.
  intros H. injection H as <-. now exists p.
Qed.

Lemma require_user_none (req : Request) (w : World) (uo : option uuid)
      (w1 : World) :
  authenticate env req w = (Value uo, w1) ->
  session_user env req w = None ->
  forall w2, require_user uo w2 =
             (Returned (error_response 401 "Authentication required"), w2).
Proof.
  intros Ha Hs w2. unfold session_user in Hs. rewrite Ha in Hs. simpl in Hs.
  unfold require_user. destruct uo as [u|]; [|reflexivity].
  destruct (truthy u); [discriminate | reflexivity].
Qed.

(** An action that needs the user answers 401, and touches nothing,
    when the session is missing or invalid. *)
Lemma needs_user_401 (req : Request) (w : World) (b : Body) (a : string) :
  method req <> "OPTIONS" -> json req = Json b -> action b = Val a ->
  In a needs_user -> session_user env req w = None ->
  fst (serve env req w) = error_response 401 "Authentication required" /\
  db (snd (serve env req w)) = db w.
Proof.
  intros Hm Hj Ha Hin Hs.
  destruct (authenticate_run req w) as (uo & w1 & Hauth & Hdb1 & _).
  rewrite (manage_jobs_serve_post req w Hm), (handle_run req w b uo w1 Hj Hauth).
  pose proof (require_user_none req w uo w1 Hauth Hs) as Hreq.
  unfold dispatch. rewrite Ha.
  simpl in Hin.
  repeat (destruct Hin as [<- | Hin]; [cbn [String.eqb Ascii.eqb Bool.eqb]|]);
    try contradiction.
  - unfold my_jobs, bind. rewrite Hreq. simpl. auto.
  - unfold create, bind. rewrite Hreq. simpl. auto.
  - unfold update, bind. rewrite Hreq. simpl. auto.
  - unfold delete, bind. rewrite Hreq. simpl. auto.
  - unfold apply, bind. rewrite Hreq. simpl. auto.
  - unfold reply, bind. rewrite Hreq. simpl. auto.
  - unfold my_applications, bind. rewrite Hreq. simpl. auto.
  - unfold check_business_owner, bind. rewrite Hreq. simpl. auto.
Qed.

Lemma get_without_id_is_400 (req : Request) (w : World) (b : Body) :
  method req <> "OPTIONS" -> json req = Json b -> action b = Val "get" ->
  str_or_null (job_id b) = None ->
  fst (serve env req w) = error_response 400 "Job ID required".
Proof.
  intros Hm Hj Ha Hid.
  destruct (authenticate_run req w) as (uo & w1 & Hauth & Hdb1 & _).
  rewrite (manage_jobs_serve_post req w Hm), (handle_run req w b uo w1 Hj Hauth),
    (dispatch_get req uo b Ha).
  unfold get_job, bind, require_id. now rewrite Hid.
Qed.

Lemma get_hidden_job_is_404 (req : Request) (w : World) (b : Body)
      (id : uuid) (j : Job) :
  method req <> "OPTIONS" -> json req = Json b -> action b = Val "get" ->
  str_or_null (job_id b) = Some id -> responsive env ->
  NoDup (map j_id (jobs (db w))) -> In j (jobs (db w)) -> j_id j = id ->
  session_user env req w <> Some (j_creator_id j) ->
  ~ (j_approval_status j = Some "approved" /\ j_status j = Open) ->
  fst (serve env req w) = error_response 404 "Job not found or access denied".
Proof.
  intros Hm Hj Ha Hid Hresp Hnd Hin Hjid Hs Hno.
  destruct (authenticate_run req w) as (uo & w1 & Hauth & Hdb1 & _).
  rewrite (manage_jobs_serve_post req w Hm), (handle_run req w b uo w1 Hj Hauth),
    (dispatch_get req uo b Ha).
  unfold get_job.
  cbv beta iota delta [bind require_id select call or_throw ret respond next].
  rewrite Hid, Hresp, Hdb1. cbn [tick db].
  rewrite (filter_unique_in j_id (fun j0 => j_id j0 =? id) id (jobs (db w)) j);
    [ | intros y; apply String.eqb_eq | exact Hnd | exact Hin
      | now apply String.eqb_eq ].
  cbn [map single jr_job job_row].
  assert (Hv : visible uo j = false).
  { unfold visible. apply orb_false_iff. split.
    - destruct (is_user uo (j_creator_id j)) eqn:E; [|reflexivity].
      apply (is_user_session req w uo w1 _ Hauth) in E. contradiction.
    - destruct (approved_open j) eqn:E; [|reflexivity].
      apply approved_open_spec in E. contradiction. }
  rewrite Hv. reflexivity.
Qed.

(** X9.  [get] of an unknown job is a 500.  For a job id that no job
    carries and a datastore that answers: [.single()] reports an
    error, the handler throws it before its own 404 test, and the
    answer is 500 with the message of that error (or ["Unknown
    error"]), not 404. *)
Lemma get_unknown_job_is_500 (req : Request) (w : World) (b : Body) (id : uuid) :
  method req <> "OPTIONS" -> json req = Json b -> action b = Val "get" ->
  str_or_null (job_id b) = Some id -> responsive env ->
  (forall j, In j (jobs (db w)) -> j_id j <> id) ->
  fst (serve env req w) =
    error_response 500 (thrown_message (pg_error env row_count_error)).
Proof.
  intros Hm Hj Ha Hid Hresp Hno.
  destruct (authenticate_run req w) as (uo & w1 & Hauth & Hdb1 & _).
  rewrite (manage_jobs_serve_post req w Hm), (handle_run req w b uo w1 Hj Hauth),
    (dispatch_get req uo b Ha).
  unfold get_job.
  cbv beta iota delta [bind require_id select call or_throw ret respond throw next].
  rewrite Hid, Hresp, Hdb1. cbn [tick db].
  assert (E : filter (fun j => j_id j =? id) (jobs (db w)) = []).
  { apply filter_nil_iff. intros j Hin. apply String.eqb_neq. now apply Hno. }
  rewrite E. cbn [map single fst]. unfold on_error, thrown_message.
  now destruct (pg_error env row_count_error).
Qed.

(** C1 (amended).  The error pattern of manage-jobs, as the handler
    has it.  Every response has status 200, 400, 401, 403, 404 or 500
    and every response other than 200 carries an error message.
    Status 500 is returned exactly when the [try] block throws, and
    its message is the message of the thrown [Error] -- for a body
    that is not JSON, the parser's own message -- or ["Unknown
    error"] when the thrown value is no [Error]: it is not one fixed
    text.  An action that needs the user answers 401 and touches
    nothing when the session is missing or invalid; [get] without a
    job id answers 400; [get] of an existing job that the requester
    may not see answers 404. *)
Theorem error_pattern (req : Request) (w : World) :
  (In (status (fst (serve env req w))) [200; 400; 401; 403; 404; 500]%Z /\
   (status (fst (serve env req w)) <> 200%Z ->
    exists msg, content (fst (serve env req w)) = Error msg)) /\
  (status (fst (serve env req w)) = 500%Z <->
   method req <> "OPTIONS" /\ exists e, fst (handle env req w) = Threw e) /\
  (forall e, method req <> "OPTIONS" -> fst (handle env req w) = Threw e ->
     fst (serve env req w) = error_response 500 (thrown_message e)) /\
  (forall m, method req <> "OPTIONS" -> json req = Malformed m ->
     fst (serve env req w) = error_response 500 m) /\
  (forall b a, method req <> "OPTIONS" -> json req = Json b -> action b = Val a ->
     In a needs_user -> session_user env req w = None ->
     fst (serve env req w) = error_response 401 "Authentication required" /\
     db (snd (serve env req w)) = db w) /\
  (forall b, method req <> "OPTIONS" -> json req = Json b ->
     action b = Val "get" -> str_or_null (job_id b) = None ->
     fst (serve env req w) = error_response 400 "Job ID required") /\
  (forall b id j, method req <> "OPTIONS" -> json req = Json b ->
     action b = Val "get" -> str_or_null (job_id b) = Some id ->
     responsive env ->
     NoDup (map j_id (jobs (db w))) -> In j (jobs (db w)) -> j_id j = id ->
     session_user env req w <> Some (j_creator_id j) ->
     ~ (j_approval_status j = Some "approved" /\ j_status j = Open) ->
     fst (serve env req w) =
       error_response 404 "Job not found or access denied").
Proof.
  split; [|split; [|split; [|split; [|split; [|split]]]]].
  - unfold serve.
    destruct (method req =? "OPTIONS"); [simpl; split; [auto | congruence]|].
    pose proof (tidy_handle req w) as Ht.
    pose proof (handle_value req w) as Hv.
    destruct (handle env req w) as [[r|r|e] w']; simpl in *.
    + destruct (Hv r eq_refl) as (p & ->). simpl. split; [auto | congruence].
    + destruct Ht as [Hin Hmsg]. split; [|intros _; exact Hmsg].
      simpl in Hin. simpl. intuition.
    + split; [intuition | intros _; eexists; reflexivity].
  - unfold serve. destruct (method req =? "OPTIONS") eqn:Em.
    + simpl. split; [discriminate | intros [H _]].
      apply String.eqb_eq in Em. contradiction.
    + apply String.eqb_neq in Em.
      pose proof (tidy_handle req w) as Ht.
      pose proof (handle_value req w) as Hv.
      destruct (handle env req w) as [[r|r|e] w']; simpl in *.
      * destruct (Hv r eq_refl) as (p & ->). simpl.
        split; [discriminate | intros [_ (e & He)]; discriminate].
      * destruct Ht as [Hin _]. split.
        -- intros H5. rewrite H5 in Hin. simpl in Hin.
           repeat (destruct Hin as [Hin|Hin]; [discriminate|]). contradiction.
        -- intros [_ (e & He)]. discriminate.
      * split; [intros _; split; [exact Em | now exists e] | reflexivity].
  - intros e Hm He. rewrite (manage_jobs_serve_post req w Hm).
    destruct (handle env req w) as [[r|r|e'] w']; simpl in *; try discriminate.
    injection He as ->. now destruct e.
  - intros m Hm Hj. rewrite (manage_jobs_serve_post req w Hm).
    destruct (authenticate_run req w) as (uo & w1 & Hauth & _ & _).
    unfold handle, bind. rewrite Hauth, Hj. reflexivity.
  - intros b a. apply needs_user_401.
  - intros b. apply get_without_id_is_400.
  - intros b id j. apply get_hidden_job_is_404.
Qed.
End WithEnv.

(** *** The theorems at work on the sample board *)

Import Samples.

Lemma responsive_sample_env : responsive sample_env.
Proof. intros n. reflexivity. Defined.

Lemma u1_signed_in (b : parsed Body) :
  signed_in sample_env (post (Some "t-u1") b) world0 "u1".
Proof. exists "t-u1". repeat split; reflexivity. Defined.

Lemma board_job_ids : NoDup (map j_id (jobs board)).
Proof.
  repeat (constructor; [simpl; intuition discriminate|]). constructor.
Defined.

(** The sample listing, asked by [u1], succeeds and shows [u1] its own
    job [j2], which awaits approval. *)
Lemma list_visibility_witness :
  exists vs, fst (serve sample_env list_as_u1 world0) = ok (JobList vs) /\
             listed vs (job "j2" "u1" Open "pending" None None 20%Z).
Proof.
  destruct (list_visibility sample_env list_as_u1 world0 list_body (Some "u1"))
    as [H1 H2];
    [discriminate | reflexivity | reflexivity | apply u1_signed_in |].
  destruct (H1 responsive_sample_env) as (vs & E).
  exists vs. split; [exact E|].
  destruct (H2 vs) as [_ Hjobs]; [now rewrite E|].
  destruct (Hjobs (job "j2" "u1" Open "pending" None None 20%Z)) as [Hown _];
    [vm_compute; auto|].
  apply Hown. reflexivity.
Defined.

(** Job [j1], open with [expires_at = 500], is closed by a listing run
    when the clock shows more than 1000. *)
Lemma list_closes_expired_witness :
  exists k,
    In {| j_id := "j1"; j_creator_id := "u1";
          j_title := text_of_string "Tailor";
          j_description := text_of_string "Stitching";
          j_conditions := None; j_location := None;
          j_max_applications := None; j_expires_at := Some 500%Z;
          j_status := Closed; j_approval_status := Some "approved";
          j_created_at := 10%Z; j_updated_at := clock_at sample_env k |}
       (jobs (db (snd (serve sample_env list_as_u1 world0)))).
Proof.
  destruct (list_closes_expired sample_env list_as_u1 world0 list_body)
    as (k & _ & Hdone & _); [discriminate | reflexivity | reflexivity |].
  exists k. destruct (Hdone eq_refl) as [Hclose _].
  apply (Hclose (job "j1" "u1" Open "approved" (Some 500%Z) None 10%Z));
    [simpl; auto | reflexivity | reflexivity |].
  change (500 < 1000 + Z.of_nat (S k))%Z. lia.
Defined.

(** When the datastore refuses the update of the auto-close, the fourth
    call of a listing asked by [u1], job [j1] is listed open although
    its [expires_at], 500, is earlier than every reading of the
    clock. *)
Lemma list_with_update_refused :
  ~ lists_no_expired_open_job (refusing [3%nat]).
Proof.
  intros H.
  assert (E : exists vs v,
             content (fst (serve (refusing [3%nat]) list_as_u1 world0)) =
               JobList vs /\
             In v vs /\
             jr_job (jv_row v) =
               job "j1" "u1" Open "approved" (Some 500%Z) None 10%Z).
  { vm_compute. do 2 eexists. split; [reflexivity|].
    split; [right; right; left; reflexivity | reflexivity]. }
  destruct E as (vs & v & Hc & Hv & Hj).
  apply (H list_as_u1 world0 list_body vs ltac:(discriminate) eq_refl eq_refl
           Hc v Hv).
  rewrite Hj. split; [reflexivity|]. exists 500%Z. split; [reflexivity|].
  intros n. change (500 < 1000 + Z.of_nat n)%Z. lia.
Qed.

(** [u1] may not update [j3], a job of [u2]. *)
Lemma update_by_non_owner_witness :
  fst (serve sample_env update_j3_as_u1 world0) =
    error_response 403 "Not authorized to update this job" /\
  db (snd (serve sample_env update_j3_as_u1 world0)) = board.
Proof.
  apply (update_by_non_owner_is_403 sample_env update_j3_as_u1 world0
           update_j3_body "u1" "j3");
    [discriminate | reflexivity | reflexivity | apply u1_signed_in | reflexivity |].
  intros j [<- | [<- | [<- | []]]] Hid; simpl in *; discriminate.
Defined.

(** A title of spaces and a no-break space is refused. *)
Lemma create_blank_example :
  fst (serve sample_env create_blank_as_u1 world0) =
    error_response 400 "Title and description are required" /\
  db (snd (serve sample_env create_blank_as_u1 world0)) = board.
Proof.
  apply (create_blank_is_400 sample_env create_blank_as_u1 world0
           create_blank_body "u1");
    [discriminate | reflexivity | reflexivity | apply u1_signed_in |].
  left. reflexivity.
Qed.

(** C6.  Creating a job with an empty title gets 400 -- unless a title
    or a description is sent that is not a string.  The request
    [{ action: "create", title: 123, description: "" }] of the
    signed-in user [u1] has an empty description, and yet it is not
    answered with 400: [title?.trim()] throws, the [catch] block
    answers 500 with the message of the [TypeError].  No job is
    inserted. *)
Theorem create_numeric_title_is_500 :
  signed_in sample_env create_numeric_title_as_u1 world0 "u1" /\
  action create_numeric_title_body = Val "create" /\
  absent_empty_or_whitespace (description create_numeric_title_body) /\
  fst (serve sample_env create_numeric_title_as_u1 world0) =
    error_response 500 "title?.trim is not a function" /\
  db (snd (serve sample_env create_numeric_title_as_u1 world0)) = board.
Proof.
  split; [apply u1_signed_in|].
  split; [reflexivity|]. split; [reflexivity|].
  split; vm_compute; reflexivity.
Qed.

Lemma u1_may_apply_to_j3 (b : Body) :
  str_or_null (job_id b) = Some "j3" -> ~ apply_refused board "u1" b.
Proof.
  intros Hj
    [Hnone | (id & Hid & [Hno | [(j & Hin & Hjid & Hc) | (a & Hin & Ha & Hu)]])].
  - congruence.
  - assert (id = "j3") by congruence. subst id.
    apply (Hno (job "j3" "u2" Open "approved" None (Some 1%Z) 30%Z));
      [simpl; auto | reflexivity | split; reflexivity].
  - assert (id = "j3") by congruence. subst id.
    destruct Hin as [<- | [<- | [<- | []]]]; simpl in *; discriminate.
  - assert (id = "j3") by congruence. subst id.
    destruct Hin as [<- | []]; simpl in *; discriminate.
Qed.

Lemma board_applications_unique :
  NoDup (map (fun a => (a_job_id a, a_applicant_id a)) (job_applications board)).
Proof. repeat (constructor; [simpl; intuition discriminate|]). constructor. Qed.

(** Job [j3] takes one application and has one, of [u3]; the
    application of [u1] is accepted all the same. *)
Lemma apply_beyond_max_applications_example :
  j_max_applications (job "j3" "u2" Open "approved" None (Some 1%Z) 30%Z) = Some 1%Z /\
  List.length (applications_of_job board "j3") = 1%nat /\
  fst (serve sample_env apply_j3_as_u1 world0) =
    ok (SuccessMessage "Application submitted!") /\
  job_applications (db (snd (serve sample_env apply_j3_as_u1 world0))) =
    (job_applications board ++
     [{| a_id := uuid_at sample_env 3; a_job_id := "j3"; a_applicant_id := "u1";
         a_message := None; a_education_qualification := None;
         a_experience_details := None;
         a_creator_reply := None; a_replied_at := None;
         a_created_at := clock_at sample_env 3 |}])%list.
Proof.
  split; [reflexivity | split; [reflexivity|]].
  destruct (apply_refused_iff_400 sample_env apply_j3_as_u1 world0
              apply_j3_body "u1") as (_ & _ & H);
    [ discriminate | reflexivity | reflexivity | apply u1_signed_in
    | exact responsive_sample_env | exact board_job_ids
    | exact board_applications_unique | exact I | exact I | exact I | ].
  destruct (H (u1_may_apply_to_j3 apply_j3_body eq_refl))
    as (id & m & e & x & Hid & Hm & He & Hx & Hr & Hrow).
  injection Hid as <-. simpl in Hm, He, Hx. subst m e x.
  split; [exact Hr | exact Hrow].
Qed.

(** C8.  The refusals of [apply], and the insert in every other case --
    unless a message is sent that is not a string.  The request
    [{ action: "apply", job_id: "j3", message: 123 }] of the signed-in
    user [u1] names a job that is open and approved, that [u1] did not
    create and has not applied to: none of the four reasons refuses
    it.  And yet no application is inserted: [message?.trim()] throws,
    the [catch] block answers 500 with the message of the
    [TypeError]. *)
Theorem apply_numeric_message_is_500 :
  signed_in sample_env apply_numeric_message_as_u1 world0 "u1" /\
  action apply_numeric_message_body = Val "apply" /\
  ~ apply_refused board "u1" apply_numeric_message_body /\
  fst (serve sample_env apply_numeric_message_as_u1 world0) =
    error_response 500 "message?.trim is not a function" /\
  db (snd (serve sample_env apply_numeric_message_as_u1 world0)) = board.
Proof.
  split; [apply u1_signed_in|]. split; [reflexivity|].
  split; [exact (u1_may_apply_to_j3 apply_numeric_message_body eq_refl)|].
  split; vm_compute; reflexivity.
Qed.


(** An anonymous [create] is answered 401. *)
Lemma error_pattern_witness :
  fst (serve sample_env create_anonymous world0) =
    error_response 401 "Authentication required" /\
  db (snd (serve sample_env create_anonymous world0)) = board.
Proof.
  destruct (error_pattern sample_env create_anonymous world0)
    as (_ & _ & _ & _ & H & _).
  apply (H create_blank_body "create");
    [discriminate | reflexivity | reflexivity | simpl; auto | reflexivity].
Defined.

(** C1, counterexample.  Two bodies that are not JSON, [truncated] and
    [garbled], are both answered 500, each with the message of its own
    [SyntaxError]: the [catch] block hands the thrown message to the
    client, so no generic message covers the status-500 responses. *)
Lemma catch_block_echoes_thrown_message :
  ~ generic_failure_message sample_env.
Proof.
  intros (g & Hg).
  pose proof (Hg truncated world0 eq_refl) as H1.
  pose proof (Hg garbled world0 eq_refl) as H2.
  vm_compute in H1, H2. congruence.
Qed.

(** The responses of the counterexample, and [get] of an id that no job
    carries, computed. *)
Example truncated_body_response :
  fst (serve sample_env truncated world0) =
    error_response 500 "Unexpected end of JSON input".
Proof. reflexivity. Qed.

Example garbled_body_response :
  fst (serve sample_env garbled world0) =
    error_response 500 "Unexpected token < in JSON at position 0".
Proof. reflexivity. Qed.

Example get_unknown_job_response :
  fst (serve sample_env (get_anonymous "j9") world0) =
    error_response 500 "JSON object requested, multiple (or no) rows returned".
Proof. reflexivity. Qed.

End ManageJobsFacts.

(** * mobile-auth: properties *)

Module MobileAuthFacts.
Import MobileAuth.

Section WithEnv.
Variable env : Env.

Lemma mobile_auth_serve_post (req : Request) (w : World) :
  method req <> "OPTIONS" ->
  serve env req w =
    match handle env req w with
    | (Value r, w') => (r, w')
    | (Returned r, w') => (r, w')
    | (Threw e, w') => (on_error e, w')
    end.
Proof.
  intros H. unfold serve. apply String.eqb_neq in H. now rewrite H.
Qed.

Lemma handle_signup (req : Request) (w : World) (b : Body)
      (mobile pass : string) :
  configured env = true -> json req = Json b -> action b = Val "signup" ->
  str_or_null (mobile_number b) = Some mobile ->
  str_or_null (password b) = Some pass ->
  handle env req w = signup env b mobile pass w.
Proof.
  intros Hc Hj Ha Hmob Hp. unfold handle. rewrite Hc. cbn [negb].
  unfold bind. rewrite Hj. cbn [req_json ret].
  rewrite Ha, Hmob, Hp. reflexivity.
Qed.

(** C7 (amended).  The signup flow checks in the application that
    the mobile number and the username are free.  For a well-formed
    signup request and a datastore that answers: when the lookup of
    the mobile number in [user_credentials] finds a row, the handler
    answers 400 "This mobile number is already registered"; when it
    finds none and the lookup of the lower-cased username in
    [profiles] finds a row, the handler answers 400 "This username is
    already taken".  In both cases it stops there: no insert is sent
    and every table is as it was. *)
Theorem signup_checks_duplicates
        (req : Request) (w : World) (b : Body) (mobile pass full user : string) :
  method req <> "OPTIONS" -> configured env = true ->
  json req = Json b -> action b = Val "signup" ->
  str_or_null (mobile_number b) = Some mobile ->
  str_or_null (password b) = Some pass ->
  str_or_null (full_name b) = Some full ->
  str_or_null (username b) = Some user ->
  usernameRegex_test user = true ->
  responsive env ->
  ((exists c, filter (fun c => c_mobile_number c =? mobile)
                     (user_credentials (db w)) = [c]) ->
   fst (serve env req w) =
     error_response 400 "This mobile number is already registered" /\
   snd (serve env req w) = next w (db w)) /\
  (filter (fun c => c_mobile_number c =? mobile) (user_credentials (db w)) = [] ->
   (exists p, filter (fun p => match p_username p with
                               | Some n => n =? toLowerCase user
                               | None => false
                               end) (profiles (db w)) = [p]) ->
   fst (serve env req w) = error_response 400 "This username is already taken" /\
   snd (serve env req w) = next (next w (db w)) (db w)).
Proof.
  intros Hm Hc Hj Ha Hmob Hp Hfull Huser Hre Hresp.
  rewrite (mobile_auth_serve_post req w Hm),
    (handle_signup req w b mobile pass Hc Hj Ha Hmob Hp).
  unfold signup. rewrite Hfull, Huser, Hre. cbn [negb].
  cbv beta iota delta [bind select call ret respond next].
  rewrite Hresp. cbn [tick db].
  split.
  - intros (c & ->). simpl. auto.
  - intros -> (p & Hpf). cbn [maybeSingle]. rewrite Hresp. cbn [tick db].
    rewrite Hpf. simpl. auto.
Qed.


End WithEnv.

Import Samples.

(** The number of [u1] is taken: the signup stops after the lookup. *)
Lemma signup_checks_duplicates_witness :
  fst (serve sample_env (signup_request "9000000001" "deepa") world0) =
    error_response 400 "This mobile number is already registered" /\
  snd (serve sample_env (signup_request "9000000001" "deepa") world0) =
    {| db := board; tick := 1 |}.
Proof.
  apply (signup_checks_duplicates sample_env
           (signup_request "9000000001" "deepa") world0
           (signup_body "9000000001" "deepa")
           "9000000001" "secret" "Deepa" "deepa");
    [ discriminate | reflexivity | reflexivity | reflexivity | reflexivity
    | reflexivity | reflexivity | reflexivity | reflexivity
    | intros n; reflexivity | ].
  eexists. reflexivity.
Defined.



Example orphan_credentials_response :
  fst (serve (refusing [3; 4]%nat) (signup_request "9000000009" "deepa") world0) =
    error_response 500 "Failed to create profile" /\
  user_credentials
    (db (snd (serve (refusing [3; 4]%nat)
                (signup_request "9000000009" "deepa") world0))) =
    (user_credentials board ++
     [{| c_id := generated 2; c_mobile_number := "9000000009";
         c_password_hash := "sha256:secret" |}])%list /\
  profiles
    (db (snd (serve (refusing [3; 4]%nat)
                (signup_request "9000000009" "deepa") world0))) =
    profiles board.
Proof. repeat split. Qed.

(** C7, counterexample.  The number 9000000001 is registered on the
    sample board.  A signup with it is answered 400 after one call of
    the datastore, the lookup of lines 243-248: the handler has checked
    the number itself, and has sent no insert for a constraint to
    refuse. *)
Lemma signup_checks_the_number_itself :
  ~ every_400_precedes_the_datastore sample_env.
Proof.
  intros H.
  specialize (H (signup_request "9000000001" "deepa") world0 eq_refl).
  vm_compute in H. discriminate H.
Qed.

Example taken_number_response :
  serve sample_env (signup_request "9000000001" "deepa") world0 =
    (error_response 400 "This mobile number is already registered",
     {| db := board; tick := 1 |}).
Proof. reflexivity. Qed.

(** The name is compared in lower case: [Anu] meets [anu]. *)
Example taken_username_response :
  serve sample_env (signup_request "9000000009" "Anu") world0 =
    (error_response 400 "This username is already taken",
     {| db := board; tick := 2 |}).
Proof. reflexivity. Qed.

Example refused_profile_response :
  fst (serve fourth_call_refused (signup_request "9000000009" "deepa") world0) =
    error_response 500 "Failed to create profile".
Proof. reflexivity. Qed.

End MobileAuthFacts.

(** * Sessions, handler by handler *)

Module SessionFacts.

Section WithEnv.
Variable env : Env.

(** create-post inserts the post for the [user_id] of the body; the
    profile of that user is created when it is missing. *)
Lemma create_post_needs_no_session
      (req : CreatePost.Request) (w : World) (b : CreatePost.Body) (u : uuid) :
  CreatePost.method req <> "OPTIONS" -> CreatePost.json req = Json b ->
  str_or_null (CreatePost.user_id b) = Some u ->
  (str_or_null (CreatePost.content b) <> None \/
   str_or_null (CreatePost.image_url b) <> None \/
   str_or_null (CreatePost.youtube_url b) <> None) ->
  responsive env ->
  exists id now,
    fst (CreatePost.serve env req w) =
      {| CreatePost.status := 200;
         CreatePost.content_of :=
           CreatePost.Created (CreatePost.new_post u b id now) |} /\
    posts (db (snd (CreatePost.serve env req w))) =
      (posts (db w) ++ [CreatePost.new_post u b id now])%list /\
    user_sessions (db (snd (CreatePost.serve env req w))) = user_sessions (db w).
Proof.
  intros Hm Hj Hu Hc Hresp.
  unfold CreatePost.serve. apply String.eqb_neq in Hm. rewrite Hm.
  unfold CreatePost.handle.
  cbv beta iota delta [bind select call write insert ret respond next].
  rewrite Hj. cbn [req_json ret]. rewrite Hu, Hresp. cbn [tick db].
  assert (Hany : negb (truthy_opt (str_or_null (CreatePost.content b))) &&
                 negb (truthy_opt (str_or_null (CreatePost.image_url b))) &&
                 negb (truthy_opt (str_or_null (CreatePost.youtube_url b))) = false).
  { assert (T : forall f : field string,
               str_or_null f <> None -> truthy_opt (str_or_null f) = true).
    { intros [| |s]; simpl; try congruence.
      destruct (truthy s) eqn:E; simpl; congruence. }
    destruct Hc as [H | [H | H]]; apply T in H; rewrite H; simpl;
      rewrite ?andb_false_r; reflexivity. }
  destruct (maybeSingle (filter (fun p => p_id p =? u) (profiles (db w))))
    as [[p|]|m]; cbn [tick db]; rewrite ?Hresp; cbn [tick db]; rewrite Hany, Hresp;
    cbn [fst snd tick db]; do 2 eexists;
    (split; [reflexivity|]); cbn [posts user_sessions set_posts];
    rewrite ?(proj1 (upsert_profile_id_keeps u (db w))),
            ?(proj2 (upsert_profile_id_keeps u (db w)));
    split; reflexivity.
Qed.

(** create-business inserts the business for the [user_id] of the
    body, provided a profile with this id exists. *)
Lemma create_business_needs_no_session
      (req : CreateBusiness.Request) (w : World) (b : CreateBusiness.Body)
      (u n : string) (p : Profile) :
  CreateBusiness.method req <> "OPTIONS" -> CreateBusiness.json req = Json b ->
  str_or_null (CreateBusiness.user_id b) = Some u ->
  str_or_null (CreateBusiness.name b) = Some n ->
  filter (fun p => p_id p =? u) (profiles (db w)) = [p] ->
  responsive env ->
  exists id,
    fst (CreateBusiness.serve env req w) =
      {| CreateBusiness.status := 200;
         CreateBusiness.content_of :=
           CreateBusiness.Created (CreateBusiness.new_business u n b id) |} /\
    businesses (db (snd (CreateBusiness.serve env req w))) =
      (businesses (db w) ++ [CreateBusiness.new_business u n b id])%list /\
    user_sessions (db (snd (CreateBusiness.serve env req w))) =
      user_sessions (db w).
Proof.
  intros Hm Hj Hu Hn Hp Hresp.
  unfold CreateBusiness.serve. apply String.eqb_neq in Hm. rewrite Hm.
  unfold CreateBusiness.handle.
  cbv beta iota delta [bind select call write insert ret respond next].
  rewrite Hj. cbn [req_json ret]. rewrite Hu, Hn, Hresp. cbn [tick db].
  rewrite Hp. cbn [maybeSingle]. rewrite Hresp. cbn [fst snd tick db].
  eexists. split; [reflexivity | split; reflexivity].
Qed.

(** manage-community answers 401 and runs none of its actions for a
    request without a token, with an empty one, or with one that
    [validate_session] does not accept. *)
Lemma manage_community_gate
      (Body Result : Type)
      (actions : uuid -> Body -> M (ManageCommunity.Response Result)
                                   (ManageCommunity.Response Result))
      (req : ManageCommunity.Request Body) (w : World) :
  ManageCommunity.method req <> "OPTIONS" -> configured env = true ->
  (ManageCommunity.x_session_token req = None \/
   ManageCommunity.x_session_token req = Some "" \/
   exists t, ManageCommunity.x_session_token req = Some t /\
             validate_session env (db w) (clock_at env (tick w)) t = None) ->
  ManageCommunity.status (fst (ManageCommunity.serve env actions req w)) = 401 /\
  db (snd (ManageCommunity.serve env actions req w)) = db w.
Proof.
  intros Hm Hc Hs.
  unfold ManageCommunity.serve. apply String.eqb_neq in Hm. rewrite Hm.
  unfold ManageCommunity.handle. rewrite Hc. cbn [negb].
  destruct Hs as [-> | [-> | (t & -> & Hv)]]; try (simpl; auto; fail).
  destruct (truthy t); cbn [negb]; [|simpl; auto].
  unfold bind, rpc_validate_session, select, call.
  destruct (fault_at env (tick w)); [simpl; auto|].
  rewrite Hv. simpl. auto.
Qed.

(** C2 (amended).  Which handlers look at the session before they
    write.  create-post and create-business do not: when the
    datastore answers, create-post inserts a post for the [user_id]
    of the body as soon as the body has that id and some content,
    and create-business inserts a business for it as soon as the body
    has that id and a name and a profile with the id exists; none of
    them reads the token of the request or the sessions table.
    manage-community answers 401 and writes nothing for a missing,
    empty or unaccepted token, whatever its actions are.  In
    manage-jobs the actions that need the user ([my_jobs], [create],
    [update], [delete], [apply], [reply], [my_applications],
    [check_business_owner]) answer 401 and write nothing when the
    session is missing or invalid. *)
Theorem session_checks_by_handler :
  (forall req w b u,
     CreatePost.method req <> "OPTIONS" -> CreatePost.json req = Json b ->
     str_or_null (CreatePost.user_id b) = Some u ->
     (str_or_null (CreatePost.content b) <> None \/
      str_or_null (CreatePost.image_url b) <> None \/
      str_or_null (CreatePost.youtube_url b) <> None) ->
     responsive env ->
     exists id now,
       fst (CreatePost.serve env req w) =
         {| CreatePost.status := 200;
            CreatePost.content_of :=
              CreatePost.Created (CreatePost.new_post u b id now) |} /\
       posts (db (snd (CreatePost.serve env req w))) =
         (posts (db w) ++ [CreatePost.new_post u b id now])%list /\
       user_sessions (db (snd (CreatePost.serve env req w))) =
         user_sessions (db w)) /\
  (forall req w b u n p,
     CreateBusiness.method req <> "OPTIONS" -> CreateBusiness.json req = Json b ->
     str_or_null (CreateBusiness.user_id b) = Some u ->
     str_or_null (CreateBusiness.name b) = Some n ->
     filter (fun p => p_id p =? u) (profiles (db w)) = [p] ->
     responsive env ->
     exists id,
       fst (CreateBusiness.serve env req w) =
         {| CreateBusiness.status := 200;
            CreateBusiness.content_of :=
              CreateBusiness.Created (CreateBusiness.new_business u n b id) |} /\
       businesses (db (snd (CreateBusiness.serve env req w))) =
         (businesses (db w) ++ [CreateBusiness.new_business u n b id])%list /\
       user_sessions (db (snd (CreateBusiness.serve env req w))) =
         user_sessions (db w)) /\
  (forall (Body Result : Type)
          (actions : uuid -> Body -> M (ManageCommunity.Response Result)
                                       (ManageCommunity.Response Result))
          (req : ManageCommunity.Request Body) (w : World),
     ManageCommunity.method req <> "OPTIONS" -> configured env = true ->
     (ManageCommunity.x_session_token req = None \/
      ManageCommunity.x_session_token req = Some "" \/
      exists t, ManageCommunity.x_session_token req = Some t /\
                validate_session env (db w) (clock_at env (tick w)) t = None) ->
     ManageCommunity.status (fst (ManageCommunity.serve env actions req w)) = 401 /\
     db (snd (ManageCommunity.serve env actions req w)) = db w) /\
  (forall req w b a,
     ManageJobs.method req <> "OPTIONS" -> ManageJobs.json req = Json b ->
     ManageJobs.action b = Val a -> In a ManageJobsSpec.needs_user ->
     ManageJobsSpec.session_user env req w = None ->
     fst (ManageJobs.serve env req w) =
       ManageJobs.error_response 401 "Authentication required" /\
     db (snd (ManageJobs.serve env req w)) = db w).
Proof.
  split; [exact create_post_needs_no_session|].
  split; [exact create_business_needs_no_session|].
  split; [exact manage_community_gate|].
  exact (ManageJobsFacts.needs_user_401 env).
Qed.
End WithEnv.

Import Samples.

(** A business for [u1], asked for without a token, on the sample
    board. *)
Lemma session_checks_by_handler_witness :
  exists id,
    fst (CreateBusiness.serve sample_env anonymous_business world0) =
      {| CreateBusiness.status := 200;
         CreateBusiness.content_of :=
           CreateBusiness.Created
             (CreateBusiness.new_business "u1" "Anu Tailors"
                {| CreateBusiness.user_id := Val "u1";
                   CreateBusiness.name := Val "Anu Tailors";
                   CreateBusiness.description := Absent;
                   CreateBusiness.category := Absent;
                   CreateBusiness.location := Absent;
                   CreateBusiness.logo_url := Absent;
                   CreateBusiness.cover_image_url := Absent;
                   CreateBusiness.website_url := Absent;
                   CreateBusiness.instagram_link := Absent;
                   CreateBusiness.youtube_link := Absent |} id) |} /\
    businesses (db (snd (CreateBusiness.serve sample_env anonymous_business world0))) =
      [CreateBusiness.new_business "u1" "Anu Tailors"
         {| CreateBusiness.user_id := Val "u1";
            CreateBusiness.name := Val "Anu Tailors";
            CreateBusiness.description := Absent;
            CreateBusiness.category := Absent;
            CreateBusiness.location := Absent;
            CreateBusiness.logo_url := Absent;
            CreateBusiness.cover_image_url := Absent;
            CreateBusiness.website_url := Absent;
            CreateBusiness.instagram_link := Absent;
            CreateBusiness.youtube_link := Absent |} id] /\
    user_sessions (db (snd (CreateBusiness.serve sample_env anonymous_business world0))) =
      user_sessions board.
Proof.
  destruct (session_checks_by_handler sample_env) as (_ & H & _).
  apply (H anonymous_business world0 _ "u1" "Anu Tailors"
           (person "u1" "anu" "9000000001"));
    [ discriminate | reflexivity | reflexivity | reflexivity | reflexivity
    | intros n; reflexivity ].
Defined.

(** C2, counterexample.  [anonymous_post] carries no token and the
    blank world holds no session (and no profile); create-post answers
    200 and the posts table has a post of user [u1]. *)
Lemma create_post_verifies_no_session :
  ~ create_post_verifies_session sample_env.
Proof.
  intros H.
  destruct (H anonymous_post blank_world) as (t & u & Ht & _).
  - vm_compute. discriminate.
  - discriminate Ht.
Qed.

Example anonymous_post_response :
  CreatePost.status (fst (CreatePost.serve sample_env anonymous_post blank_world)) = 200%Z /\
  map post_user_id
      (posts (db (snd (CreatePost.serve sample_env anonymous_post blank_world)))) =
    ["u1"] /\
  map p_id
      (profiles (db (snd (CreatePost.serve sample_env anonymous_post blank_world)))) =
    ["u1"] /\
  user_sessions (db blank_world) = [].
Proof. repeat split. Qed.

End SessionFacts.

(** * Further facts about text *)

Lemma trim_start_fixed (t : text) :
  match t with [] => True | c :: _ => is_white_space c = false end ->
  trim_start t = t.
Proof. destruct t as [|c r]; simpl; [reflexivity | now intros ->]. Qed.

Lemma trim_start_idempotent (t : text) : trim_start (trim_start t) = trim_start t.
Proof.
  apply trim_start_fixed.
  destruct (trim_start_keeps t) as [-> | (c & r & -> & Hc)]; [exact I | exact Hc].
Qed.

Lemma trim_start_suffix (t : text) :
  exists ws, t = (ws ++ trim_start t)%list.
Proof.
  induction t as [|c r [ws IH]]; simpl.
  - now exists [].
  - destruct (is_white_space c).
    + exists (c :: ws). simpl. now rewrite <- IH.
    + now exists [].
Qed.

(** Trimming a trimmed text changes nothing. *)
Lemma trim_idempotent (t : text) : trim (trim t) = trim t.
Proof.
  unfold trim, trim_end.
  set (s := trim_start t). set (e := trim_start (rev s)).
  assert (Hhead : trim_start (rev e) = rev e).
  { apply trim_start_fixed.
    destruct (trim_start_suffix (rev s)) as [ws Hws]. fold e in Hws.
    apply (f_equal (@rev N)) in Hws. rewrite rev_involutive, rev_app_distr in Hws.
    destruct (rev e) as [|c r] eqn:Er; [exact I|].
    subst s. destruct (trim_start_keeps t) as [E | (c' & r' & E & Hc)];
      rewrite E in Hws; simpl in Hws; [discriminate|].
    injection Hws as -> _. exact Hc. }
  rewrite Hhead, rev_involutive. unfold e. now rewrite trim_start_idempotent.
Qed.

(** * Further facts about rows *)

Lemma insert_desc_sorted {A : Type} (key : A -> Z) (x : A) (l : list A) :
  newest_first (map key l) -> newest_first (map key (insert_desc key x l)).
Proof.
  induction l as [|y r IH]; simpl.
  - intros _. split; [intros z [] | exact I].
  - intros [Hy Hr]. destruct (Z.leb_spec (key y) (key x)) as [Hle|Hlt]; simpl.
    + split; [|split; assumption].
      intros z [<- | Hz]; [exact Hle|]. specialize (Hy z Hz). lia.
    + split; [|now apply IH].
      intros z Hz. apply in_map_iff in Hz. destruct Hz as (a & <- & Ha).
      apply (Permutation_in _ (insert_desc_perm key x r)) in Ha.
      destruct Ha as [<- | Ha]; [lia|]. apply Hy. now apply in_map.
Qed.

(** [order_desc] gives the rows from the latest to the earliest. *)
Lemma order_desc_sorted {A : Type} (key : A -> Z) (l : list A) :
  newest_first (map key (order_desc key l)).
Proof.
  induction l as [|x r IH]; simpl; [exact I|]. now apply insert_desc_sorted.
Qed.

(** * Steps and frames of the handler monad *)

Lemma bind_value {R A B : Type} (c : M R A) (k : A -> M R B)
      (w w' : World) (a : A) :
  c w = (Value a, w') -> bind c k w = k a w'.
Proof. intros H. unfold bind. now rewrite H. Qed.

Lemma bind_returned {R A B : Type} (c : M R A) (k : A -> M R B)
      (w w' : World) (r : R) :
  c w = (Returned r, w') -> bind c k w = (Returned r, w').
Proof. intros H. unfold bind. now rewrite H. Qed.

Section Frames.
Variable env : Env.
Variable P : Store -> Store -> Prop.
Hypothesis P_refl : forall s, P s s.
Hypothesis P_trans : forall s1 s2 s3, P s1 s2 -> P s2 s3 -> P s1 s3.

Lemma keeps_ret {R A : Type} (a : A) : keeps P (ret (R := R) a).
Proof. intros w. apply P_refl. Qed.

Lemma keeps_respond {R A : Type} (r : R) : keeps P (respond (A := A) r).
Proof. intros w. apply P_refl. Qed.

Lemma keeps_throw {R A : Type} (e : thrown) : keeps P (throw (R := R) (A := A) e).
Proof. intros w. apply P_refl. Qed.

Lemma keeps_bind {R A B : Type} (c : M R A) (k : A -> M R B) :
  keeps P c -> (forall a, keeps P (k a)) -> keeps P (bind c k).
Proof.
  intros Hc Hk w. unfold bind. specialize (Hc w).
  destruct (c w) as [[a|r|e] w1]; simpl in *; [|exact Hc|exact Hc].
  eapply P_trans; [exact Hc | apply Hk].
Qed.

Lemma keeps_date_now {R : Type} : keeps P (date_now env (R := R)).
Proof. intros w. apply P_refl. Qed.

Lemma keeps_call {R A : Type} (q : Store -> answer A * Store) :
  (forall s, P s (snd (q s))) -> keeps P (call env (R := R) q).
Proof.
  intros Hq w. unfold call. destruct (fault_at env (tick w)).
  - apply P_refl.
  - specialize (Hq (db w)). now destruct (q (db w)).
Qed.

Lemma keeps_select {R A : Type} (q : Store -> answer A) :
  keeps P (select env (R := R) q).
Proof. apply keeps_call. intros s. apply P_refl. Qed.

Lemma keeps_write {R : Type} (f : Store -> Store) :
  (forall s, P s (f s)) -> keeps P (write env (R := R) f).
Proof. intros Hf. apply keeps_call. exact Hf. Qed.

Lemma keeps_insert {R A : Type} (q : uuid -> timestamp -> Store -> answer A * Store) :
  (forall id now s, P s (snd (q id now s))) -> keeps P (insert env (R := R) q).
Proof. intros Hq w. unfold insert. now apply keeps_call. Qed.

Lemma keeps_rpc {R : Type} (t : string) :
  keeps P (rpc_validate_session env (R := R) t).
Proof. intros w. unfold rpc_validate_session. apply keeps_select. Qed.

Lemma keeps_or_throw {R A : Type} (r : answer A) :
  keeps P (or_throw env (R := R) r).
Proof. destruct r; [apply keeps_ret | apply keeps_throw]. Qed.

Lemma keeps_req_json {R B : Type} (p : parsed B) : keeps P (req_json (R := R) p).
Proof. destruct p; [apply keeps_ret | apply keeps_throw]. Qed.

Lemma keeps_optional_trim {R : Type} (callee : string) (f : field jtext) :
  keeps P (optional_trim (R := R) callee f).
Proof.
  destruct f as [| |[t|r]]; first [apply keeps_ret | apply keeps_throw].
Qed.

Lemma keeps_mapM {R A B : Type} (f : A -> M R B) (l : list A) :
  (forall a, keeps P (f a)) -> keeps P (mapM f l).
Proof.
  intros Hf. induction l as [|x l IH]; simpl.
  - apply keeps_ret.
  - apply keeps_bind; [apply Hf|]. intros y.
    apply keeps_bind; [exact IH|]. intros ys. apply keeps_ret.
Qed.
End Frames.

Lemma unchanged_trans (s1 s2 s3 : Store) : s1 = s2 -> s2 = s3 -> s1 = s3.
Proof. congruence. Qed.

Create HintDb keeps.
#[export] Hint Resolve keeps_ret keeps_respond keeps_throw keeps_date_now
  keeps_select keeps_rpc keeps_or_throw keeps_req_json keeps_optional_trim
  unchanged_trans : keeps.

(** One step of a frame proof: split a sequence, or decide a test. *)
Ltac keeps_step :=
  match goal with
  | |- keeps _ (bind _ _) => apply keeps_bind
  | |- keeps _ (mapM _ _) => apply keeps_mapM
  | |- keeps _ (call _ _) => apply keeps_call
  | |- keeps _ (write _ _) => apply keeps_write
  | |- keeps _ (insert _ _) => apply keeps_insert
  | |- keeps _ (match ?x with _ => _ end) => destruct x
  | |- keeps _ (if ?x then _ else _) => destruct x
  | |- forall _, _ => intro
  end.

Ltac keeps_all := repeat first [ solve [eauto with keeps] | keeps_step ].


(** * manage-jobs: further properties *)

Module JobActionsFacts.
Import ManageJobs ManageJobsSpec.

Lemma same_outside_jobs_refl (s : Store) : same_outside_jobs s s.
Proof. repeat split. Qed.

Lemma same_outside_jobs_trans (s1 s2 s3 : Store) :
  same_outside_jobs s1 s2 -> same_outside_jobs s2 s3 -> same_outside_jobs s1 s3.
Proof.
  unfold same_outside_jobs. intros (A1 & A2 & A3 & A4 & A5 & A6)
    (B1 & B2 & B3 & B4 & B5 & B6). repeat split; congruence.
Qed.

#[export] Hint Resolve same_outside_jobs_refl same_outside_jobs_trans : keeps.

Section ManageJobsFrames.
Variable env : Env.

Lemma keeps_authenticate (P : Store -> Store -> Prop) (req : Request) :
  (forall s, P s s) -> (forall s1 s2 s3, P s1 s2 -> P s2 s3 -> P s1 s3) ->
  keeps P (authenticate env req).
Proof. intros Hr Ht. unfold authenticate. keeps_all. Qed.

Lemma quiet_dispatch (req : Request) (uo : option uuid) (b : Body) :
  (forall a, action b = Val a -> ~ In a writing_actions) ->
  keeps eq (dispatch env req uo b).
Proof.
  intros Ha. unfold dispatch.
  destruct (action b) as [| |a] eqn:E; [keeps_all..|].
  specialize (Ha a eq_refl). unfold writing_actions in Ha. simpl in Ha.
  repeat match goal with
  | |- keeps _ (if ?a =? ?s then _ else _) =>
      destruct (String.eqb_spec a s) as [->|]
  end;
  try (exfalso; tauto);
  unfold my_jobs, get_job, get_all_applications, my_applications,
    check_business_owner, require_user, require_id, with_count,
    application_count, has_applied;
  keeps_all.
Qed.
Lemma frame_dispatch (req : Request) (uo : option uuid) (b : Body) :
  keeps same_outside_jobs (dispatch env req uo b).
Proof.
  unfold dispatch.
  destruct (action b) as [| |a]; [keeps_all..|].
  repeat match goal with
  | |- keeps _ (if ?a =? ?s then _ else _) => destruct (a =? s)
  end;
  unfold list_jobs, my_jobs, get_job, create, update, delete, apply, reply,
    get_all_applications, my_applications, check_business_owner,
    verify_ownership, require_user, require_id, with_count, with_counts,
    application_count, has_applied;
  keeps_all;
  unfold same_outside_jobs, close_expired, update_jobs_where_id;
  try match goal with |- context [update_refused ?b] => destruct (update_refused b) end;
  simpl; repeat split.
Qed.

Lemma serve_keeps (P : Store -> Store -> Prop) (req : Request) (w : World) :
  P (db w) (db w) -> P (db w) (db (snd (handle env req w))) ->
  P (db w) (db (snd (serve env req w))).
Proof.
  intros Hr Hh. unfold serve. destruct (method req =? "OPTIONS"); [exact Hr|].
  now destruct (handle env req w) as [[r|r|e] w'].
Qed.

(** X1.  Only six actions of manage-jobs ever write.  A request whose
    body is not JSON, or whose action is none of [list], [create],
    [update], [delete], [apply] and [reply], leaves every table as it
    was, whoever sends it and whatever the datastore answers. *)
Theorem only_writing_actions_write (req : Request) (w : World) :
  (forall b a, json req = Json b -> action b = Val a -> ~ In a writing_actions) ->
  db (snd (serve env req w)) = db w.
Proof.
  intros Ha. symmetry. apply (serve_keeps eq); [reflexivity|].
  destruct (ManageJobsFacts.authenticate_run env req w) as (uo & w1 & Hauth & Hdb1 & _).
  destruct (json req) as [b|m] eqn:Ej.
  - rewrite (ManageJobsFacts.handle_run env req w b uo w1 Ej Hauth).
    pose proof (quiet_dispatch req uo b (fun a => Ha b a eq_refl) w1) as Hq.
    destruct (dispatch env req uo b w1) as [[p|r|e] w']; simpl in *; congruence.
  - unfold handle, bind. rewrite Hauth, Ej. simpl. congruence.
Qed.

(** manage-jobs writes to the [jobs] and [job_applications] tables
    only: after any request, with any answers of the datastore, the
    profiles, the credentials, the sessions, the roles, the businesses
    and the posts are what they were. *)
Lemma manage_jobs_touches_jobs_only (req : Request) (w : World) :
  same_outside_jobs (db w) (db (snd (serve env req w))).
Proof.
  apply (serve_keeps same_outside_jobs); [apply same_outside_jobs_refl|].
  revert w. change (keeps same_outside_jobs (handle env req)). unfold handle.
  apply keeps_bind; [apply same_outside_jobs_trans | |].
  - apply keeps_authenticate; eauto with keeps.
  - intros uo. apply keeps_bind; [apply same_outside_jobs_trans | eauto with keeps |].
    intros b. apply keeps_bind; [apply same_outside_jobs_trans | apply frame_dispatch |].
    intros p. eauto with keeps.
Qed.

Lemma jobs_from_refl (uo : option uuid) (s : Store) : jobs_from uo s s.
Proof. intros j Hj. left. now exists j. Qed.

Lemma jobs_from_trans (uo : option uuid) (s1 s2 s3 : Store) :
  jobs_from uo s1 s2 -> jobs_from uo s2 s3 -> jobs_from uo s1 s3.
Proof.
  intros H12 H23 j3 Hj3.
  destruct (H23 j3 Hj3) as [(j2 & Hj2 & Hi & Hc & Ha) | Hnew]; [|now right].
  destruct (H12 j2 Hj2) as [(j1 & Hj1 & Hi' & Hc' & Ha') | [Hu Hp]].
  - left. exists j1. repeat split; congruence.
  - right. split; congruence.
Qed.

Lemma jobs_from_same_jobs (uo : option uuid) (s s' : Store) :
  jobs s' = jobs s -> jobs_from uo s s'.
Proof. intros E j Hj. left. exists j. rewrite <- E. now repeat split. Qed.

Lemma jobs_from_map (uo : option uuid) (s : Store) (f : Job -> Job) :
  (forall j, j_id (f j) = j_id j /\ j_creator_id (f j) = j_creator_id j /\
             j_approval_status (f j) = j_approval_status j) ->
  jobs_from uo s (set_jobs s (map f (jobs s))).
Proof.
  intros Hf j' Hj'. simpl in Hj'. apply in_map_iff in Hj'.
  destruct Hj' as (j & <- & Hj). left. exists j. split; [exact Hj | apply Hf].
Qed.

Lemma keeps_bind_ret {R A B : Type} (P : Store -> Store -> Prop)
      (a : A) (k : A -> M R B) :
  keeps P (k a) -> keeps P (bind (ret a) k).
Proof. intros H w. exact (H w). Qed.

Lemma jobs_from_dispatch (req : Request) (uo : option uuid) (b : Body) :
  keeps (jobs_from (match uo with
                    | Some u => if truthy u then Some u else None
                    | None => None
                    end))
        (dispatch env req uo b).
Proof.
  pose proof jobs_from_refl as Hr. pose proof jobs_from_trans as Ht.
  unfold dispatch.
  destruct (action b) as [| |a]; [keeps_all..|].
  repeat match goal with
  | |- keeps _ (if ?a =? ?s then _ else _) => destruct (a =? s)
  end;
  unfold list_jobs, my_jobs, get_job, create, update, delete, apply, reply,
    get_all_applications, my_applications, check_business_owner,
    verify_ownership, require_user, require_id, with_count, with_counts,
    application_count, has_applied;
  (destruct uo as [u|]; [destruct (truthy u)|]);
  try apply keeps_bind_ret;
  keeps_all;
  try (apply jobs_from_same_jobs; reflexivity).
  all: try (apply jobs_from_map; intros j;
            match goal with |- context [if ?c then _ else _] => destruct c end;
            repeat split).
  all: try (unfold update_jobs_where_id; destruct (update_refused b); simpl;
            [apply Hr|]; apply jobs_from_map; intros j;
            match goal with |- context [if ?c then _ else _] => destruct c end;
            repeat split).
  all: try (intros j' Hj'; simpl in Hj'; apply filter_In in Hj'; left; exists j';
            now repeat split).
  intros j' Hj'. simpl in Hj'. apply in_app_or in Hj'.
  destruct Hj' as [Hj' | [<- | []]]; [left; now exists j' | right].
  simpl. split; reflexivity.
Qed.

(** X2.  The approval status of a job is out of the reach of
    manage-jobs.  After any request, by anyone, with any answers of the
    datastore, each job of the table is a job that was there, with the
    id, the creator and the approval status it had, or a new job that
    awaits approval and has the user of the session for creator.  No
    request approves a job, and none creates a job in another's
    name. *)
Theorem approval_is_out_of_reach (req : Request) (w : World) :
  jobs_from (session_user env req w) (db w) (db (snd (serve env req w))).
Proof.
  apply (serve_keeps (jobs_from (session_user env req w)));
    [apply jobs_from_refl|].
  destruct (ManageJobsFacts.authenticate_run env req w) as (uo & w1 & Hauth & Hdb1 & _).
  assert (Hwho : session_user env req w =
                 match uo with
                 | Some u => if truthy u then Some u else None
                 | None => None
                 end)
    by (unfold session_user; now rewrite Hauth).
  rewrite Hwho. unfold handle.
  rewrite (bind_value _ _ _ _ _ Hauth).
  destruct (json req) as [b|m]; simpl.
  - unfold bind, ret. pose proof (jobs_from_dispatch req uo b w1) as Hd.
    rewrite Hdb1 in Hd.
    destruct (dispatch env req uo b w1) as [[p|r|e] w']; exact Hd.
  - rewrite Hdb1. apply jobs_from_refl.
Qed.
End ManageJobsFrames.



(** ** The actions of a signed-in user *)

Section Actions.
Variable env : Env.

Lemma serve_signed_in (req : Request) (w : World) (b : Body) (u : uuid) :
  method req <> "OPTIONS" -> json req = Json b -> signed_in env req w u ->
  serve env req w =
    match dispatch env req (Some u) b (next w (db w)) with
    | (Value p, w') => (ok p, w')
    | (Returned r, w') => (r, w')
    | (Threw e, w') => (on_error e, w')
    end.
Proof.
  intros Hm Hj Hs.
  rewrite (ManageJobsFacts.manage_jobs_serve_post env req w Hm),
    (ManageJobsFacts.handle_signed_in env req w b u Hj Hs).
  now destruct (dispatch env req (Some u) b (next w (db w))) as [[p|r|e] w'].
Qed.

Lemma signed_in_truthy (req : Request) (w : World) (u : uuid) :
  signed_in env req w u -> truthy u = true.
Proof. now intros (_ & _ & _ & _ & _ & Hu). Qed.

Lemma pending_is_hidden (uo : option uuid) (j : Job) :
  j_approval_status j = Some "pending" -> uo <> Some (j_creator_id j) ->
  visible uo j = false.
Proof.
  intros Hp Hu. unfold visible, approved_open, is_user. rewrite Hp.
  destruct uo as [u|]; [|reflexivity].
  destruct (String.eqb_spec (j_creator_id j) u) as [E|E].
  - rewrite E in Hu. congruence.
  - now destruct (truthy u).
Qed.

Lemma require_user_some (u : uuid) (w : World) :
  truthy u = true -> require_user (Some u) w = (Value u, w).
Proof. intros H. unfold require_user. now rewrite H. Qed.

Lemma require_id_some (f : field string) (msg : string) (id : uuid) (w : World) :
  str_or_null f = Some id -> require_id f msg w = (Value id, w).
Proof. intros H. unfold require_id. now rewrite H. Qed.

(** X3.  What [create] stores.  For a signed-in user [u], a title and a
    description that are strings and not blank, conditions and a
    location that are strings or nothing, and an insert that the
    datastore accepts: the answer is 200 with the new job, which is
    appended to the table with [u] for creator -- the body has no say
    in it --, the trimmed title and description, the trimmed
    conditions and location ([null] where they are blank), status open
    and approval status ["pending"]; no other row of any table changes.
    Being pending, the job is visible, in [list] and in [get], to no
    requester but [u]. *)
Theorem create_stores_pending_job (req : Request) (w : World) (b : Body) (u : uuid) :
  method req <> "OPTIONS" -> json req = Json b -> action b = Val "create" ->
  signed_in env req w u ->
  text_with_content (title b) -> text_with_content (description b) ->
  text_or_nothing (conditions b) -> text_or_nothing (location b) ->
  fault_at env (S (tick w)) = None ->
  exists j t d,
    title b = Val (Str t) /\ description b = Val (Str d) /\
    fst (serve env req w) =
      ok (JobCreated j "Job created! It will be visible after admin approval.") /\
    db (snd (serve env req w)) = set_jobs (db w) (jobs (db w) ++ [j]) /\
    j_creator_id j = u /\ j_status j = Open /\
    j_approval_status j = Some "pending" /\
    j_title j = trim t /\ j_description j = trim d /\
    j_title j <> [] /\ j_description j <> [] /\
    trimmed_or_null (conditions b) (j_conditions j) /\
    trimmed_or_null (location b) (j_location j) /\
    (forall uo, uo <> Some u -> visible uo j = false).
Proof.
  intros Hm Hj Ha Hs Ht Hd Hc Hl Hf.
  destruct (optional_trim_content (R := Response) "title?.trim" (title b) Ht)
    as (t & Et & Nt & Ett & Ot).
  destruct (optional_trim_content (R := Response) "description?.trim"
              (description b) Hd) as (d & Ed & Nd & Edd & Od).
  destruct (optional_trim_text (R := Response) "conditions?.trim" (conditions b) Hc)
    as (oc & Ec & Hoc).
  destruct (optional_trim_text (R := Response) "location?.trim" (location b) Hl)
    as (ol & El & Hol).
  remember (serve env req w) as res eqn:Hres.
  rewrite (serve_signed_in req w b u Hm Hj Hs) in Hres.
  unfold dispatch in Hres. rewrite Ha in Hres.
  cbn [String.eqb Ascii.eqb Bool.eqb] in Hres.
  unfold create in Hres.
  rewrite (bind_value _ _ _ _ _ (require_user_some u _ (signed_in_truthy req w u Hs)))
    in Hres.
  rewrite Ett in Hres. unfold bind at 1, ret at 1 in Hres. rewrite Ot in Hres.
  rewrite Edd in Hres. unfold bind at 1, ret at 1 in Hres. rewrite Od in Hres.
  rewrite Ec, El in Hres.
  cbv beta iota delta [bind insert call or_throw ret respond throw next] in Hres.
  cbn [tick db] in Hres. rewrite Hf in Hres. cbn [fst snd] in Hres.
  subst res. cbn [fst snd db].
  eexists. exists t, d.
  split; [exact Et|]. split; [exact Ed|].
  split; [reflexivity|]. split; [reflexivity|].
  cbn [new_job j_creator_id j_status j_approval_status j_title j_description
       j_conditions j_location].
  repeat split; try assumption.
  intros uo Huo. apply pending_is_hidden; [reflexivity | exact Huo].
Qed.

Lemma verify_ownership_passes (u id : uuid) (msg : string) (w : World) (j : Job) :
  fault_at env (tick w) = None -> NoDup (map j_id (jobs (db w))) ->
  In j (jobs (db w)) -> j_id j = id -> j_creator_id j = u ->
  verify_ownership env u id msg w = (Value tt, next w (db w)).
Proof.
  intros Hf Hnd Hin Hid Hc. unfold verify_ownership, bind, select, call.
  rewrite Hf.
  rewrite (filter_unique_in j_id (fun x => j_id x =? id) id (jobs (db w)) j);
    [| intros y; apply String.eqb_eq | exact Hnd | exact Hin
     | now apply String.eqb_eq].
  simpl. rewrite Hc, String.eqb_refl. reflexivity.
Qed.

(** X4.  What the owner's [update] can change.  For a signed-in user
    [u] who created job [id] (ids being unique), a body the table
    accepts and a datastore that answers: the answer is 200 and the
    row of job [id] is replaced by a row with the same id, creator,
    approval status and creation time; [updated_at] is the clock
    reading taken by the action; the title and the description take
    the value the body holds for them, and stay when it holds none;
    conditions, location, [max_applications] and [expires_at] stay
    when the body does not mention them and take its value, [null]
    included, when it does; the status takes the value of [status]
    when the body holds one.  Every other job and every other table is
    as it was.  Whatever the body holds, no job changes its id,
    creator, approval status or creation time: an owner cannot approve
    a job by updating it. *)
Theorem update_by_owner (req : Request) (w : World) (b : Body)
        (u id : uuid) (j : Job) :
  method req <> "OPTIONS" -> json req = Json b -> action b = Val "update" ->
  signed_in env req w u -> str_or_null (job_id b) = Some id ->
  responsive env -> NoDup (map j_id (jobs (db w))) ->
  In j (jobs (db w)) -> j_id j = id -> j_creator_id j = u ->
  update_refused b = None ->
  fst (serve env req w) = ok Success /\
  (exists j',
     db (snd (serve env req w)) =
       set_jobs (db w)
         (map (fun x => if j_id x =? id then j' else x) (jobs (db w))) /\
     In j' (jobs (db (snd (serve env req w)))) /\
     j_id j' = id /\ j_creator_id j' = u /\
     j_approval_status j' = j_approval_status j /\
     j_created_at j' = j_created_at j /\
     j_updated_at j' = clock_at env (S (S (tick w))) /\
     (title b = Absent -> j_title j' = j_title j) /\
     (forall v, title b = Val v -> j_title j' = stored v) /\
     (description b = Absent -> j_description j' = j_description j) /\
     (forall v, description b = Val v -> j_description j' = stored v) /\
     overwritten_text (conditions b) (j_conditions j) (j_conditions j') /\
     overwritten_text (location b) (j_location j) (j_location j') /\
     overwritten (max_applications b) (j_max_applications j)
                 (j_max_applications j') /\
     overwritten (expires_at b) (j_expires_at j) (j_expires_at j') /\
     (new_status b = Absent -> j_status j' = j_status j) /\
     (forall s st, new_status b = Val s -> parse_job_status s = Some st ->
                   j_status j' = st)) /\
  (forall x, In x (jobs (db w)) -> j_id x <> id ->
     In x (jobs (db (snd (serve env req w))))) /\
  (forall x', In x' (jobs (db (snd (serve env req w)))) ->
     exists x, In x (jobs (db w)) /\ j_id x' = j_id x /\
               j_creator_id x' = j_creator_id x /\
               j_approval_status x' = j_approval_status x /\
               j_created_at x' = j_created_at x).
Proof.
  intros Hm Hj Ha Hs Hid Hresp Hnd Hin Hjid Hc Hok.
  assert (Hrows : forall f : Job -> Job,
             map (fun x => if j_id x =? id then f x else x) (jobs (db w)) =
             map (fun x => if j_id x =? id then f j else x) (jobs (db w))).
  { intros f. apply map_ext_in. intros x Hx.
    destruct (String.eqb_spec (j_id x) id) as [E|E]; [|reflexivity].
    f_equal. apply (unique_key j_id (jobs (db w)) x j Hnd Hx Hin).
    congruence. }
  remember (serve env req w) as res eqn:Hres.
  rewrite (serve_signed_in req w b u Hm Hj Hs) in Hres.
  unfold dispatch in Hres. rewrite Ha in Hres.
  cbn [String.eqb Ascii.eqb Bool.eqb] in Hres.
  unfold update in Hres.
  rewrite (bind_value _ _ _ _ _ (require_user_some u _ (signed_in_truthy req w u Hs)))
    in Hres.
  rewrite (bind_value _ _ _ _ _ (require_id_some _ _ id _ Hid)) in Hres.
  rewrite (bind_value _ _ _ _ _
             (verify_ownership_passes u id _ (next w (db w)) j
                (Hresp _) Hnd Hin Hjid Hc)) in Hres.
  cbv beta iota delta [bind date_now call or_throw ret respond throw next
                       update_jobs_where_id] in Hres.
  cbn [tick db] in Hres. rewrite Hresp, Hok in Hres. cbn [fst snd db] in Hres.
  rewrite Hrows in Hres.
  subst res. cbn [fst snd db jobs set_jobs].
  split; [reflexivity|]. split; [|split].
  - exists (update_job b (clock_at env (S (S (tick w)))) j).
    split; [reflexivity|].
    split; [apply in_map_iff; exists j; rewrite Hjid, String.eqb_refl; now split|].
    unfold update_job, update_refused, overwritten, overwritten_text in *.
    cbn [j_id j_creator_id j_approval_status j_created_at j_updated_at j_title
         j_description j_conditions j_location j_max_applications j_expires_at
         j_status].
    repeat split; try assumption; try reflexivity;
      try (intros E; rewrite E; reflexivity);
      try (intros v E; rewrite E; reflexivity).
    intros s st E Est. now rewrite E, Est.
  - intros x Hx Hne. apply in_map_iff. exists x.
    apply String.eqb_neq in Hne. rewrite Hne. now split.
  - intros x' Hx'. apply in_map_iff in Hx'. destruct Hx' as (x & <- & Hx).
    exists x. split; [exact Hx|].
    destruct (String.eqb_spec (j_id x) id) as [E|E]; [|now repeat split].
    assert (x = j)
      by (apply (unique_key j_id (jobs (db w)) x j Hnd Hx Hin);
          congruence).
    subst x. now repeat split.
Qed.

(** X5.  What the owner's [delete] removes.  For a signed-in user [u]
    who created job [id] (ids being unique) and a datastore that
    answers: the answer is 200; the job and every application to it are
    gone, every other job and every application to another job is
    still there, and no other table changes. *)
Theorem delete_by_owner (req : Request) (w : World) (b : Body)
        (u id : uuid) (j : Job) :
  method req <> "OPTIONS" -> json req = Json b -> action b = Val "delete" ->
  signed_in env req w u -> str_or_null (job_id b) = Some id ->
  responsive env -> NoDup (map j_id (jobs (db w))) ->
  In j (jobs (db w)) -> j_id j = id -> j_creator_id j = u ->
  fst (serve env req w) = ok Success /\
  (forall x, In x (jobs (db (snd (serve env req w)))) <->
             In x (jobs (db w)) /\ j_id x <> id) /\
  (forall a, In a (job_applications (db (snd (serve env req w)))) <->
             In a (job_applications (db w)) /\ a_job_id a <> id) /\
  same_outside_jobs (db w) (db (snd (serve env req w))).
Proof.
  intros Hm Hj Ha Hs Hid Hresp Hnd Hin Hjid Hc.
  rewrite (serve_signed_in req w b u Hm Hj Hs).
  unfold dispatch. rewrite Ha. cbn [String.eqb Ascii.eqb Bool.eqb].
  unfold delete.
  rewrite (bind_value _ _ _ _ _ (require_user_some u _ (signed_in_truthy req w u Hs))).
  rewrite (bind_value _ _ _ _ _ (require_id_some _ _ id _ Hid)).
  rewrite (bind_value _ _ _ _ _
             (verify_ownership_passes u id _ (next w (db w)) j
                (Hresp _) Hnd Hin Hjid Hc)).
  cbv beta iota delta [bind write call or_throw ret respond throw next].
  cbn [tick db]. rewrite !Hresp. cbn [fst snd db tick].
  cbn [fst snd db jobs job_applications set_jobs set_job_applications].
  split; [reflexivity|]. split; [|split].
  - intros x. rewrite filter_In, negb_true_iff, String.eqb_neq. tauto.
  - intros a. rewrite filter_In, negb_true_iff, String.eqb_neq. tauto.
  - repeat split.
Qed.

(** A non-owner deleting a job gets 403.  For a signed-in user [u]
    and a request that names job [id]: if no job with this id has [u]
    for creator, [delete] answers 403 and removes nothing, neither job
    nor application, whether or not the datastore answers the lookup. *)
Lemma delete_by_non_owner_is_403 (req : Request) (w : World) (b : Body)
        (u id : uuid) :
  method req <> "OPTIONS" -> json req = Json b -> action b = Val "delete" ->
  signed_in env req w u -> str_or_null (job_id b) = Some id ->
  (forall j, In j (jobs (db w)) -> j_id j = id -> j_creator_id j <> u) ->
  fst (serve env req w) = error_response 403 "Not authorized to delete this job" /\
  db (snd (serve env req w)) = db w.
Proof.
  intros Hm Hj Ha Hs Hid Hno.
  rewrite (serve_signed_in req w b u Hm Hj Hs).
  unfold dispatch. rewrite Ha. cbn [String.eqb Ascii.eqb Bool.eqb].
  unfold delete.
  rewrite (bind_value _ _ _ _ _ (require_user_some u _ (signed_in_truthy req w u Hs))).
  rewrite (bind_value _ _ _ _ _ (require_id_some _ _ id _ Hid)).
  rewrite (bind_returned _ _ _ _ _
             (ManageJobsFacts.verify_ownership_refuses env u id _
                (next w (db w)) Hno)).
  split; reflexivity.
Qed.
(** X6.  Only the creator of the job may reply to an application.  For
    a signed-in user [u] and a request that names application [id]: if
    no application with this id belongs to a job created by [u], the
    answer is 404 or 403 and nothing is written, whatever the datastore
    answers; it is 404 when no application carries the id at all. *)
Theorem reply_by_non_creator_is_refused (req : Request) (w : World) (b : Body)
        (u id : uuid) :
  method req <> "OPTIONS" -> json req = Json b -> action b = Val "reply" ->
  signed_in env req w u -> str_or_null (application_id b) = Some id ->
  (forall a, In a (job_applications (db w)) -> a_id a = id ->
     option_map j_creator_id (job_of (db w) (a_job_id a)) <> Some u) ->
  (fst (serve env req w) = error_response 404 "Application not found" \/
   fst (serve env req w) =
     error_response 403 "Not authorized to reply to this application") /\
  db (snd (serve env req w)) = db w /\
  ((forall a, In a (job_applications (db w)) -> a_id a <> id) ->
   fst (serve env req w) = error_response 404 "Application not found").
Proof.
  intros Hm Hj Ha Hs Hid Hno.
  rewrite (serve_signed_in req w b u Hm Hj Hs).
  unfold dispatch. rewrite Ha. cbn [String.eqb Ascii.eqb Bool.eqb].
  unfold reply.
  rewrite (bind_value _ _ _ _ _ (require_user_some u _ (signed_in_truthy req w u Hs))).
  rewrite (bind_value _ _ _ _ _ (require_id_some _ _ id _ Hid)).
  cbv beta iota delta [bind select call respond next]. cbn [tick db].
  destruct (fault_at env (S (tick w))) as [m|].
  - cbn [data_of fst snd db]. split; [now left | split; [reflexivity|]].
    reflexivity.
  - destruct (single _) as [[a c]|m] eqn:E; cbn [data_of fst snd db].
    + apply single_map_data in E. destruct E as (x & Hf & Hx).
      injection Hx as -> ->.
      assert (Hin : In x (filter (fun a => a_id a =? id) (job_applications (db w))))
        by (rewrite Hf; now left).
      apply filter_In in Hin. destruct Hin as [Hin Hxid].
      apply String.eqb_eq in Hxid. specialize (Hno x Hin Hxid).
      assert (Hneg : negb match option_map j_creator_id (job_of (db w) (a_job_id x)) with
                          | Some c => c =? u
                          | None => false
                          end = true).
      { destruct (option_map j_creator_id (job_of (db w) (a_job_id x))) as [c|];
          [|reflexivity].
        destruct (String.eqb_spec c u) as [->|]; [congruence | reflexivity]. }
      rewrite Hneg. cbn [fst snd db]. split; [now right | split; [reflexivity|]].
      intros Hnone. exfalso. exact (Hnone x Hin Hxid).
    + split; [now left | split; reflexivity].
Qed.

Lemma replyMessage_fixed (rt : field string) : In (replyMessage rt) reply_texts.
Proof.
  unfold replyMessage, replyMessages, reply_texts.
  destruct rt as [| |k]; [simpl; auto..|].
  destruct (k =? "contact_soon"); [simpl; auto|].
  destruct (k =? "shortlisted"); [simpl; auto|].
  destruct (k =? "not_selected"); simpl; auto.
Qed.

(** X7.  What a reply stores.  For a signed-in user [u], an application
    [a] (ids being unique) to a job that [u] created, a datastore that
    answers and a [reply_type] that is no property name of
    [Object.prototype]: the answer is 200; the row of the application
    gets as [creator_reply] one of the three fixed texts -- the one
    that the type names, and the first of them when the type is
    missing or names none -- and as [replied_at] the clock reading
    taken by the action; its other columns and all other applications
    are as they were.  The body cannot supply a text of its own. *)
Theorem reply_by_creator (req : Request) (w : World) (b : Body)
        (u id : uuid) (a : Application) :
  method req <> "OPTIONS" -> json req = Json b -> action b = Val "reply" ->
  signed_in env req w u -> str_or_null (application_id b) = Some id ->
  responsive env -> NoDup (map a_id (job_applications (db w))) ->
  In a (job_applications (db w)) -> a_id a = id ->
  option_map j_creator_id (job_of (db w) (a_job_id a)) = Some u ->
  (forall k, reply_type b = Val k -> ~ In k object_prototype_keys) ->
  exists msg,
    fst (serve env req w) = ok (SuccessMessage "Reply sent!") /\
    In msg reply_texts /\
    (reply_type b = Val "shortlisted" ->
     msg = "Congratulations! You have been shortlisted. We will contact you for further details.") /\
    (reply_type b = Val "not_selected" ->
     msg = "Thank you for applying. Unfortunately, we have decided to move forward with other candidates.") /\
    ((forall k, reply_type b = Val k ->
        k <> "shortlisted" /\ k <> "not_selected") ->
     msg = "We will contact you soon. Thank you for your interest!") /\
    db (snd (serve env req w)) =
      set_job_applications (db w)
        (map (fun x =>
                if a_id x =? id
                then {| a_id := a_id a; a_job_id := a_job_id a;
                        a_applicant_id := a_applicant_id a;
                        a_message := a_message a;
                        a_education_qualification := a_education_qualification a;
                        a_experience_details := a_experience_details a;
                        a_creator_reply := Some msg;
                        a_replied_at := Some (clock_at env (S (S (tick w))));
                        a_created_at := a_created_at a |}
                else x)
             (job_applications (db w))) /\
    In {| a_id := a_id a; a_job_id := a_job_id a;
          a_applicant_id := a_applicant_id a;
          a_message := a_message a;
          a_education_qualification := a_education_qualification a;
          a_experience_details := a_experience_details a;
          a_creator_reply := Some msg;
          a_replied_at := Some (clock_at env (S (S (tick w))));
          a_created_at := a_created_at a |}
       (job_applications (db (snd (serve env req w)))) /\
    (forall x, In x (job_applications (db w)) -> a_id x <> id ->
       In x (job_applications (db (snd (serve env req w))))).
Proof.
  intros Hm Hj Ha Hs Hid Hresp Hnd Hin Haid Hc _.
  assert (Hrows : forall f : Application -> Application,
             map (fun x => if a_id x =? id then f x else x)
                 (job_applications (db w)) =
             map (fun x => if a_id x =? id then f a else x)
                 (job_applications (db w))).
  { intros f. apply map_ext_in. intros x Hx.
    destruct (String.eqb_spec (a_id x) id) as [E|E]; [|reflexivity].
    f_equal. apply (unique_key a_id (job_applications (db w)) x a Hnd Hx Hin).
    congruence. }
  remember (serve env req w) as res eqn:Hres.
  rewrite (serve_signed_in req w b u Hm Hj Hs) in Hres.
  unfold dispatch in Hres. rewrite Ha in Hres.
  cbn [String.eqb Ascii.eqb Bool.eqb] in Hres.
  unfold reply in Hres.
  rewrite (bind_value _ _ _ _ _ (require_user_some u _ (signed_in_truthy req w u Hs)))
    in Hres.
  rewrite (bind_value _ _ _ _ _ (require_id_some _ _ id _ Hid)) in Hres.
  cbv beta iota delta [bind select write date_now call or_throw ret respond next]
    in Hres.
  cbn [tick db] in Hres. rewrite Hresp in Hres.
  rewrite (filter_unique_in a_id (fun x => a_id x =? id) id
             (job_applications (db w)) a) in Hres;
    [| intros y; apply String.eqb_eq | exact Hnd | exact Hin
     | now apply String.eqb_eq].
  cbn [map single data_of fst snd] in Hres. rewrite Hc, String.eqb_refl in Hres.
  cbn [negb tick db] in Hres. rewrite Hresp in Hres.
  cbn [fst snd db job_applications set_job_applications] in Hres.
  rewrite Hrows in Hres. unfold reply_to in Hres.
  subst res. cbn [fst snd db job_applications set_job_applications].
  exists (replyMessage (reply_type b)).
  split; [reflexivity|]. split; [apply replyMessage_fixed|].
  split; [intros E; now rewrite E|]. split; [intros E; now rewrite E|].
  split; [|split; [reflexivity | split]].
  - intros Hk. unfold replyMessage, replyMessages.
    destruct (reply_type b) as [| |k]; try reflexivity.
    destruct (k =? "contact_soon"); [reflexivity|].
    destruct (Hk k eq_refl) as [H1 H2].
    apply String.eqb_neq in H1, H2. now rewrite H1, H2.
  - apply in_map_iff. exists a. rewrite Haid, String.eqb_refl. now split.
  - intros x Hx Hne. apply in_map_iff. exists x.
    apply String.eqb_neq in Hne. rewrite Hne. now split.
Qed.

Lemma is_user_as_session_user (req : Request) (w : World) (uo : option uuid)
      (w1 : World) (c : uuid) :
  authenticate env req w = (Value uo, w1) ->
  is_user uo c = is_user (session_user env req w) c.
Proof.
  intros Hauth. unfold session_user. rewrite Hauth. simpl.
  destruct uo as [u|]; [|reflexivity]. simpl.
  destruct (truthy u) eqn:E; simpl; [now rewrite E | reflexivity].
Qed.

Lemma is_user_true (uo : option uuid) (c : uuid) :
  is_user uo c = true -> exists u, uo = Some u /\ truthy u = true /\ c = u.
Proof.
  unfold is_user. destruct uo as [u|]; [|discriminate].
  rewrite andb_true_iff, String.eqb_eq. intros [Ht Hc]. now exists u.
Qed.

(** What [get] comes to, with the requester the handler made out for
    itself. *)
Lemma get_job_by_session_user
        (req : Request) (w : World) (b : Body) (id : uuid) (j : Job) :
  method req <> "OPTIONS" -> json req = Json b -> action b = Val "get" ->
  str_or_null (job_id b) = Some id -> responsive env ->
  NoDup (map j_id (jobs (db w))) ->
  NoDup (map (fun a => (a_job_id a, a_applicant_id a)) (job_applications (db w))) ->
  In j (jobs (db w)) -> j_id j = id ->
  visible (session_user env req w) j = true ->
  exists v apps,
    fst (serve env req w) = ok (JobDetail v apps) /\
    jr_job (jv_row v) = j /\
    jv_application_count v =
      Z.of_nat (List.length (applications_of_job (db w) id)) /\
    (jv_has_applied v = Some true <->
     exists u a, session_user env req w = Some u /\
                 In a (job_applications (db w)) /\
                 a_job_id a = id /\ a_applicant_id a = u) /\
    (session_user env req w <> Some (j_creator_id j) -> apps = []) /\
    (session_user env req w = Some (j_creator_id j) ->
     Permutation apps
       (map (application_view (db w)) (applications_of_job (db w) id))) /\
    db (snd (serve env req w)) = db w.
Proof.
  intros Hm Hj Ha Hid Hresp Hnd Happs Hin Hjid Hvis.
  destruct (ManageJobsFacts.authenticate_run env req w) as (uo & w1 & Hauth & Hdb1 & _).
  rewrite (ManageJobsFacts.manage_jobs_serve_post env req w Hm),
    (ManageJobsFacts.handle_run env req w b uo w1 Hj Hauth),
    (ManageJobsFacts.dispatch_get env req uo b Ha).
  assert (Hu : forall c, is_user uo c = is_user (session_user env req w) c)
    by (intros c; now apply (is_user_as_session_user req w uo w1)).
  assert (Hvis' : visible uo j = true)
    by (unfold visible in *; now rewrite Hu).
  unfold get_job.
  rewrite (bind_value _ _ _ _ _ (require_id_some _ _ id _ Hid)).
  cbv beta iota delta [bind select call or_throw ret respond throw next
                       application_count].
  cbn [tick db]. rewrite Hresp, Hdb1.
  rewrite (filter_unique_in j_id (fun x => j_id x =? id) id (jobs (db w)) j);
    [| intros y; apply String.eqb_eq | exact Hnd | exact Hin
     | now apply String.eqb_eq].
  cbn [map single fst snd job_row jr_job]. rewrite Hvis'. cbn [negb tick db].
  rewrite Hresp. cbn [fst snd tick db].
  set (n := Z.of_nat (List.length (applications_of_job (db w) id))).
  assert (Hha : exists h w2,
             has_applied env uo id
               {| db := db w; tick := S (S (tick w1)) |} = (Value h, w2) /\
             db w2 = db w /\
             (h = true <->
              exists u a, session_user env req w = Some u /\
                          In a (job_applications (db w)) /\
                          a_job_id a = id /\ a_applicant_id a = u)).
  { unfold has_applied, session_user. rewrite Hauth. cbn [fst].
    destruct uo as [u|]; [destruct (truthy u) eqn:Et|].
    - cbv beta iota delta [bind select call ret next]. cbn [tick db].
      rewrite Hresp. cbn [fst snd].
      destruct (ManageJobsFacts.applications_by_unique (db w) id u Happs) as [E | (a & E & Hain & Hj1 & Hu1)];
        rewrite E; cbn [maybeSingle]; do 2 eexists;
        (split; [reflexivity | split; [reflexivity|]]).
      + split; [discriminate|]. intros (u' & a & Heq & Hain & Hj1 & Hu1).
        injection Heq as <-. unfold applications_by in E.
        apply filter_nil_iff with (x := a) in E; [|exact Hain].
        rewrite Hj1, Hu1, !String.eqb_refl in E. discriminate.
      + split; [intros _ | reflexivity]. now exists u, a.
    - do 2 eexists. split; [reflexivity | split; [reflexivity|]].
      split; [discriminate | intros (u' & a & Heq & _); discriminate].
    - do 2 eexists. split; [reflexivity | split; [reflexivity|]].
      split; [discriminate | intros (u' & a & Heq & _); discriminate]. }
  destruct Hha as (h & w2 & -> & Hdb2 & Hh).
  destruct (is_user uo (j_creator_id j)) eqn:Eown.
  - cbv beta iota delta [bind select call ret next]. cbn [tick db].
    rewrite Hresp, Hdb2. cbn [fst snd rows_of db].
    do 2 eexists. split; [reflexivity|]. cbn [jv_row jr_job jv_application_count
                                              jv_has_applied].
    split; [reflexivity | split; [reflexivity | split; [|split; [|split]]]].
    + split; [intros [= ->]; now apply Hh | intros Hex; f_equal; now apply Hh].
    + intros Hne. exfalso. apply Hne.
      now apply (ManageJobsFacts.is_user_session env req w uo w1 _ Hauth).
    + intros _. apply order_desc_perm.
    + reflexivity.
  - cbn [fst snd]. do 2 eexists. split; [reflexivity|].
    cbn [jv_row jr_job jv_application_count jv_has_applied].
    split; [reflexivity | split; [reflexivity | split; [|split; [|split]]]].
    + split; [intros [= ->]; now apply Hh | intros Hex; f_equal; now apply Hh].
    + reflexivity.
    + intros Heq.
      apply (ManageJobsFacts.is_user_session env req w uo w1 _ Hauth) in Heq.
      congruence.
    + exact Hdb2.
Qed.

(** X8.  What [get] shows, and to whom.  Let the request be sent by
    [uo]: a signed-in user, or nobody.  For a job [j] (job ids and
    profile ids being unique, and at most one application per applicant
    and job) of which [uo] is the creator, or which is approved and
    open, and a datastore that answers: the answer is 200 with the job,
    the number of its applications and whether the requester is among
    the applicants.  The applications themselves are given to the
    creator of the job -- all of them, each with the id, full name,
    username, avatar, mobile number and email of the applicant's
    profile -- and to nobody else: any other requester gets an empty
    list.  Nothing is written. *)
Theorem get_shows_applications_to_creator_only
        (req : Request) (w : World) (b : Body) (id : uuid) (j : Job)
        (uo : option uuid) :
  method req <> "OPTIONS" -> json req = Json b -> action b = Val "get" ->
  str_or_null (job_id b) = Some id -> responsive env ->
  NoDup (map j_id (jobs (db w))) ->
  NoDup (map p_id (profiles (db w))) ->
  NoDup (map (fun a => (a_job_id a, a_applicant_id a)) (job_applications (db w))) ->
  In j (jobs (db w)) -> j_id j = id ->
  sent_by env req w uo ->
  uo = Some (j_creator_id j) \/
  (j_approval_status j = Some "approved" /\ j_status j = Open) ->
  exists v apps,
    fst (serve env req w) = ok (JobDetail v apps) /\
    jr_job (jv_row v) = j /\
    jv_application_count v =
      Z.of_nat (List.length (filter (fun a => a_job_id a =? id)
                                    (job_applications (db w)))) /\
    (jv_has_applied v = Some true <->
     exists u a, uo = Some u /\
                 In a (job_applications (db w)) /\
                 a_job_id a = id /\ a_applicant_id a = u) /\
    (uo <> Some (j_creator_id j) -> apps = []) /\
    (uo = Some (j_creator_id j) ->
     Permutation (map av_application apps)
       (filter (fun a => a_job_id a =? id) (job_applications (db w))) /\
     (forall x, In x apps ->
        (forall p, In p (profiles (db w)) ->
           p_id p = a_applicant_id (av_application x) ->
           av_profiles x =
             Some {| ac_id := p_id p; ac_full_name := p_full_name p;
                     ac_username := p_username p;
                     ac_avatar_url := p_avatar_url p;
                     ac_mobile_number := p_mobile_number p;
                     ac_email := p_email p |}) /\
        ((forall p, In p (profiles (db w)) ->
            p_id p <> a_applicant_id (av_application x)) ->
         av_profiles x = None))) /\
    db (snd (serve env req w)) = db w.
Proof.
  intros Hm Hj Ha Hid Hresp Hnd Hpid Happs Hin Hjid Hs Hmay.
  pose proof (ManageJobsFacts.sent_by_session_user env req w uo Hs) as Hwho.
  assert (Hvis : visible (session_user env req w) j = true).
  { rewrite Hwho. unfold visible. apply orb_true_iff.
    destruct Hmay as [-> | Hao].
    - left. unfold is_user. rewrite String.eqb_refl.
      now rewrite (signed_in_truthy req w (j_creator_id j) Hs).
    - right. apply ManageJobsFacts.approved_open_spec. tauto. }
  destruct (get_job_by_session_user req w b id j Hm Hj Ha Hid Hresp Hnd Happs
              Hin Hjid Hvis)
    as (v & apps & Hr & Hrow & Hn & Hh & Hnone & Hall & Hdb).
  rewrite Hwho in Hh, Hnone, Hall.
  exists v, apps.
  split; [exact Hr|]. split; [exact Hrow|]. split; [exact Hn|].
  split; [exact Hh|]. split; [exact Hnone|]. split; [|exact Hdb].
  intros Hown. specialize (Hall Hown). unfold applications_of_job in Hall.
  split.
  - eapply perm_trans; [apply Permutation_map, Hall|].
    rewrite map_map. simpl. rewrite map_id. apply Permutation_refl.
  - intros x Hx. apply (Permutation_in _ Hall), in_map_iff in Hx.
    destruct Hx as (a & <- & _). simpl. split.
    + intros p Hp Hpa.
      now rewrite (profile_of_unique (db w) (a_applicant_id a) p Hpid Hp Hpa).
    + intros Hno. now rewrite (profile_of_none (db w) (a_applicant_id a) Hno).
Qed.

Lemma mapM_with_count (rows : list JobRow) (w : World) :
  responsive env ->
  exists vs w',
    mapM (with_count env) rows w = (Value vs, w') /\ db w' = db w /\
    vs = map (fun row =>
                {| jv_row := row;
                   jv_application_count :=
                     Z.of_nat (List.length
                                 (applications_of_job (db w) (j_id (jr_job row))));
                   jv_has_applied := None |}) rows.
Proof.
  intros Hresp. revert w. induction rows as [|row rows IH]; intros w; simpl.
  - exists [], w. repeat split.
  - assert (Hrow : with_count env row w =
             (Value {| jv_row := row;
                       jv_application_count :=
                         Z.of_nat (List.length
                            (applications_of_job (db w) (j_id (jr_job row))));
                       jv_has_applied := None |}, next w (db w))).
    { cbv beta iota delta [bind with_count application_count select call ret].
      now rewrite Hresp. }
    rewrite (bind_value _ _ _ _ _ Hrow).
    destruct (IH (next w (db w))) as (vs & w' & E & Hdb & Hvs).
    rewrite (bind_value _ _ _ _ _ E).
    do 2 eexists. split; [reflexivity | split; [exact Hdb|]].
    rewrite Hvs. reflexivity.
Qed.

(** [my_jobs] lists the requester's own jobs, all of them.  For a
    signed-in user [u] and a datastore that answers: the answer is 200
    with exactly the jobs that [u] created, whatever their status and
    approval status, from the latest to the earliest, each with the
    number of its applications; nothing is written. *)
Lemma my_jobs_lists_own_jobs (req : Request) (w : World) (b : Body) (u : uuid) :
  method req <> "OPTIONS" -> json req = Json b -> action b = Val "my_jobs" ->
  signed_in env req w u -> responsive env ->
  exists vs,
    fst (serve env req w) = ok (JobList vs) /\
    (forall j, listed vs j <-> In j (jobs (db w)) /\ j_creator_id j = u) /\
    newest_first (map (fun v => j_created_at (jr_job (jv_row v))) vs) /\
    (forall v, In v vs ->
       jv_application_count v =
         Z.of_nat (List.length
                     (applications_of_job (db w) (j_id (jr_job (jv_row v)))))) /\
    db (snd (serve env req w)) = db w.
Proof.
  intros Hm Hj Ha Hs Hresp.
  rewrite (serve_signed_in req w b u Hm Hj Hs).
  unfold dispatch. rewrite Ha. cbn [String.eqb Ascii.eqb Bool.eqb].
  unfold my_jobs.
  rewrite (bind_value _ _ _ _ _ (require_user_some u _ (signed_in_truthy req w u Hs))).
  cbv beta iota delta [bind select call or_throw ret next]. cbn [tick db].
  rewrite Hresp. cbn [fst snd].
  match goal with
  | |- context [mapM _ ?rows ?w0] =>
      destruct (mapM_with_count rows w0 Hresp) as (vs & w' & E & Hdb & Hvs);
      set (sorted := rows) in *
  end.
  cbv beta iota delta [bind] in E. rewrite E. cbn [fst snd].
  exists vs. split; [reflexivity|]. cbn [db] in Hdb, Hvs.
  assert (Hrows : map jv_row vs = sorted)
    by (rewrite Hvs, map_map; simpl; apply map_id).
  split; [|split; [|split; [|exact Hdb]]].
  - intros j. unfold listed. split.
    + intros (v & Hv & <-).
      assert (Hin : In (jv_row v) sorted) by (rewrite <- Hrows; now apply in_map).
      apply order_desc_in, in_map_iff in Hin. destruct Hin as (x & <- & Hx).
      apply filter_In in Hx. destruct Hx as [Hx Hc]. apply String.eqb_eq in Hc.
      now split.
    + intros [Hin Hc].
      assert (Hrow : In (job_row (db w) j) (map jv_row vs)).
      { rewrite Hrows. apply order_desc_in, in_map. apply filter_In.
        split; [exact Hin | now apply String.eqb_eq]. }
      apply in_map_iff in Hrow. destruct Hrow as (v & Hv & Hin').
      exists v. split; [exact Hin' | now rewrite Hv].
  - replace (map (fun v => j_created_at (jr_job (jv_row v))) vs)
      with (map (fun r => j_created_at (jr_job r)) (map jv_row vs))
      by (now rewrite map_map).
    rewrite Hrows. apply order_desc_sorted.
  - intros v Hv. rewrite Hvs in Hv. apply in_map_iff in Hv.
    destruct Hv as (row & <- & _). reflexivity.
Qed.

(** [check_business_owner] counts approved businesses only.  For
    a signed-in user [u] and a datastore that answers: the answer is
    200 with [is_business_owner] true exactly when [u] owns a business
    whose approval status is ["approved"]; a business that is pending
    or rejected does not count. *)
Lemma business_owner_means_approved_business
        (req : Request) (w : World) (b : Body) (u : uuid) :
  method req <> "OPTIONS" -> json req = Json b ->
  action b = Val "check_business_owner" ->
  signed_in env req w u -> responsive env ->
  exists t,
    fst (serve env req w) = ok (BusinessOwner t) /\
    (t = true <->
     exists x, In x (businesses (db w)) /\ b_owner_id x = u /\
               b_approval_status x = Some "approved") /\
    db (snd (serve env req w)) = db w.
Proof.
  intros Hm Hj Ha Hs Hresp.
  rewrite (serve_signed_in req w b u Hm Hj Hs).
  unfold dispatch. rewrite Ha. cbn [String.eqb Ascii.eqb Bool.eqb].
  unfold check_business_owner.
  rewrite (bind_value _ _ _ _ _ (require_user_some u _ (signed_in_truthy req w u Hs))).
  cbv beta iota delta [bind select call or_throw ret next]. cbn [tick db].
  rewrite Hresp. cbn [fst snd db].
  eexists. split; [reflexivity | split; [|reflexivity]].
  set (p := fun x => (b_owner_id x =? u) &&
                     match b_approval_status x with
                     | Some a => a =? "approved"
                     | None => false
                     end).
  assert (Hp : forall x, p x = true <->
                 b_owner_id x = u /\ b_approval_status x = Some "approved").
  { intros x. unfold p. rewrite andb_true_iff, String.eqb_eq.
    destruct (b_approval_status x) as [a|].
    - rewrite String.eqb_eq. split; intros [H1 H2]; split; congruence.
    - split; intros [H1 H2]; discriminate. }
  destruct (filter p (businesses (db w))) as [|x r] eqn:E; simpl.
  - split; [discriminate|]. intros (x & Hx & Ho & Hap).
    apply filter_nil_iff with (x := x) in E; [|exact Hx].
    assert (p x = true) by now apply Hp. congruence.
  - split; [intros _ | reflexivity].
    assert (Hx : In x (filter p (businesses (db w)))) by (rewrite E; now left).
    apply filter_In in Hx. destruct Hx as [Hx Hpx]. apply Hp in Hpx.
    exists x. tauto.
Qed.
End Actions.





End JobActionsFacts.

(** ** The properties at work on the sample board *)

Module JobActionsExamples.
Import ManageJobs ManageJobsSpec Samples MoreSamples.

Lemma u_signed_in (t u : string) (b : parsed Body) (w : World) :
  lookup_session (db w) (1000 + Z.of_nat (tick w)) t = Some u ->
  truthy t = true -> truthy u = true ->
  signed_in sample_env (post (Some t) b) w u.
Proof. intros H Ht Hu. exists t. repeat split; assumption. Defined.

Lemma board_application_ids : NoDup (map a_id (job_applications board)).
Proof. repeat constructor. simpl. tauto. Defined.

Lemma board_applications_once :
  NoDup (map (fun a => (a_job_id a, a_applicant_id a)) (job_applications board)).
Proof. repeat constructor. simpl. tauto. Defined.

Lemma only_writing_actions_write_witness :
  db (snd (serve sample_env my_jobs_as_u1 world0)) = db world0.
Proof.
  apply (JobActionsFacts.only_writing_actions_write sample_env).
  intros b a Hb Hact. injection Hb as <-. injection Hact as <-.
  simpl. intuition discriminate.
Defined.

(** [u1] creates a job: it is stored for [u1], trimmed and pending. *)
Lemma create_stores_pending_job_witness :
  exists j,
    fst (serve sample_env create_as_u1 world0) =
      ok (JobCreated j "Job created! It will be visible after admin approval.") /\
    j_creator_id j = "u1" /\ j_title j = text_of_string "Cutter" /\
    j_approval_status j = Some "pending" /\ visible (Some "u2") j = false.
Proof.
  destruct (JobActionsFacts.create_stores_pending_job sample_env create_as_u1
              world0 create_body "u1")
    as (j & t & d & Et & _ & Hr & _ & Hc & _ & Hp & Ht & _ & _ & _ & _ & _ & Hv);
    [discriminate | reflexivity | reflexivity
    | apply u_signed_in; reflexivity
    | eexists; split; reflexivity | eexists; split; reflexivity
    | exact I | exact I | reflexivity |].
  exists j. injection Et as <-.
  repeat split; try assumption.
  apply Hv. discriminate.
Defined.

(** [u1] renames the pending job [j2]: it takes the title and stays
    pending. *)
Lemma update_by_owner_witness :
  fst (serve sample_env update_j2_as_u1 world0) = ok Success /\
  exists j', In j' (jobs (db (snd (serve sample_env update_j2_as_u1 world0)))) /\
             j_id j' = "j2" /\ j_title j' = text_of_string "Cutter" /\
             j_approval_status j' = Some "pending".
Proof.
  destruct (JobActionsFacts.update_by_owner sample_env update_j2_as_u1 world0
              update_j2_body "u1" "j2" (job "j2" "u1" Open "pending" None None 20))
    as (Hr & (j' & _ & Hin & Hid & _ & Hap & _ & _ & _ & Ht & _) & _ & _);
    [discriminate | reflexivity | reflexivity | apply u_signed_in; reflexivity
    | reflexivity | exact ManageJobsFacts.responsive_sample_env
    | exact ManageJobsFacts.board_job_ids | simpl; tauto | reflexivity
    | reflexivity | reflexivity |].
  split; [exact Hr|]. exists j'.
  split; [exact Hin | split; [exact Hid | split; [|exact Hap]]].
  apply (Ht (Str (text_of_string "Cutter"))). reflexivity.
Defined.

(** [u1] deletes [j1]. *)
Lemma delete_by_owner_witness :
  fst (serve sample_env (delete_as_u1 "j1") world0) = ok Success /\
  forall x, In x (jobs (db (snd (serve sample_env (delete_as_u1 "j1") world0)))) <->
            In x (jobs board) /\ j_id x <> "j1".
Proof.
  destruct (JobActionsFacts.delete_by_owner sample_env (delete_as_u1 "j1") world0
              (delete_body "j1") "u1" "j1" (job "j1" "u1" Open "approved" (Some 500) None 10))
    as (Hr & Hj & _);
    [discriminate | reflexivity | reflexivity | apply u_signed_in; reflexivity
    | reflexivity | exact ManageJobsFacts.responsive_sample_env
    | exact ManageJobsFacts.board_job_ids | simpl; tauto | reflexivity
    | reflexivity |].
  split; [exact Hr | exact Hj].
Defined.

(** [u1] may not delete [j3], a job of [u2]. *)
Lemma delete_by_non_owner_witness :
  fst (serve sample_env (delete_as_u1 "j3") world0) =
    error_response 403 "Not authorized to delete this job" /\
  db (snd (serve sample_env (delete_as_u1 "j3") world0)) = board.
Proof.
  apply (JobActionsFacts.delete_by_non_owner_is_403 sample_env (delete_as_u1 "j3")
           world0 (delete_body "j3") "u1" "j3");
    [discriminate | reflexivity | reflexivity | apply u_signed_in; reflexivity
    | reflexivity |].
  intros j [<- | [<- | [<- | []]]]; simpl; discriminate.
Defined.

(** [u1] may not reply to [a1], an application to a job of [u2]. *)
Lemma reply_by_non_creator_witness :
  db (snd (serve sample_env (reply_as "t-u1" Absent) world0)) = board.
Proof.
  apply (JobActionsFacts.reply_by_non_creator_is_refused sample_env
           (reply_as "t-u1" Absent) world0 (reply_body Absent) "u1" "a1");
    [discriminate | reflexivity | reflexivity | apply u_signed_in; reflexivity
    | reflexivity |].
  intros a [<- | []] _. simpl. discriminate.
Defined.

(** [u2] shortlists the applicant of [a1]. *)
Lemma reply_by_creator_witness :
  fst (serve sample_env (reply_as "t-u2" (Val "shortlisted")) world0) =
    ok (SuccessMessage "Reply sent!") /\
  In {| a_id := "a1"; a_job_id := "j3"; a_applicant_id := "u3";
        a_message := None; a_education_qualification := None;
        a_experience_details := None;
        a_creator_reply :=
          Some "Congratulations! You have been shortlisted. We will contact you for further details.";
        a_replied_at := Some (clock_at sample_env 2); a_created_at := 40 |}
     (job_applications
        (db (snd (serve sample_env (reply_as "t-u2" (Val "shortlisted")) world0)))).
Proof.
  destruct (JobActionsFacts.reply_by_creator sample_env
              (reply_as "t-u2" (Val "shortlisted")) world0
              (reply_body (Val "shortlisted")) "u2" "a1"
              {| a_id := "a1"; a_job_id := "j3"; a_applicant_id := "u3";
                 a_message := None; a_education_qualification := None;
                 a_experience_details := None; a_creator_reply := None;
                 a_replied_at := None; a_created_at := 40 |})
    as (msg & Hr & _ & Hs & _ & _ & _ & Hin & _);
    [discriminate | reflexivity | reflexivity | apply u_signed_in; reflexivity
    | reflexivity | exact ManageJobsFacts.responsive_sample_env
    | exact board_application_ids | simpl; tauto | reflexivity | reflexivity
    | intros k Hk; injection Hk as <-; simpl; intuition discriminate |].
  split; [exact Hr|]. rewrite <- (Hs eq_refl). exact Hin.
Defined.

(** [u2], who created [j3], looks at it and is shown its one
    application, with the mobile number of the applicant. *)
Lemma get_shows_applications_witness :
  exists v apps,
    fst (serve sample_env (post (Some "t-u2") (Json (get_body "j3"))) world0) =
      ok (JobDetail v apps) /\
    jv_application_count v = 1%Z /\
    exists x, apps = [x] /\ a_id (av_application x) = "a1" /\
              av_profiles x =
                Some {| ac_id := "u3"; ac_full_name := Some "cini";
                        ac_username := Some "cini"; ac_avatar_url := None;
                        ac_mobile_number := Some "9000000003";
                        ac_email := None |}.
Proof.
  destruct (JobActionsFacts.get_shows_applications_to_creator_only sample_env
              (post (Some "t-u2") (Json (get_body "j3"))) world0 (get_body "j3")
              "j3" (job "j3" "u2" Open "approved" None (Some 1) 30) (Some "u2"))
    as (v & apps & Hr & _ & Hn & _ & _ & Hown & _);
    [discriminate | reflexivity | reflexivity | reflexivity
    | exact ManageJobsFacts.responsive_sample_env
    | exact ManageJobsFacts.board_job_ids
    | repeat (constructor; [simpl; intuition discriminate|]); constructor
    | exact board_applications_once
    | simpl; tauto | reflexivity | apply u_signed_in; reflexivity
    | left; reflexivity |].
  exists v, apps. split; [exact Hr | split; [exact Hn|]].
  destruct (Hown eq_refl) as [Hperm Hcards].
  destruct apps as [|x [|y r]];
    [apply Permutation_length in Hperm; discriminate Hperm
    | | apply Permutation_length in Hperm; discriminate Hperm].
  exists x. split; [reflexivity|].
  assert (Ha : av_application x =
               {| a_id := "a1"; a_job_id := "j3"; a_applicant_id := "u3";
                  a_message := None; a_education_qualification := None;
                  a_experience_details := None; a_creator_reply := None;
                  a_replied_at := None; a_created_at := 40 |}).
  { apply Permutation_length_1. exact Hperm. }
  split; [now rewrite Ha|].
  destruct (Hcards x (or_introl eq_refl)) as [Hcard _].
  apply (Hcard (person "u3" "cini" "9000000003")); [simpl; auto|].
  now rewrite Ha.
Defined.

(** The jobs of [u1]: the pending [j2] and the expired [j1]. *)
Lemma my_jobs_lists_own_jobs_witness :
  exists vs,
    fst (serve sample_env my_jobs_as_u1 world0) = ok (JobList vs) /\
    forall j, listed vs j <-> In j (jobs board) /\ j_creator_id j = "u1".
Proof.
  destruct (JobActionsFacts.my_jobs_lists_own_jobs sample_env my_jobs_as_u1 world0
              (request_body "my_jobs" Absent Absent Absent) "u1")
    as (vs & Hr & Hl & _);
    [discriminate | reflexivity | reflexivity | apply u_signed_in; reflexivity
    | exact ManageJobsFacts.responsive_sample_env |].
  exists vs. split; [exact Hr | exact Hl].
Defined.

(** The business of [u1] awaits approval: [u1] is no business owner. *)
Lemma business_owner_witness :
  exists t,
    fst (serve sample_env business_owner_as_u1 world1) = ok (BusinessOwner t) /\
    (t = true <->
     exists x, In x (businesses board_with_pending_business) /\
               b_owner_id x = "u1" /\ b_approval_status x = Some "approved").
Proof.
  destruct (JobActionsFacts.business_owner_means_approved_business sample_env
              business_owner_as_u1 world1
              (request_body "check_business_owner" Absent Absent Absent) "u1")
    as (t & Hr & Ht & _);
    [discriminate | reflexivity | reflexivity | apply u_signed_in; reflexivity
    | exact ManageJobsFacts.responsive_sample_env |].
  exists t. split; [exact Hr | exact Ht].
Defined.

(** [get] of an id that no job carries. *)
Lemma get_unknown_job_witness :
  fst (serve sample_env (get_anonymous "j9") world0) =
    error_response 500 (thrown_message (pg_error sample_env row_count_error)).
Proof.
  apply (ManageJobsFacts.get_unknown_job_is_500 sample_env (get_anonymous "j9")
           world0 (get_body "j9") "j9");
    [discriminate | reflexivity | reflexivity | reflexivity
    | exact ManageJobsFacts.responsive_sample_env |].
  intros j [<- | [<- | [<- | []]]]; simpl; discriminate.
Defined.

(** [u1] applies to [j3]: still one application per applicant and job. *)
Lemma apply_keeps_one_application_each_witness :
  NoDup (map (fun a => (a_job_id a, a_applicant_id a))
             (job_applications (db (snd (serve sample_env apply_j3_as_u1 world0))))).
Proof.
  apply (ManageJobsFacts.apply_keeps_one_application_each sample_env apply_j3_as_u1
           world0 apply_j3_body "u1");
    [discriminate | reflexivity | reflexivity | apply u_signed_in; reflexivity
    | exact ManageJobsFacts.responsive_sample_env | exact board_applications_once].
Defined.

End JobActionsExamples.

(** * mobile-auth: further properties *)

Module AuthFlowFacts.
Import MobileAuth.

Lemma same_outside_accounts_refl (s : Store) : same_outside_accounts s s.
Proof. repeat split. Qed.

Lemma same_outside_accounts_trans (s1 s2 s3 : Store) :
  same_outside_accounts s1 s2 -> same_outside_accounts s2 s3 ->
  same_outside_accounts s1 s3.
Proof.
  unfold same_outside_accounts. intros (A1 & A2 & A3 & A4 & A5)
    (B1 & B2 & B3 & B4 & B5). repeat split; congruence.
Qed.

#[export] Hint Resolve same_outside_accounts_refl same_outside_accounts_trans
  : keeps.

Section WithEnv.
Variable env : Env.

Lemma handle_action (req : Request) (w : World) (b : Body)
      (mobile pass : string) :
  configured env = true -> json req = Json b ->
  str_or_null (mobile_number b) = Some mobile ->
  str_or_null (password b) = Some pass ->
  (action b = Val "signup" -> handle env req w = signup env b mobile pass w) /\
  (action b = Val "signin" -> handle env req w = signin env mobile pass w).
Proof.
  intros Hc Hj Hmob Hp. unfold handle. rewrite Hc. cbn [negb].
  unfold bind. rewrite Hj. cbn [req_json ret].
  split; intros Ha; rewrite Ha, Hmob, Hp; reflexivity.
Qed.

Lemma serve_of_handle (req : Request) (w : World) (c : H Response) :
  method req <> "OPTIONS" -> handle env req w = c w ->
  serve env req w =
    match c w with
    | (Value r, w') => (r, w')
    | (Returned r, w') => (r, w')
    | (Threw e, w') => (on_error e, w')
    end.
Proof.
  intros Hm Hh. rewrite (MobileAuthFacts.mobile_auth_serve_post env req w Hm).
  now rewrite Hh.
Qed.

Lemma no_credentials (s : Store) (mobile : string) :
  (forall c, In c (user_credentials s) -> c_mobile_number c <> mobile) ->
  filter (fun c => c_mobile_number c =? mobile) (user_credentials s) = [].
Proof.
  intros H. apply filter_nil_iff. intros c Hc. apply String.eqb_neq. now apply H.
Qed.

Lemma in_usernames (s : Store) (n : string) :
  In n (usernames s) <-> exists p, In p (profiles s) /\ p_username p = Some n.
Proof.
  unfold usernames. rewrite in_flat_map. split.
  - intros (p & Hp & Hn). exists p. split; [exact Hp|].
    destruct (p_username p) as [m|]; simpl in Hn; [|contradiction].
    destruct Hn as [-> | []]. reflexivity.
  - intros (p & Hp & Hn). exists p. split; [exact Hp|]. rewrite Hn. now left.
Qed.

Lemma no_username (s : Store) (n : string) :
  ~ In n (usernames s) ->
  filter (fun p => match p_username p with
                   | Some m => m =? n
                   | None => false
                   end) (profiles s) = [].
Proof.
  intros H. apply filter_nil_iff. intros p Hp.
  destruct (p_username p) as [m|] eqn:E; [|reflexivity].
  apply String.eqb_neq. intros ->. apply H. apply in_usernames. now exists p.
Qed.

Lemma signup_run
      (req : Request) (w : World) (b : Body) (mobile pass full user : string) :
  method req <> "OPTIONS" -> configured env = true ->
  json req = Json b -> action b = Val "signup" ->
  str_or_null (mobile_number b) = Some mobile ->
  str_or_null (password b) = Some pass ->
  str_or_null (full_name b) = Some full ->
  str_or_null (username b) = Some user ->
  usernameRegex_test user = true -> responsive env ->
  (forall c, In c (user_credentials (db w)) -> c_mobile_number c <> mobile) ->
  ~ In (toLowerCase user) (usernames (db w)) ->
  let id := uuid_at env (2 + tick w) in
  let token := token_at env (4 + tick w) in
  let now := clock_at env (5 + tick w) in
  serve env req w =
    ({| status := 200; content_of := SignedUp id mobile full token |},
     {| db :=
          set_user_sessions
            (set_profiles
               (set_user_credentials (db w)
                  (user_credentials (db w) ++
                   [{| c_id := id; c_mobile_number := mobile;
                       c_password_hash := sha256_hex env pass |}]))
               (profiles (db w) ++ [new_profile id full mobile user b]))
            (user_sessions (db w) ++ [new_session id token now]);
        tick := 7 + tick w |}).
Proof.
  intros Hm Hc Hj Ha Hmob Hp Hfull Huser Hre Hresp Hfree Hname id token now.
  destruct (handle_action req w b mobile pass Hc Hj Hmob Hp) as [Hh _].
  rewrite (serve_of_handle req w _ Hm (Hh Ha)).
  unfold signup. rewrite Hfull, Huser, Hre. cbn [negb].
  cbv beta iota delta [bind select write insert call create_session
                       generateSessionToken date_now ret respond next].
  cbn [tick db]. rewrite ?Hresp. cbn [fst snd tick db].
  rewrite (no_credentials (db w) mobile Hfree). cbn [maybeSingle].
  rewrite ?Hresp. cbn [fst snd tick db].
  rewrite (no_username (db w) (toLowerCase user) Hname). cbn [maybeSingle].
  rewrite ?Hresp. cbn [fst snd tick db c_id].
  rewrite ?Hresp. cbn [fst snd tick db].
  unfold insert_profile, auto_assign_super_admin. cbn [new_profile p_email].
  reflexivity.
Qed.

(** X11.  What a signup creates.  For a well-formed signup request, a
    datastore that answers, a mobile number that no credentials row
    carries and a user name that, lower-cased, is not in use: the
    answer is 200 with the new id and the session token, and the run
    adds exactly one credentials row, holding the digest of the
    password and never the password, one profile with the same id, the
    full name, the mobile number, the lower-cased user name and the
    date of birth of the request ([null] when it has none), no avatar
    and no email, and one active session that expires thirty days
    after the clock reading; no role is granted. *)
Theorem signup_creates_account
        (req : Request) (w : World) (b : Body) (mobile pass full user : string) :
  method req <> "OPTIONS" -> configured env = true ->
  json req = Json b -> action b = Val "signup" ->
  str_or_null (mobile_number b) = Some mobile ->
  str_or_null (password b) = Some pass ->
  str_or_null (full_name b) = Some full ->
  str_or_null (username b) = Some user ->
  usernameRegex_test user = true -> responsive env ->
  (forall c, In c (user_credentials (db w)) -> c_mobile_number c <> mobile) ->
  ~ In (toLowerCase user) (usernames (db w)) ->
  let id := uuid_at env (2 + tick w) in
  let token := token_at env (4 + tick w) in
  let now := clock_at env (5 + tick w) in
  let s' := db (snd (serve env req w)) in
  fst (serve env req w) =
    {| status := 200; content_of := SignedUp id mobile full token |} /\
  user_credentials s' =
    (user_credentials (db w) ++
     [{| c_id := id; c_mobile_number := mobile;
         c_password_hash := sha256_hex env pass |}])%list /\
  (exists dob,
     value_or_null (date_of_birth b) dob /\
     profiles s' =
       (profiles (db w) ++
        [{| p_id := id; p_full_name := Some full;
            p_username := Some (toLowerCase user); p_avatar_url := None;
            p_mobile_number := Some mobile; p_email := None;
            p_date_of_birth := dob; p_is_online := false |}])%list) /\
  user_sessions s' =
    (user_sessions (db w) ++
     [{| s_user_id := id; s_session_token := token;
         s_expires_at := now + thirty_days; s_is_active := true |}])%list /\
  user_roles s' = user_roles (db w).
Proof.
  intros Hm Hc Hj Ha Hmob Hp Hfull Huser Hre Hresp Hfree Hname id token now.
  rewrite (signup_run req w b mobile pass full user
             Hm Hc Hj Ha Hmob Hp Hfull Huser Hre Hresp Hfree Hname).
  split; [reflexivity|]. split; [reflexivity|]. split; [|split; reflexivity].
  exists (str_or_null (date_of_birth b)).
  split; [apply str_or_null_spec | reflexivity].
Qed.

Lemma username_lookup (s : Store) (n : string) :
  NoDup (usernames s) ->
  let found := filter (fun p => match p_username p with
                                | Some m => m =? n
                                | None => false
                                end) (profiles s) in
  (found = [] /\ ~ In n (usernames s)) \/ exists p, found = [p].
Proof.
  unfold usernames. induction (profiles s) as [|p r IH]; simpl; intros Hnd.
  - left. split; [reflexivity | tauto].
  - destruct (p_username p) as [m|] eqn:E; simpl in *.
    + inversion Hnd as [|? ? Hnotin Hnd']; subst.
      destruct (String.eqb_spec m n) as [->|Hne].
      * right. exists p. f_equal.
        destruct (IH Hnd') as [[E0 _] | (q & Eq)]; [exact E0|].
        exfalso. apply Hnotin.
        assert (Hq : In q (filter (fun p => match p_username p with
                                             | Some m => m =? n
                                             | None => false
                                             end) r))
          by (rewrite Eq; now left).
        apply filter_In in Hq. destruct Hq as [Hq Hm].
        apply in_flat_map. exists q. split; [exact Hq|].
        destruct (p_username q) as [m'|]; [|discriminate].
        apply String.eqb_eq in Hm. subst m'. now left.
      * destruct (IH Hnd') as [[E0 Hn] | (q & Eq)].
        -- left. split; [exact E0 | intros [H | H]; [congruence | tauto]].
        -- right. now exists q.
    + exact (IH Hnd).
Qed.

Lemma usernames_app (s : Store) (l : list Profile) (p : Profile) :
  profiles s = (l ++ [p])%list ->
  usernames s =
    (flat_map (fun p => match p_username p with Some n => [n] | None => [] end) l ++
     match p_username p with Some n => [n] | None => [] end)%list.
Proof.
  intros E. unfold usernames. rewrite E, flat_map_app. simpl.
  now rewrite app_nil_r.
Qed.

(** X12.  Signup keeps accounts unique.  When the datastore answers and
    no two credentials rows share a mobile number and no two profiles a
    user name, the same holds after any signup request: the two
    lookups of the handler are what keeps a number or a name from
    being registered twice. *)
Theorem signup_keeps_accounts_unique (req : Request) (w : World) (b : Body) :
  method req <> "OPTIONS" -> json req = Json b -> action b = Val "signup" ->
  responsive env ->
  NoDup (map c_mobile_number (user_credentials (db w))) ->
  NoDup (usernames (db w)) ->
  NoDup (map c_mobile_number (user_credentials (db (snd (serve env req w))))) /\
  NoDup (usernames (db (snd (serve env req w)))).
Proof.
  intros Hm Hj Ha Hresp Hmob Hnames.
  remember (serve env req w) as res eqn:Hres.
  rewrite (MobileAuthFacts.mobile_auth_serve_post env req w Hm) in Hres.
  unfold handle in Hres. destruct (configured env); cbn [negb] in Hres;
    [|subst res; simpl; now split].
  unfold bind at 1 in Hres. rewrite Hj in Hres. cbn [req_json ret] in Hres.
  rewrite Ha in Hres. cbn [String.eqb Ascii.eqb Bool.eqb] in Hres.
  destruct (str_or_null (mobile_number b)) as [mobile|];
    [|subst res; simpl; now split].
  destruct (str_or_null (password b)) as [pass|]; [|subst res; simpl; now split].
  unfold signup in Hres.
  destruct (str_or_null (full_name b)) as [full|]; [|subst res; simpl; now split].
  destruct (str_or_null (username b)) as [user|]; [|subst res; simpl; now split].
  destruct (usernameRegex_test user); cbn [negb] in Hres;
    [|subst res; simpl; now split].
  cbv beta iota delta [bind select write insert call create_session
                       generateSessionToken date_now ret respond next] in Hres.
  cbn [tick db] in Hres. rewrite ?Hresp in Hres. cbn [fst snd tick db] in Hres.
  destruct (filter_unique c_mobile_number (fun c => c_mobile_number c =? mobile)
              mobile (user_credentials (db w))) as [E | (c & E & _)];
    [intros x; apply String.eqb_eq | exact Hmob | | rewrite E in Hres;
     subst res; simpl; now split].
  rewrite E in Hres. cbn [maybeSingle] in Hres. rewrite ?Hresp in Hres.
  cbn [fst snd tick db] in Hres.
  destruct (username_lookup (db w) (toLowerCase user) Hnames)
    as [[En Hfree] | (p & En)]; cbv zeta in En; rewrite En in Hres;
    cbn [maybeSingle] in Hres; [|subst res; simpl; now split].
  rewrite ?Hresp in Hres. cbn [fst snd tick db c_id] in Hres.
  rewrite ?Hresp in Hres. cbn [fst snd tick db] in Hres.
  unfold insert_profile, auto_assign_super_admin in Hres.
  cbn [new_profile p_email] in Hres. subst res.
  cbn [fst snd db user_credentials set_user_credentials set_user_sessions
       set_profiles].
  split.
  - rewrite map_app. apply NoDup_app; [exact Hmob | repeat constructor; intros [] |].
    intros m Hin [<- | []]. apply in_map_iff in Hin. destruct Hin as (c & Hc & Hin).
    apply filter_nil_iff with (x := c) in E; [|exact Hin].
    simpl in Hc. rewrite Hc, String.eqb_refl in E. discriminate.
  - erewrite usernames_app by reflexivity. cbn [p_username].
    apply NoDup_app; [exact Hnames | repeat constructor; intros [] |].
    intros n Hin [<- | []]. exact (Hfree Hin).
Qed.
(** X13.  A refused signin tells nothing.  For a signin request: when
    no credentials row with this mobile number holds the digest of the
    password -- the number is unknown, or the password is wrong -- the
    answer is the same 401 with the same message, after the same
    single call of the datastore, and nothing is written. *)
Theorem signin_refusal_tells_nothing
        (req : Request) (w : World) (b : Body) (mobile pass : string) :
  method req <> "OPTIONS" -> configured env = true ->
  json req = Json b -> action b = Val "signin" ->
  str_or_null (mobile_number b) = Some mobile ->
  str_or_null (password b) = Some pass ->
  (forall c, In c (user_credentials (db w)) -> c_mobile_number c = mobile ->
     verifyPassword env pass (c_password_hash c) = false) ->
  serve env req w =
    (error_response 401 "Invalid mobile number or password", next w (db w)).
Proof.
  intros Hm Hc Hj Ha Hmob Hp Hbad.
  destruct (handle_action req w b mobile pass Hc Hj Hmob Hp) as [_ Hh].
  rewrite (serve_of_handle req w _ Hm (Hh Ha)).
  unfold signin. cbv beta iota delta [bind select call respond].
  destruct (fault_at env (tick w)); [reflexivity|].
  destruct (filter (fun c => c_mobile_number c =? mobile) (user_credentials (db w)))
    as [|c [|c' r]] eqn:E; cbn [maybeSingle]; try reflexivity.
  assert (Hin : In c (filter (fun c => c_mobile_number c =? mobile)
                             (user_credentials (db w)))) by (rewrite E; now left).
  apply filter_In in Hin. destruct Hin as [Hin Hc']. apply String.eqb_eq in Hc'.
  rewrite (Hbad c Hin Hc'). reflexivity.
Qed.

Lemma signin_run (w : World) (mobile pass : string) (c : Credentials) :
  responsive env ->
  filter (fun c => c_mobile_number c =? mobile) (user_credentials (db w)) = [c] ->
  verifyPassword env pass (c_password_hash c) = true ->
  let token := token_at env (3 + tick w) in
  let now := clock_at env (4 + tick w) in
  signin env mobile pass w =
    (Value {| status := 200;
              content_of :=
                SignedIn (c_id c) mobile
                  (data_of (single (filter (fun p => p_id p =? c_id c)
                                           (profiles (db w)))))
                  token (roles_of (db w) (c_id c)) |},
     {| db := set_profiles
                (set_user_sessions (db w)
                   (user_sessions (db w) ++ [new_session (c_id c) token now]))
                (map (fun p => if p_id p =? c_id c then set_online p else p)
                     (profiles (db w)));
        tick := 7 + tick w |}).
Proof.
  intros Hresp E Hv token now. unfold signin.
  cbv beta iota delta [bind select write call create_session
                       generateSessionToken date_now ret respond next].
  cbn [tick db]. rewrite ?Hresp. cbn [fst snd tick db]. rewrite E.
  cbn [maybeSingle]. rewrite Hv. cbn [negb].
  rewrite ?Hresp. cbn [fst snd tick db]. rewrite ?Hresp. cbn [fst snd tick db].
  rewrite ?Hresp. cbn [fst snd tick db]. reflexivity.
Qed.

(** X14.  What a signin does.  For a signin request, a datastore that
    answers, mobile numbers that are unique among the credentials and a
    password whose digest is the stored one: the answer is 200 with the
    id of the account, its roles and a new token; a session for that
    token, expiring thirty days after the clock reading, is added, and
    every session that existed stays as it was -- signing in on one
    device signs no other device out; the profile of the account has
    [is_online] set and its other columns as they were, every other
    profile is as it was, and the credentials and the roles are
    untouched. *)
Theorem signin_adds_a_session
        (req : Request) (w : World) (b : Body) (mobile pass : string)
        (c : Credentials) :
  method req <> "OPTIONS" -> configured env = true ->
  json req = Json b -> action b = Val "signin" ->
  str_or_null (mobile_number b) = Some mobile ->
  str_or_null (password b) = Some pass ->
  responsive env ->
  NoDup (map c_mobile_number (user_credentials (db w))) ->
  In c (user_credentials (db w)) -> c_mobile_number c = mobile ->
  c_password_hash c = sha256_hex env pass ->
  let token := token_at env (3 + tick w) in
  let now := clock_at env (4 + tick w) in
  let s' := db (snd (serve env req w)) in
  (exists profile,
     fst (serve env req w) =
       {| status := 200;
          content_of :=
            SignedIn (c_id c) mobile profile token
                     (map r_role (filter (fun r => r_user_id r =? c_id c)
                                         (user_roles (db w)))) |}) /\
  user_sessions s' =
    (user_sessions (db w) ++
     [{| s_user_id := c_id c; s_session_token := token;
         s_expires_at := now + thirty_days; s_is_active := true |}])%list /\
  user_credentials s' = user_credentials (db w) /\
  profiles s' =
    map (fun p => if p_id p =? c_id c
                  then {| p_id := p_id p; p_full_name := p_full_name p;
                          p_username := p_username p;
                          p_avatar_url := p_avatar_url p;
                          p_mobile_number := p_mobile_number p;
                          p_email := p_email p;
                          p_date_of_birth := p_date_of_birth p;
                          p_is_online := true |}
                  else p)
        (profiles (db w)) /\
  user_roles s' = user_roles (db w).
Proof.
  intros Hm Hc Hj Ha Hmob Hp Hresp Hnd Hin Hcm Hhash token now.
  destruct (handle_action req w b mobile pass Hc Hj Hmob Hp) as [_ Hh].
  rewrite (serve_of_handle req w _ Hm (Hh Ha)).
  rewrite (signin_run w mobile pass c Hresp).
  - cbn [fst snd db]. split; [eexists; reflexivity|]. repeat split.
  - apply (filter_unique_in c_mobile_number _ mobile); try assumption.
    + intros y. apply String.eqb_eq.
    + now apply String.eqb_eq.
  - unfold verifyPassword, hashPassword. rewrite Hhash. apply String.eqb_refl.
Qed.

(** X15.  Signup, then signin.  After a signup for a free mobile number
    and a free user name that the datastore answers, a signin with the
    same mobile number is answered 200 with the id the signup returned
    when it brings a password with the same digest, and 401 when the
    digest differs. *)
Theorem signup_then_signin
        (req : Request) (w : World) (b : Body) (mobile pass full user : string)
        (req2 : Request) (b2 : Body) (pass2 : string) :
  method req <> "OPTIONS" -> configured env = true ->
  json req = Json b -> action b = Val "signup" ->
  str_or_null (mobile_number b) = Some mobile ->
  str_or_null (password b) = Some pass ->
  str_or_null (full_name b) = Some full ->
  str_or_null (username b) = Some user ->
  usernameRegex_test user = true -> responsive env ->
  (forall c, In c (user_credentials (db w)) -> c_mobile_number c <> mobile) ->
  ~ In (toLowerCase user) (usernames (db w)) ->
  method req2 <> "OPTIONS" -> json req2 = Json b2 -> action b2 = Val "signin" ->
  str_or_null (mobile_number b2) = Some mobile ->
  str_or_null (password b2) = Some pass2 ->
  let w1 := snd (serve env req w) in
  (sha256_hex env pass2 = sha256_hex env pass ->
   exists profile token roles,
     fst (serve env req2 w1) =
       {| status := 200;
          content_of := SignedIn (uuid_at env (2 + tick w)) mobile profile
                                 token roles |}) /\
  (sha256_hex env pass2 <> sha256_hex env pass ->
   fst (serve env req2 w1) =
     error_response 401 "Invalid mobile number or password").
Proof.
  intros Hm Hc Hj Ha Hmob Hp Hfull Huser Hre Hresp Hfree Hname
         Hm2 Hj2 Ha2 Hmob2 Hp2 w1.
  assert (Hcreds : user_credentials (db w1) =
            (user_credentials (db w) ++
             [{| c_id := uuid_at env (2 + tick w); c_mobile_number := mobile;
                 c_password_hash := sha256_hex env pass |}])%list).
  { unfold w1.
    now rewrite (signup_run req w b mobile pass full user
                   Hm Hc Hj Ha Hmob Hp Hfull Huser Hre Hresp Hfree Hname). }
  set (c := {| c_id := uuid_at env (2 + tick w); c_mobile_number := mobile;
               c_password_hash := sha256_hex env pass |}) in *.
  assert (E : filter (fun c => c_mobile_number c =? mobile)
                     (user_credentials (db w1)) = [c]).
  { rewrite Hcreds, filter_app, (no_credentials (db w) mobile Hfree).
    simpl. now rewrite String.eqb_refl. }
  destruct (handle_action req2 w1 b2 mobile pass2 Hc Hj2 Hmob2 Hp2) as [_ Hh].
  rewrite (serve_of_handle req2 w1 _ Hm2 (Hh Ha2)).
  split.
  - intros Hsame. rewrite (signin_run w1 mobile pass2 c Hresp E).
    + do 3 eexists. reflexivity.
    + unfold verifyPassword, hashPassword. simpl. rewrite Hsame.
      apply String.eqb_refl.
  - intros Hdiff. unfold signin. cbv beta iota delta [bind select call respond].
    rewrite Hresp, E. cbn [maybeSingle].
    unfold verifyPassword, hashPassword. cbn [c c_password_hash].
    apply String.eqb_neq in Hdiff. rewrite Hdiff. reflexivity.
Qed.
Lemma handle_admin_validate (req : Request) (w : World) (b : Body) :
  configured env = true -> json req = Json b -> action b = Val "admin_validate" ->
  handle env req w = admin_validate env b w.
Proof.
  intros Hc Hj Ha. unfold handle. rewrite Hc. cbn [negb].
  unfold bind. rewrite Hj. cbn [req_json ret]. now rewrite Ha.
Qed.

(** X16.  [admin_validate] asks for a live session, not for a role.  For
    a token that one active session [x] carries (tokens being unique)
    and that has not expired at the clock reading, a user with a
    profile [p] (profile ids being unique) and a datastore that
    answers: the answer is 200 with the profile and the roles of the
    user, whatever they are -- an empty list for a user without any
    role; nothing is written. *)
Theorem admin_validate_needs_no_role
        (req : Request) (w : World) (b : Body) (t : string)
        (x : Session) (p : Profile) :
  method req <> "OPTIONS" -> configured env = true ->
  json req = Json b -> action b = Val "admin_validate" ->
  str_or_null (session_token b) = Some t -> responsive env ->
  NoDup (map s_session_token (user_sessions (db w))) ->
  In x (user_sessions (db w)) -> s_session_token x = t -> s_is_active x = true ->
  (clock_at env (S (tick w)) < s_expires_at x)%Z ->
  NoDup (map p_id (profiles (db w))) ->
  In p (profiles (db w)) -> p_id p = s_user_id x ->
  fst (serve env req w) =
    {| status := 200;
       content_of := AdminValidated p (roles_of (db w) (s_user_id x)) |} /\
  db (snd (serve env req w)) = db w.
Proof.
  intros Hm Hc Hj Ha Ht Hresp Hnd Hin Htok Hact Hlive Hndp Hp Hpid.
  rewrite (serve_of_handle req w _ Hm (handle_admin_validate req w b Hc Hj Ha)).
  unfold admin_validate. rewrite Ht.
  cbv beta iota delta [bind select call date_now ret respond next].
  cbn [tick db]. rewrite ?Hresp. cbn [fst snd tick db].
  rewrite (filter_unique_in s_session_token
             (fun y => (s_session_token y =? t) && s_is_active y) t
             (user_sessions (db w)) x);
    [| intros y Hy; apply andb_true_iff in Hy; now apply String.eqb_eq
     | exact Hnd | exact Hin | rewrite Htok, Hact, String.eqb_refl; reflexivity].
  cbn [maybeSingle].
  match goal with
  | |- context [if Z.leb ?a ?c then _ else _] =>
      replace (Z.leb a c) with false by (symmetry; apply Z.leb_gt; exact Hlive)
  end.
  rewrite ?Hresp. cbn [fst snd tick db].
  rewrite (filter_unique_in p_id (fun q => p_id q =? s_user_id x) (s_user_id x)
             (profiles (db w)) p);
    [| intros y; apply String.eqb_eq | exact Hndp | exact Hp
     | now apply String.eqb_eq].
  cbn [maybeSingle]. rewrite ?Hresp. cbn [fst snd tick db]. split; reflexivity.
Qed.

(** [admin_validate] refuses a token without a live session.  When
    every active session that carries the token has expired at the
    clock reading -- none carries it, or it was signed out, or its
    thirty days are over -- the answer is 401 and nothing is written,
    whatever the datastore answers. *)
Lemma admin_validate_refuses_dead_sessions
        (req : Request) (w : World) (b : Body) (t : string) :
  method req <> "OPTIONS" -> configured env = true ->
  json req = Json b -> action b = Val "admin_validate" ->
  str_or_null (session_token b) = Some t ->
  (forall x, In x (user_sessions (db w)) -> s_session_token x = t ->
     s_is_active x = true -> (s_expires_at x <= clock_at env (S (tick w)))%Z) ->
  fst (serve env req w) = error_response 401 "Invalid or expired session" /\
  db (snd (serve env req w)) = db w.
Proof.
  intros Hm Hc Hj Ha Ht Hdead.
  rewrite (serve_of_handle req w _ Hm (handle_admin_validate req w b Hc Hj Ha)).
  unfold admin_validate. rewrite Ht.
  cbv beta iota delta [bind select call date_now ret respond next].
  cbn [tick db].
  destruct (fault_at env (tick w)); [split; reflexivity|].
  destruct (filter (fun y => (s_session_token y =? t) && s_is_active y)
                   (user_sessions (db w))) as [|x [|x' r]] eqn:E;
    cbn [maybeSingle fst snd]; try (split; reflexivity).
  assert (Hin : In x (filter (fun y => (s_session_token y =? t) && s_is_active y)
                             (user_sessions (db w)))) by (rewrite E; now left).
  apply filter_In in Hin. destruct Hin as [Hin Hx].
  apply andb_true_iff in Hx. destruct Hx as [Htok Hact].
  apply String.eqb_eq in Htok. specialize (Hdead x Hin Htok Hact).
  apply Z.leb_le in Hdead.
  match goal with
  | |- context [if Z.leb ?a ?c then _ else _] =>
      replace (Z.leb a c) with true by (symmetry; exact Hdead)
  end.
  split; reflexivity.
Qed.

(** X17.  mobile-auth grants no role.  After any request to mobile-auth,
    with any answers of the datastore, the roles are what they were --
    the profile a signup inserts has no email, so the trigger on
    [profiles] assigns nothing -- and so are the jobs, the
    applications, the businesses and the posts. *)
Theorem mobile_auth_grants_no_role (req : Request) (w : World) :
  same_outside_accounts (db w) (db (snd (serve env req w))).
Proof.
  unfold serve. destruct (method req =? "OPTIONS");
    [apply same_outside_accounts_refl|].
  assert (Hk : keeps same_outside_accounts (handle env req)).
  { unfold handle, admin_validate, signup, signin, create_session.
    keeps_all;
      unfold same_outside_accounts, insert_profile, auto_assign_super_admin;
      simpl; repeat split. }
  specialize (Hk w). now destruct (handle env req w) as [[r|r|e] w'].
Qed.
End WithEnv.




End AuthFlowFacts.

(** ** The properties at work on the sample board *)

Module AuthFlowExamples.
Import MobileAuth Samples MoreSamples.

Lemma number_is_free :
  forall c, In c (user_credentials board) -> c_mobile_number c <> "9000000009".
Proof. intros c [<- | []]. discriminate. Defined.

Lemma name_is_free : ~ In (toLowerCase "Deepa_1") (usernames board).
Proof. simpl. intuition discriminate. Defined.

Lemma board_mobile_numbers : NoDup (map c_mobile_number (user_credentials board)).
Proof. repeat constructor. simpl. tauto. Defined.

Lemma board_usernames : NoDup (usernames board).
Proof.
  repeat (constructor; [simpl; intuition discriminate|]). constructor.
Defined.

Lemma board_tokens : NoDup (map s_session_token (user_sessions board)).
Proof.
  repeat (constructor; [simpl; intuition discriminate|]). constructor.
Defined.

Lemma board_profile_ids : NoDup (map p_id (profiles board)).
Proof.
  repeat (constructor; [simpl; intuition discriminate|]). constructor.
Defined.

(** Deepa signs up with a number and a name that are free. *)
Lemma signup_creates_account_witness :
  fst (serve sample_env (signup_request "9000000009" "Deepa_1") world0) =
    {| status := 200;
       content_of := SignedUp "c-generated" "9000000009" "Deepa" "4f1c9a" |} /\
  user_roles (db (snd (serve sample_env (signup_request "9000000009" "Deepa_1")
                         world0))) = user_roles board.
Proof.
  destruct (AuthFlowFacts.signup_creates_account sample_env
              (signup_request "9000000009" "Deepa_1") world0
              (signup_body "9000000009" "Deepa_1")
              "9000000009" "secret" "Deepa" "Deepa_1")
    as (Hr & _ & _ & _ & Hroles);
    [discriminate | reflexivity | reflexivity | reflexivity | reflexivity
    | reflexivity | reflexivity | reflexivity | reflexivity
    | exact ManageJobsFacts.responsive_sample_env | exact number_is_free | exact name_is_free |].
  split; [exact Hr | exact Hroles].
Defined.

Lemma signup_keeps_accounts_unique_witness :
  NoDup (map c_mobile_number
             (user_credentials
                (db (snd (serve sample_env (signup_request "9000000009" "Deepa_1")
                            world0))))) /\
  NoDup (usernames
           (db (snd (serve sample_env (signup_request "9000000009" "Deepa_1")
                       world0)))).
Proof.
  apply (AuthFlowFacts.signup_keeps_accounts_unique sample_env
           (signup_request "9000000009" "Deepa_1") world0
           (signup_body "9000000009" "Deepa_1"));
    [discriminate | reflexivity | reflexivity | exact ManageJobsFacts.responsive_sample_env
    | exact board_mobile_numbers | exact board_usernames].
Defined.

(** A wrong password for the number of [u1]. *)
Lemma signin_refusal_witness :
  serve sample_env (signin_request "9000000001" "guess") world0 =
    (error_response 401 "Invalid mobile number or password", next world0 board).
Proof.
  apply (AuthFlowFacts.signin_refusal_tells_nothing sample_env
           (signin_request "9000000001" "guess") world0
           (auth_body "signin" (Val "9000000001") (Val "guess") Absent)
           "9000000001" "guess");
    [discriminate | reflexivity | reflexivity | reflexivity | reflexivity
    | reflexivity |].
  intros c [<- | []] _. reflexivity.
Defined.

(** [u1] signs in: the two sessions of the board stay. *)
Lemma signin_adds_a_session_witness :
  user_sessions (db (snd (serve sample_env (signin_request "9000000001" "secret")
                            world0))) =
    (user_sessions board ++
     [{| s_user_id := "u1"; s_session_token := "4f1c9a";
         s_expires_at := 1004 + thirty_days; s_is_active := true |}])%list.
Proof.
  destruct (AuthFlowFacts.signin_adds_a_session sample_env
              (signin_request "9000000001" "secret") world0
              (auth_body "signin" (Val "9000000001") (Val "secret") Absent)
              "9000000001" "secret"
              {| c_id := "u1"; c_mobile_number := "9000000001";
                 c_password_hash := "sha256:secret" |})
    as (_ & Hs & _);
    [discriminate | reflexivity | reflexivity | reflexivity | reflexivity
    | reflexivity | exact ManageJobsFacts.responsive_sample_env | exact board_mobile_numbers
    | simpl; tauto | reflexivity | reflexivity |].
  exact Hs.
Defined.

(** Deepa signs up and then signs in with the same password. *)
Lemma signup_then_signin_witness :
  exists profile token roles,
    fst (serve sample_env (signin_request "9000000009" "secret")
           (snd (serve sample_env (signup_request "9000000009" "Deepa_1") world0))) =
      {| status := 200;
         content_of := SignedIn "c-generated" "9000000009" profile token roles |}.
Proof.
  destruct (AuthFlowFacts.signup_then_signin sample_env
              (signup_request "9000000009" "Deepa_1") world0
              (signup_body "9000000009" "Deepa_1")
              "9000000009" "secret" "Deepa" "Deepa_1"
              (signin_request "9000000009" "secret")
              (auth_body "signin" (Val "9000000009") (Val "secret") Absent)
              "secret")
    as [Hok _];
    [discriminate | reflexivity | reflexivity | reflexivity | reflexivity
    | reflexivity | reflexivity | reflexivity | reflexivity
    | exact ManageJobsFacts.responsive_sample_env | exact number_is_free | exact name_is_free
    | discriminate | reflexivity | reflexivity | reflexivity | reflexivity |].
  exact (Hok eq_refl).
Defined.

(** [u1], who holds no role, validates the token of the board. *)
Lemma admin_validate_needs_no_role_witness :
  fst (serve sample_env (validate_request "t-u1") world0) =
    {| status := 200;
       content_of := AdminValidated (person "u1" "anu" "9000000001") [] |}.
Proof.
  destruct (AuthFlowFacts.admin_validate_needs_no_role sample_env
              (validate_request "t-u1") world0
              (auth_body "admin_validate" Absent Absent (Val "t-u1")) "t-u1"
              {| s_user_id := "u1"; s_session_token := "t-u1";
                 s_expires_at := 5000000; s_is_active := true |}
              (person "u1" "anu" "9000000001"))
    as [Hr _];
    [discriminate | reflexivity | reflexivity | reflexivity | reflexivity
    | exact ManageJobsFacts.responsive_sample_env | exact board_tokens | simpl; tauto | reflexivity
    | reflexivity | reflexivity | exact board_profile_ids | simpl; tauto
    | reflexivity |].
  exact Hr.
Defined.

(** A token that no session carries. *)
Lemma admin_validate_refuses_witness :
  fst (serve sample_env (validate_request "t-u9") world0) =
    error_response 401 "Invalid or expired session".
Proof.
  destruct (AuthFlowFacts.admin_validate_refuses_dead_sessions sample_env
              (validate_request "t-u9") world0
              (auth_body "admin_validate" Absent Absent (Val "t-u9")) "t-u9")
    as [Hr _];
    [discriminate | reflexivity | reflexivity | reflexivity | reflexivity | |].
  - intros x [<- | [<- | []]]; discriminate.
  - exact Hr.
Defined.

End AuthFlowExamples.

(** * The trigger on profiles, create-post and create-business: further
    properties *)

Module PostingFacts.

(** X18.  The trigger on [profiles] assigns one role, once.  Inserting a
    profile adds the row and, when its email is the one the trigger
    names, the role [super_admin] for its id unless that row is there
    already; no other role row appears or disappears, and a table
    without duplicate rows stays so.  A profile with another email, or
    with none, gets no role. *)
Theorem trigger_assigns_super_admin_once (p : Profile) (s : Store) :
  profiles (insert_profile p s) = (profiles s ++ [p])%list /\
  (forall r, In r (user_roles (insert_profile p s)) <->
     In r (user_roles s) \/
     (p_email p = Some super_admin_email /\
      r = {| r_user_id := p_id p; r_role := "super_admin" |})) /\
  (NoDup (user_roles s) -> NoDup (user_roles (insert_profile p s))) /\
  user_credentials (insert_profile p s) = user_credentials s /\
  user_sessions (insert_profile p s) = user_sessions s.
Proof.
  unfold insert_profile, auto_assign_super_admin.
  destruct (p_email p) as [e|] eqn:Ee; cbn [p_email set_profiles profiles].
  - destruct (String.eqb_spec e super_admin_email) as [->|Hne].
    + cbn [user_roles set_profiles].
      destruct (existsb _ (user_roles s)) eqn:Ex.
      * cbn [profiles user_roles set_profiles user_credentials user_sessions].
        repeat split; try tauto.
        intros [H | [_ ->]]; [exact H|].
        apply existsb_exists in Ex. destruct Ex as (r & Hr & Hm).
        apply andb_true_iff in Hm. destruct Hm as [H1 H2].
        apply String.eqb_eq in H1, H2. destruct r as [ru rr]. simpl in *.
        now subst.
      * cbn [profiles user_roles user_credentials user_sessions].
        repeat split; try tauto.
        -- intros H. apply in_app_or in H. destruct H as [H | [<- | []]]; tauto.
        -- intros [H | [_ ->]]; apply in_or_app; [now left | right; now left].
        -- intros Hnd. apply NoDup_app; [exact Hnd | repeat constructor; intros [] |].
           intros r Hr [<- | []].
           assert (Ht : existsb (fun r => (r_user_id r =? p_id p) &&
                                          (r_role r =? "super_admin"))
                                (user_roles s) = true).
           { apply existsb_exists. eexists. split; [exact Hr|].
             simpl. now rewrite String.eqb_refl. }
           congruence.
    + cbn [profiles user_roles set_profiles user_credentials user_sessions].
      repeat split; try tauto. intros [H | [H _]]; [exact H | congruence].
  - cbn [profiles user_roles set_profiles user_credentials user_sessions].
    repeat split; try tauto. intros [H | [H _]]; [exact H | discriminate].
Qed.

Section WithEnv.
Variable env : Env.

(** X19.  create-post creates the profile before it looks at the post.
    For a body with a [user_id] that no profile carries and neither
    content nor image nor video, and a datastore that answers: the
    answer is 400, no post is inserted, and yet a profile with nothing
    but this id has been added to the table and stays there. *)
Theorem empty_post_leaves_a_profile
        (req : CreatePost.Request) (w : World) (b : CreatePost.Body) (u : uuid) :
  CreatePost.method req <> "OPTIONS" -> CreatePost.json req = Json b ->
  str_or_null (CreatePost.user_id b) = Some u ->
  str_or_null (CreatePost.content b) = None ->
  str_or_null (CreatePost.image_url b) = None ->
  str_or_null (CreatePost.youtube_url b) = None ->
  responsive env ->
  (forall p, In p (profiles (db w)) -> p_id p <> u) ->
  fst (CreatePost.serve env req w) =
    CreatePost.error_response 400 "Post must have content, image, or video" /\
  profiles (db (snd (CreatePost.serve env req w))) =
    (profiles (db w) ++ [bare_profile u])%list /\
  posts (db (snd (CreatePost.serve env req w))) = posts (db w) /\
  user_roles (db (snd (CreatePost.serve env req w))) = user_roles (db w).
Proof.
  intros Hm Hj Hu Hc Hi Hy Hresp Hno.
  unfold CreatePost.serve. apply String.eqb_neq in Hm. rewrite Hm.
  unfold CreatePost.handle.
  cbv beta iota delta [bind select write call ret respond next].
  rewrite Hj. cbn [req_json ret]. rewrite Hu, Hc, Hi, Hy. cbn [truthy_opt negb andb].
  rewrite ?Hresp. cbn [fst snd tick db].
  assert (E : filter (fun p => p_id p =? u) (profiles (db w)) = []).
  { apply filter_nil_iff. intros p Hp. apply String.eqb_neq. now apply Hno. }
  rewrite E. cbn [maybeSingle]. rewrite ?Hresp. cbn [fst snd tick db].
  unfold upsert_profile_id.
  assert (Ex : existsb (fun p => p_id p =? u) (profiles (db w)) = false).
  { destruct (existsb _ _) eqn:Ex; [|reflexivity].
    apply existsb_exists in Ex. destruct Ex as (p & Hp & Hid).
    apply String.eqb_eq in Hid. exfalso. exact (Hno p Hp Hid). }
  rewrite Ex. unfold insert_profile, auto_assign_super_admin. simpl.
  repeat split.
Qed.

(** X20.  create-business creates a business for an existing profile
    only, and never a profile.  After any request, with any answers of
    the datastore: the profiles are what they were, and either the
    businesses are too, or exactly one business has been appended,
    which has the [user_id] of the body for owner and the [name] of the
    body for name, awaits approval, and whose owner is the id of a
    profile of the table.  The category is ["other"] unless the body
    names one. *)
Theorem business_needs_a_profile (req : CreateBusiness.Request) (w : World) :
  profiles (db (snd (CreateBusiness.serve env req w))) = profiles (db w) /\
  (businesses (db (snd (CreateBusiness.serve env req w))) = businesses (db w) \/
   exists x b,
     CreateBusiness.json req = Json b /\
     businesses (db (snd (CreateBusiness.serve env req w))) =
       (businesses (db w) ++ [x])%list /\
     str_or_null (CreateBusiness.user_id b) = Some (b_owner_id x) /\
     str_or_null (CreateBusiness.name b) = Some (b_name x) /\
     b_approval_status x = Some "pending" /\
     (str_or_null (CreateBusiness.category b) = None -> b_category x = "other") /\
     exists p, In p (profiles (db w)) /\ p_id p = b_owner_id x).
Proof.
  unfold CreateBusiness.serve.
  destruct (CreateBusiness.method req =? "OPTIONS"); [split; [reflexivity | now left]|].
  unfold CreateBusiness.handle.
  destruct (CreateBusiness.json req) as [b|m]; cbn [req_json];
    [|split; [reflexivity | now left]].
  cbv beta iota delta [bind select insert call ret respond next].
  destruct (str_or_null (CreateBusiness.user_id b)) as [u|] eqn:Eu;
    [|split; [reflexivity | now left]].
  destruct (str_or_null (CreateBusiness.name b)) as [n|] eqn:En;
    [|split; [reflexivity | now left]].
  cbn [tick db].
  destruct (fault_at env (tick w)); [split; [reflexivity | now left]|].
  destruct (filter (fun p => p_id p =? u) (profiles (db w))) as [|p [|p' r]] eqn:E;
    cbn [maybeSingle fst snd tick db]; try (split; [reflexivity | now left]).
  destruct (fault_at env (S (tick w))); cbn [fst snd tick db];
    [split; [reflexivity | now left]|].
  split; [reflexivity|]. right.
  exists (CreateBusiness.new_business u n b (uuid_at env (S (tick w)))), b.
  cbn [businesses set_businesses CreateBusiness.new_business b_owner_id b_name
       b_approval_status b_category].
  repeat split; try assumption.
  - intros Hcat. now rewrite Hcat.
  - exists p.
    assert (Hin : In p (filter (fun p => p_id p =? u) (profiles (db w))))
      by (rewrite E; now left).
    apply filter_In in Hin. destruct Hin as [Hin Hid].
    apply String.eqb_eq in Hid. now split.
Qed.
End WithEnv.

End PostingFacts.

(** * manage-community: properties of the actions *)

Module CommunityFacts.
Import CommunityActions.

(** ** Steps *)

Lemma and_then_value {A B : Type} (c : C A) (k : A -> C B)
      (w w' : State) (a : A) :
  c w = (inl a, w') -> and_then c k w = k a w'.
Proof. intros H. unfold and_then. now rewrite H. Qed.

Lemma required_some (f : field string) (msg : string) (v : string) (w : State) :
  str_or_null f = Some v -> required f msg w = (inl v, w).
Proof. intros H. unfold required. now rewrite H. Qed.

Lemma created_by_lookup (t : Tables) (cid : uuid) (c : Community) :
  NoDup (map cm_id (communities t)) -> In c (communities t) -> cm_id c = cid ->
  created_by_of t cid = [cm_created_by c].
Proof.
  intros Hnd Hin Hid. unfold created_by_of.
  rewrite (filter_unique_in cm_id (fun x => cm_id x =? cid) cid (communities t) c);
    [reflexivity | intros y; apply String.eqb_eq | exact Hnd | exact Hin
    | now apply String.eqb_eq].
Qed.

Lemma permission_lookup (t : Tables) (cid u : uuid) (p : string) :
  NoDup (map permission_key (community_permissions t)) ->
  (permissions_of t cid u p = [] /\ ~ holds t cid u p) \/
  (exists x, permissions_of t cid u p = [x] /\ holds t cid u p).
Proof.
  intros Hnd. unfold permissions_of.
  destruct (filter_unique permission_key
              (fun x => (pm_community_id x =? cid) && (pm_user_id x =? u) &&
                        (pm_permission x =? p))
              (cid, u, p) (community_permissions t)) as [E | (x & E & Hin & Hk)].
  - intros x. unfold permission_key.
    rewrite !andb_true_iff, !String.eqb_eq. split.
    + intros [[-> ->] ->]. reflexivity.
    + intros H. injection H as -> -> ->. now repeat split.
  - exact Hnd.
  - left. split; [exact E|]. intros (x & Hin & Hk).
    apply filter_nil_iff with (x := x) in E; [|exact Hin].
    unfold permission_key in Hk. injection Hk as H1 H2 H3.
    rewrite H1, H2, H3, !String.eqb_refl in E. discriminate.
  - right. exists x. split; [exact E | now exists x].
Qed.

Lemma member_lookup (t : Tables) (cid u : uuid) :
  NoDup (map (fun m => (m_community_id m, m_user_id m)) (community_members t)) ->
  (memberships_of t cid u = [] /\ ~ is_member t cid u) \/
  (exists m, memberships_of t cid u = [m] /\ is_member t cid u).
Proof.
  intros Hnd. unfold memberships_of.
  destruct (filter_unique (fun m => (m_community_id m, m_user_id m))
              (fun m => (m_community_id m =? cid) && (m_user_id m =? u))
              (cid, u) (community_members t)) as [E | (m & E & Hin & Hk)].
  - intros m. rewrite andb_true_iff, !String.eqb_eq. split.
    + intros [-> ->]. reflexivity.
    + intros H. injection H as -> ->. now split.
  - exact Hnd.
  - left. split; [exact E|]. intros (m & Hin & H1 & H2).
    apply filter_nil_iff with (x := m) in E; [|exact Hin].
    rewrite H1, H2, !String.eqb_refl in E. discriminate.
  - right. exists m. split; [exact E|]. injection Hk as H1 H2. now exists m.
Qed.

Section WithEnv.
Variable env : Env.
Variable u : uuid.

Lemma holds_permission_run (cid : uuid) (p : string) (w : State) :
  fault_at env (calls w) = None ->
  NoDup (map permission_key (community_permissions (tables w))) ->
  exists h, holds_permission env u cid p w = (inl h, after w (tables w)) /\
            (h = true <-> holds (tables w) cid u p).
Proof.
  intros Hf Hnd. unfold holds_permission, and_then, fetch, ask, pure.
  rewrite Hf.
  destruct (permission_lookup (tables w) cid u p Hnd) as [[E Hno] | (x & E & Hyes)];
    rewrite E; cbn [maybeSingle row_of]; eexists; (split; [reflexivity|]).
  - split; [discriminate | tauto].
  - tauto.
Qed.

(** What [remove_member] comes to. *)
Lemma remove_member_run (b : Body) (w : State) (cid member : uuid)
        (c : Community) (owner : uuid) :
  action b = Val "remove_member" ->
  str_or_null (community_id b) = Some cid ->
  str_or_null (member_user_id b) = Some member ->
  responsive env ->
  NoDup (map cm_id (communities (tables w))) ->
  In c (communities (tables w)) -> cm_id c = cid -> cm_created_by c = Some owner ->
  NoDup (map permission_key (community_permissions (tables w))) ->
  let allowed := (u = owner \/ holds (tables w) cid u "manage_members") /\
                 member <> owner /\ member <> u in
  (allowed ->
   fst (run env u b w) = ok Success /\
   tables (snd (run env u b w)) = remove_membership cid member (tables w)) /\
  (~ allowed ->
   (status (fst (run env u b w)) = 403 \/ status (fst (run env u b w)) = 400) /\
   tables (snd (run env u b w)) = tables w).
Proof.
  intros Ha Hcid Hmem Hresp Hnd Hin Hid Hown Hperm allowed.
  remember (run env u b w) as res eqn:Hres.
  unfold run, actions in Hres. rewrite Ha in Hres.
  cbn [String.eqb Ascii.eqb Bool.eqb] in Hres. unfold remove_member in Hres.
  rewrite (and_then_value _ _ _ _ _ (required_some _ _ cid _ Hcid)) in Hres.
  rewrite (and_then_value _ _ _ _ _ (required_some _ _ member _ Hmem)) in Hres.
  unfold and_then at 1, fetch, ask in Hres. rewrite Hresp in Hres.
  cbv beta iota zeta in Hres.
  rewrite (created_by_lookup (tables w) cid c Hnd Hin Hid), Hown in Hres.
  cbn [maybeSingle row_of created_by_is] in Hres.
  destruct (String.eqb_spec owner u) as [Hou|Hou].
  - cbv beta iota delta [and_then pure stop modify ask finish after] in Hres.
    cbn [negb andb calls tables] in Hres. rewrite ?Hresp in Hres.
    destruct (String.eqb_spec owner member) as [Hom|Hom]; subst res;
      cbn [fst snd status error_response].
    + split; [intros (_ & Hne & _); congruence|].
      intros _. split; [right; reflexivity | reflexivity].
    + destruct (String.eqb_spec member u) as [Hmu|Hmu];
        cbn [fst snd status tables error_response].
      * split; [intros (_ & _ & Hne); congruence|].
        intros _. split; [right; reflexivity | reflexivity].
      * rewrite ?Hresp. split; [intros _; split; reflexivity|].
        intros Hn. exfalso. apply Hn. unfold allowed. repeat split; auto.
  - unfold and_then at 1 in Hres.
    destruct (holds_permission_run cid "manage_members" (after w (tables w))
                (Hresp _) Hperm) as (h & Hrun & Hh).
    cbv beta iota in Hres. rewrite Hrun in Hres.
    cbn [tables after] in Hh.
    cbv beta iota delta [and_then pure stop modify ask finish after] in Hres.
    cbn [negb andb calls tables] in Hres. destruct h.
    + cbn [negb] in Hres. rewrite ?Hresp in Hres.
      destruct (String.eqb_spec owner member) as [Hom|Hom]; subst res;
        cbn [fst snd status error_response].
      * split; [intros (_ & Hne & _); congruence|].
        intros _. split; [right; reflexivity | reflexivity].
      * destruct (String.eqb_spec member u) as [Hmu|Hmu];
          cbn [fst snd status tables error_response].
        -- split; [intros (_ & _ & Hne); congruence|].
           intros _. split; [right; reflexivity | reflexivity].
        -- rewrite ?Hresp. split; [intros _; split; reflexivity|].
           intros Hn. exfalso. apply Hn. unfold allowed.
           repeat split; auto. right. now apply Hh.
    + subst res. cbn [negb fst snd status tables error_response]. split.
      * intros ([Heq | Hholds] & _); [congruence|].
        apply Hh in Hholds. discriminate.
      * intros _. split; [left; reflexivity | reflexivity].
Qed.

(** X21.  Who may remove a member, and whom.  For a community [c] (ids
    being unique, and permission rows too) with creator [owner] and a
    datastore that answers, [remove_member] answers 200 exactly when
    the requester is the creator or holds [manage_members] in the
    community, and the named user is neither the creator nor the
    requester; the members table then holds the rows it held but
    those of the named user in this community, and the other tables
    are as they were.  In every other case the action answers 403 or
    400 and no table changes.  The creator can never be removed, and
    nobody removes themselves. *)
Theorem remove_member_rules (b : Body) (w : State) (cid member : uuid)
        (c : Community) (owner : uuid) :
  action b = Val "remove_member" ->
  str_or_null (community_id b) = Some cid ->
  str_or_null (member_user_id b) = Some member ->
  responsive env ->
  NoDup (map cm_id (communities (tables w))) ->
  In c (communities (tables w)) -> cm_id c = cid -> cm_created_by c = Some owner ->
  NoDup (map permission_key (community_permissions (tables w))) ->
  let allowed := (u = owner \/ holds (tables w) cid u "manage_members") /\
                 member <> owner /\ member <> u in
  (allowed ->
   fst (run env u b w) = ok Success /\
   (forall m, In m (community_members (tables (snd (run env u b w)))) <->
              In m (community_members (tables w)) /\
              ~ (m_community_id m = cid /\ m_user_id m = member)) /\
   communities (tables (snd (run env u b w))) = communities (tables w) /\
   community_discussions (tables (snd (run env u b w))) =
     community_discussions (tables w) /\
   community_permissions (tables (snd (run env u b w))) =
     community_permissions (tables w)) /\
  (~ allowed ->
   (status (fst (run env u b w)) = 403 \/ status (fst (run env u b w)) = 400) /\
   tables (snd (run env u b w)) = tables w).
Proof.
  intros Ha Hcid Hmem Hresp Hnd Hin Hid Hown Hperm allowed.
  destruct (remove_member_run b w cid member c owner Ha Hcid Hmem Hresp Hnd Hin
              Hid Hown Hperm) as [Hyes Hno].
  split; [|exact Hno].
  intros Hall. destruct (Hyes Hall) as [Hr Ht]. rewrite Ht.
  split; [exact Hr|]. unfold remove_membership.
  cbn [community_members communities community_discussions community_permissions
       set_community_members].
  split; [|repeat split].
  intros m. rewrite filter_In, negb_true_iff, andb_false_iff, !String.eqb_neq.
  split; [intros [Hm [H|H]]; (split; [exact Hm|]); intros [E1 E2]; contradiction|].
  intros [Hm Hne]. split; [exact Hm|].
  destruct (String.eqb_spec (m_community_id m) cid) as [E|E]; [|now left].
  right. intros E2. apply Hne. now split.
Qed.

Lemma not_created_by_single (t : Tables) (cid : uuid) :
  (forall c, In c (communities t) -> cm_id c = cid -> cm_created_by c <> Some u) ->
  created_by_is u (data_of (single (created_by_of t cid))) = false /\
  created_by_is u (row_of (maybeSingle (created_by_of t cid))) = false.
Proof.
  intros Hno. unfold created_by_of.
  destruct (filter (fun c => cm_id c =? cid) (communities t)) as [|c [|c' r]] eqn:E;
    cbn [map single maybeSingle data_of row_of created_by_is];
    try (split; reflexivity).
  assert (Hin : In c (filter (fun c => cm_id c =? cid) (communities t)))
    by (rewrite E; now left).
  apply filter_In in Hin. destruct Hin as [Hin Hid]. apply String.eqb_eq in Hid.
  specialize (Hno c Hin Hid). destruct (cm_created_by c) as [o|]; [|split; reflexivity].
  destruct (String.eqb_spec o u) as [->|]; [congruence | split; reflexivity].
Qed.

(** X22.  Four actions are the creator's alone.  [update], [delete],
    [grant_permission] and [revoke_permission] on a community that the
    requester did not create -- no community with this id has the
    requester for creator -- are answered 403, or 400 when the
    permission request is ill-formed, and change no table, whatever
    the datastore answers. *)
Theorem creator_only_actions (b : Body) (w : State) (a : string) (cid : uuid) :
  action b = Val a ->
  In a ["update"; "delete"; "grant_permission"; "revoke_permission"] ->
  str_or_null (community_id b) = Some cid ->
  (forall c, In c (communities (tables w)) -> cm_id c = cid ->
     cm_created_by c <> Some u) ->
  (status (fst (run env u b w)) = 403 \/ status (fst (run env u b w)) = 400) /\
  tables (snd (run env u b w)) = tables w.
Proof.
  intros Ha Hin Hcid Hno.
  destruct (not_created_by_single (tables w) cid Hno) as [Hs Hm].
  remember (run env u b w) as res eqn:Hres.
  unfold run, actions in Hres. rewrite Ha in Hres.
  simpl in Hin. destruct Hin as [<- | [<- | [<- | [<- | []]]]];
    cbn [String.eqb Ascii.eqb Bool.eqb] in Hres.
  - unfold update, verify_ownership in Hres.
    rewrite (and_then_value _ _ _ _ _ (required_some _ _ cid _ Hcid)) in Hres.
    cbv beta iota delta [and_then fetch ask pure stop after] in Hres.
    destruct (fault_at env (calls w)); cbn [data_of created_by_is] in Hres;
      [|rewrite Hs in Hres]; subst res; split; try reflexivity; left; reflexivity.
  - unfold delete, verify_ownership in Hres.
    rewrite (and_then_value _ _ _ _ _ (required_some _ _ cid _ Hcid)) in Hres.
    cbv beta iota delta [and_then fetch ask pure stop after] in Hres.
    destruct (fault_at env (calls w)); cbn [data_of created_by_is] in Hres;
      [|rewrite Hs in Hres]; subst res; split; try reflexivity; left; reflexivity.
  - unfold grant_permission, permission_request in Hres. rewrite Hcid in Hres.
    destruct (str_or_null (target_user_id b)) as [target|];
      [|subst res; split; [right|]; reflexivity].
    destruct (str_or_null (permission b)) as [p|];
      [|subst res; split; [right|]; reflexivity].
    destruct (existsb (String.eqb p) validPermissions); cbn [negb] in Hres;
      [|subst res; split; [right|]; reflexivity].
    cbv beta iota delta [and_then fetch ask pure stop after] in Hres.
    destruct (fault_at env (calls w)); cbn [row_of created_by_is] in Hres;
      [|rewrite Hm in Hres]; subst res; split; try reflexivity; left; reflexivity.
  - unfold revoke_permission, permission_request in Hres. rewrite Hcid in Hres.
    destruct (str_or_null (target_user_id b)) as [target|];
      [|subst res; split; [right|]; reflexivity].
    destruct (str_or_null (permission b)) as [p|];
      [|subst res; split; [right|]; reflexivity].
    destruct (existsb (String.eqb p) validPermissions); cbn [negb] in Hres;
      [|subst res; split; [right|]; reflexivity].
    cbv beta iota delta [and_then fetch ask pure stop after] in Hres.
    destruct (fault_at env (calls w)); cbn [row_of created_by_is] in Hres;
      [|rewrite Hm in Hres]; subst res; split; try reflexivity; left; reflexivity.
Qed.

Lemma permission_request_run (b : Body) (w : State) (cid target : uuid)
      (p : string) (c : Community) :
  str_or_null (community_id b) = Some cid ->
  str_or_null (target_user_id b) = Some target ->
  str_or_null (permission b) = Some p -> In p validPermissions ->
  fault_at env (calls w) = None ->
  NoDup (map cm_id (communities (tables w))) ->
  In c (communities (tables w)) -> cm_id c = cid -> cm_created_by c = Some u ->
  permission_request env u b w = (inl (cid, target, p), after w (tables w)).
Proof.
  intros Hcid Htar Hp Hvalid Hf Hnd Hin Hid Hown.
  unfold permission_request. rewrite Hcid, Htar, Hp.
  assert (Hv : existsb (String.eqb p) validPermissions = true).
  { apply existsb_exists. exists p. split; [exact Hvalid | apply String.eqb_refl]. }
  rewrite Hv. cbn [negb]. unfold and_then, fetch, ask. rewrite Hf.
  rewrite (created_by_lookup (tables w) cid c Hnd Hin Hid), Hown.
  cbn [maybeSingle row_of created_by_is]. now rewrite String.eqb_refl.
Qed.

(** X23.  Granting a permission, and granting it again.  For the creator
    of the community (ids being unique, memberships and permission rows
    too), a permission of the four the handler knows, a target who is
    a member and a datastore that answers: the answer is 200 and the
    target holds the permission afterwards, by exactly one row: a
    permission that was held already is not inserted a second time.
    Every row that was there stays, and a row that was not there is
    the one asked for, with the creator as [granted_by]. *)
Theorem grant_permission_once (b : Body) (w : State) (cid target : uuid)
        (p : string) (c : Community) :
  action b = Val "grant_permission" ->
  str_or_null (community_id b) = Some cid ->
  str_or_null (target_user_id b) = Some target ->
  str_or_null (permission b) = Some p -> In p validPermissions ->
  responsive env ->
  NoDup (map cm_id (communities (tables w))) ->
  In c (communities (tables w)) -> cm_id c = cid -> cm_created_by c = Some u ->
  NoDup (map (fun m => (m_community_id m, m_user_id m))
             (community_members (tables w))) ->
  is_member (tables w) cid target ->
  NoDup (map permission_key (community_permissions (tables w))) ->
  let t' := tables (snd (run env u b w)) in
  status (fst (run env u b w)) = 200 /\
  holds t' cid target p /\
  NoDup (map permission_key (community_permissions t')) /\
  (forall x, In x (community_permissions (tables w)) ->
             In x (community_permissions t')) /\
  (forall x, In x (community_permissions t') ->
             In x (community_permissions (tables w)) \/
             (permission_key x = (cid, target, p) /\ pm_granted_by x = u)).
Proof.
  intros Ha Hcid Htar Hp Hvalid Hresp Hnd Hin Hid Hown Hmem Hism Hperm t'.
  remember (run env u b w) as res eqn:Hres.
  unfold run, actions in Hres. rewrite Ha in Hres.
  cbn [String.eqb Ascii.eqb Bool.eqb] in Hres. unfold grant_permission in Hres.
  rewrite (and_then_value _ _ _ _ _
             (permission_request_run b w cid target p c Hcid Htar Hp Hvalid
                (Hresp _) Hnd Hin Hid Hown)) in Hres.
  cbv beta iota delta [and_then fetch add ask pure stop finish after] in Hres.
  cbn [calls tables] in Hres. rewrite ?Hresp in Hres.
  destruct (member_lookup (tables w) cid target Hmem) as [[E Hno] | (m & E & _)];
    [contradiction|].
  rewrite E in Hres. cbn [maybeSingle row_of calls tables] in Hres.
  rewrite ?Hresp in Hres.
  destruct (permission_lookup (tables w) cid target p Hperm)
    as [[Ep Hnone] | (x & Ep & Hyes)];
    rewrite Ep in Hres; cbn [maybeSingle row_of calls tables] in Hres.
  - rewrite ?Hresp in Hres. subst res t'.
    cbn [fst snd status ok tables community_permissions set_community_permissions].
    split; [reflexivity|]. split; [|split; [|split]].
    + eexists. split; [apply in_or_app; right; now left | reflexivity].
    + rewrite map_app. apply NoDup_app; [exact Hperm | repeat constructor; intros [] |].
      intros k Hk [<- | []]. apply in_map_iff in Hk. destruct Hk as (x & Hkx & Hx).
      apply Hnone. now exists x.
    + intros x Hx. apply in_or_app. now left.
    + intros x Hx. apply in_app_or in Hx. destruct Hx as [Hx | [<- | []]];
        [now left | right; split; reflexivity].
  - subst res t'. cbn [fst snd status ok tables].
    split; [reflexivity|]. split; [exact Hyes|]. split; [exact Hperm|].
    split; [tauto | intros y Hy; now left].
Qed.

(** Revoking a permission.  For the creator of the community (ids
    being unique), a permission of the four the handler knows and a
    datastore that answers: the answer is 200, the target no longer
    holds the permission in the community, and every other permission
    row is still there. *)
Lemma revoke_permission_removes_it (b : Body) (w : State) (cid target : uuid)
        (p : string) (c : Community) :
  action b = Val "revoke_permission" ->
  str_or_null (community_id b) = Some cid ->
  str_or_null (target_user_id b) = Some target ->
  str_or_null (permission b) = Some p -> In p validPermissions ->
  responsive env ->
  NoDup (map cm_id (communities (tables w))) ->
  In c (communities (tables w)) -> cm_id c = cid -> cm_created_by c = Some u ->
  let t' := tables (snd (run env u b w)) in
  fst (run env u b w) = ok Success /\
  ~ holds t' cid target p /\
  (forall x, In x (community_permissions t') <->
             In x (community_permissions (tables w)) /\
             permission_key x <> (cid, target, p)).
Proof.
  intros Ha Hcid Htar Hp Hvalid Hresp Hnd Hin Hid Hown t'.
  remember (run env u b w) as res eqn:Hres.
  unfold run, actions in Hres. rewrite Ha in Hres.
  cbn [String.eqb Ascii.eqb Bool.eqb] in Hres. unfold revoke_permission in Hres.
  rewrite (and_then_value _ _ _ _ _
             (permission_request_run b w cid target p c Hcid Htar Hp Hvalid
                (Hresp _) Hnd Hin Hid Hown)) in Hres.
  cbv beta iota delta [and_then modify ask pure stop finish after] in Hres.
  cbn [calls tables] in Hres. rewrite ?Hresp in Hres. subst res t'.
  cbn [fst snd tables community_permissions set_community_permissions].
  assert (Hkey : forall x,
             negb ((pm_community_id x =? cid) && (pm_user_id x =? target) &&
                   (pm_permission x =? p)) = true <->
             permission_key x <> (cid, target, p)).
  { intros x. unfold permission_key. rewrite negb_true_iff.
    destruct (String.eqb_spec (pm_community_id x) cid) as [->|H1];
    destruct (String.eqb_spec (pm_user_id x) target) as [->|H2];
    destruct (String.eqb_spec (pm_permission x) p) as [->|H3]; simpl;
      split; try congruence; try discriminate; intros _ H; injection H; congruence. }
  split; [reflexivity|]. split.
  - intros (x & Hx & Hk). apply filter_In in Hx. destruct Hx as [_ Hx].
    apply Hkey in Hx. contradiction.
  - intros x. rewrite filter_In. now rewrite Hkey.
Qed.
(** X24.  Who may delete a discussion.  For a discussion [d] (ids being
    unique, those of the communities and the permission rows too) and a
    datastore that answers, [delete_discussion] answers 200 and deletes
    the discussion exactly when the requester wrote it, or created the
    community it belongs to, or holds [moderate_discussions] there; in
    every other case it answers 403 and no table changes. *)
Theorem delete_discussion_rules (b : Body) (w : State) (did : uuid)
        (d : Discussion) :
  action b = Val "delete_discussion" ->
  str_or_null (discussion_id b) = Some did ->
  responsive env ->
  NoDup (map d_id (community_discussions (tables w))) ->
  In d (community_discussions (tables w)) -> d_id d = did ->
  NoDup (map cm_id (communities (tables w))) ->
  NoDup (map permission_key (community_permissions (tables w))) ->
  let allowed :=
    d_user_id d = u \/
    (exists c, In c (communities (tables w)) /\ cm_id c = d_community_id d /\
               cm_created_by c = Some u) \/
    holds (tables w) (d_community_id d) u "moderate_discussions" in
  (allowed ->
   fst (run env u b w) = ok Success /\
   tables (snd (run env u b w)) =
     set_community_discussions (tables w)
       (filter (fun x => negb (d_id x =? did)) (community_discussions (tables w)))) /\
  (~ allowed ->
   fst (run env u b w) =
     error_response 403 "Not authorized to delete this discussion" /\
   tables (snd (run env u b w)) = tables w).
Proof.
  intros Ha Hdid Hresp Hnd Hin Hid Hcomm Hperm allowed.
  remember (run env u b w) as res eqn:Hres.
  unfold run, actions in Hres. rewrite Ha in Hres.
  cbn [String.eqb Ascii.eqb Bool.eqb] in Hres. unfold delete_discussion in Hres.
  rewrite (and_then_value _ _ _ _ _ (required_some _ _ did _ Hdid)) in Hres.
  cbv beta iota delta [and_then fetch ask modify pure stop finish
                       holds_permission after] in Hres.
  cbn [calls tables] in Hres. rewrite ?Hresp in Hres.
  rewrite (filter_unique_in d_id (fun x => d_id x =? did) did
             (community_discussions (tables w)) d) in Hres;
    [| intros y; apply String.eqb_eq | exact Hnd | exact Hin
     | now apply String.eqb_eq].
  cbn [maybeSingle] in Hres.
  destruct (String.eqb_spec (d_user_id d) u) as [Hau|Hau].
  { cbv beta iota in Hres. cbn [calls tables negb] in Hres. rewrite ?Hresp in Hres.
    subst res. cbn [fst snd tables].
    split; [intros _; split; reflexivity|].
    intros Hn. exfalso. apply Hn. now left. }
  cbv beta iota in Hres. cbn [calls tables negb] in Hres. rewrite ?Hresp in Hres.
  assert (Hcreator :
    created_by_is u (row_of (maybeSingle (created_by_of (tables w)
                                            (d_community_id d)))) = true <->
    exists c, In c (communities (tables w)) /\ cm_id c = d_community_id d /\
              cm_created_by c = Some u).
  { unfold created_by_of.
    destruct (filter_unique cm_id (fun c => cm_id c =? d_community_id d)
                (d_community_id d) (communities (tables w)))
      as [E | (c & E & Hc & Hcid)];
      [intros y; apply String.eqb_eq | exact Hcomm | |]; rewrite E;
      cbn [map maybeSingle row_of created_by_is].
    - split; [discriminate|]. intros (c & Hc & Hcid & _).
      apply filter_nil_iff with (x := c) in E; [|exact Hc].
      rewrite Hcid, String.eqb_refl in E. discriminate.
    - destruct (cm_created_by c) as [o|] eqn:Eo.
      + rewrite String.eqb_eq. split.
        * intros ->. now exists c.
        * intros (c' & Hc' & Hcid' & Hown').
          assert (Hc'' : In c' (filter (fun c => cm_id c =? d_community_id d)
                                       (communities (tables w))))
            by (apply filter_In; split; [exact Hc' | now apply String.eqb_eq]).
          rewrite E in Hc''. destruct Hc'' as [<- | []]. congruence.
      + split; [discriminate|]. intros (c' & Hc' & Hcid' & Hown').
        assert (Hc'' : In c' (filter (fun c => cm_id c =? d_community_id d)
                                     (communities (tables w))))
          by (apply filter_In; split; [exact Hc' | now apply String.eqb_eq]).
        rewrite E in Hc''. destruct Hc'' as [<- | []]. congruence. }
  destruct (created_by_is u _) eqn:Ecr.
  { cbv beta iota in Hres. cbn [calls tables negb] in Hres. rewrite ?Hresp in Hres.
    subst res. cbn [fst snd tables].
    split; [intros _; split; reflexivity|].
    intros Hn. exfalso. apply Hn. right. left. now apply Hcreator. }
  cbv beta iota in Hres. cbn [calls tables negb] in Hres. rewrite ?Hresp in Hres.
  destruct (permission_lookup (tables w) (d_community_id d) u
              "moderate_discussions" Hperm) as [[Ep Hno] | (x & Ep & Hyes)];
    rewrite Ep in Hres; cbn [maybeSingle row_of] in Hres;
    cbv beta iota in Hres; cbn [calls tables negb] in Hres;
    rewrite ?Hresp in Hres; subst res; cbn [fst snd tables].
  - split; [|intros _; split; reflexivity].
    intros [H | [H | H]]; [congruence | apply Hcreator in H; discriminate
                          | contradiction].
  - split; [intros _; split; reflexivity|].
    intros Hn. exfalso. apply Hn. right. now right.
Qed.
Lemma trim_call_content (f : field jtext) :
  text_with_content f ->
  exists t, f = Val (Str t) /\ trim t <> [] /\
            trim_call f = pure (Some (trim t)) /\
            or_null (Some (trim t)) = Some (trim t).
Proof.
  intros (t & -> & Hw). exists t.
  destruct (or_null_trim t) as [[E _] | (_ & Hne & E)]; [congruence|].
  repeat split; assumption.
Qed.

Lemma trim_call_text (f : field jtext) :
  text_or_nothing f ->
  exists o, trim_call f = pure o /\ trimmed_or_null f (or_null o) /\
            (forall t, f = Val (Str t) -> o = Some (trim t)) /\
            (f = Absent \/ f = Null -> o = None).
Proof.
  destruct f as [| |[t|r]]; simpl; intros H; try contradiction.
  - exists None. repeat split; try reflexivity; intros; discriminate.
  - exists None. repeat split; try reflexivity; intros; discriminate.
  - exists (Some (trim t)). split; [reflexivity|]. split; [|split].
    + unfold or_null. destruct (is_empty (trim t)); reflexivity.
    + intros t' E. now injection E as <-.
    + intros [E|E]; discriminate.
Qed.

(** X25.  What the creator's [update] writes.  For the creator of
    community [c] (ids being unique), a name and a description that
    are strings or nothing, and a datastore that answers: the answer
    is 200 and the row of [c] is replaced by a row with the same id,
    creator, approval status and creation time, and with [updated_at]
    the clock reading taken by the action.  Its description is the
    trimmed description of the body, or [null] when the body has none
    or a blank one; its cover image is the one of the body, or [null]
    when the body has none -- a body without them clears both --;
    its name is kept when the body has none and is otherwise the
    trimmed name of the body, even if that is empty.  No other
    community is touched. *)
Theorem update_community_by_creator (b : Body) (w : State) (cid : uuid)
        (c : Community) :
  action b = Val "update" -> str_or_null (community_id b) = Some cid ->
  responsive env ->
  NoDup (map cm_id (communities (tables w))) ->
  In c (communities (tables w)) -> cm_id c = cid -> cm_created_by c = Some u ->
  text_or_nothing (name b) -> text_or_nothing (description b) ->
  fst (run env u b w) = ok Success /\
  (exists c',
     tables (snd (run env u b w)) =
       set_communities (tables w)
         (map (fun x => if cm_id x =? cid then c' else x)
              (communities (tables w))) /\
     In c' (communities (tables (snd (run env u b w)))) /\
     cm_id c' = cid /\ cm_created_by c' = Some u /\
     cm_approval_status c' = cm_approval_status c /\
     cm_created_at c' = cm_created_at c /\
     cm_updated_at c' = clock_at env (S (calls w)) /\
     (forall t, name b = Val (Str t) -> cm_name c' = trim t) /\
     (name b = Absent \/ name b = Null -> cm_name c' = cm_name c) /\
     trimmed_or_null (description b) (cm_description c') /\
     value_or_null (cover_image_url b) (cm_cover_image_url c')) /\
  (forall x, In x (communities (tables w)) -> cm_id x <> cid ->
     In x (communities (tables (snd (run env u b w))))).
Proof.
  intros Ha Hcid Hresp Hnd Hin Hid Hown Hname Hdesc.
  destruct (trim_call_text (name b) Hname) as (n & En & _ & Hn1 & Hn2).
  destruct (trim_call_text (description b) Hdesc) as (d & Ed & Hd & _).
  assert (Hrows : forall f : Community -> Community,
             map (fun x => if cm_id x =? cid then f x else x)
                 (communities (tables w)) =
             map (fun x => if cm_id x =? cid then f c else x)
                 (communities (tables w))).
  { intros f. apply map_ext_in. intros x Hx.
    destruct (String.eqb_spec (cm_id x) cid) as [E|E]; [|reflexivity].
    f_equal. apply (unique_key cm_id (communities (tables w)) x c Hnd Hx Hin).
    congruence. }
  remember (run env u b w) as res eqn:Hres.
  unfold run, actions in Hres. rewrite Ha in Hres.
  cbn [String.eqb Ascii.eqb Bool.eqb] in Hres.
  unfold update, verify_ownership in Hres.
  rewrite (and_then_value _ _ _ _ _ (required_some _ _ cid _ Hcid)) in Hres.
  rewrite En, Ed in Hres.
  cbv beta iota delta [and_then fetch ask modify clock pure stop finish after]
    in Hres.
  cbn [calls tables] in Hres. rewrite ?Hresp in Hres.
  rewrite (created_by_lookup (tables w) cid c Hnd Hin Hid), Hown in Hres.
  cbn [single data_of created_by_is] in Hres. rewrite String.eqb_refl in Hres.
  cbv beta iota in Hres. cbn [calls tables] in Hres. rewrite ?Hresp in Hres.
  rewrite Hrows in Hres.
  subst res. cbn [fst snd tables communities set_communities].
  split; [reflexivity|]. split.
  - eexists. split; [reflexivity|].
    split; [apply in_map_iff; exists c; rewrite Hid, String.eqb_refl; now split|].
    unfold update_community.
    cbn [cm_id cm_created_by cm_approval_status cm_created_at cm_updated_at
         cm_name cm_description cm_cover_image_url].
    repeat (split; [first [assumption | reflexivity]|]).
    split; [intros t Et; now rewrite (Hn1 t Et)|].
    split; [intros Hno; now rewrite (Hn2 Hno)|].
    split; [exact Hd | apply str_or_null_spec].
  - intros x Hx Hne. apply in_map_iff. exists x.
    apply String.eqb_neq in Hne. rewrite Hne. now split.
Qed.

(** X26.  What [create] stores.  For a name that is a string and not
    blank, a description that is a string or nothing, and an insert
    that the datastore accepts: the answer is 200 with the new
    community, which is appended with the requester for creator, the
    trimmed name, the trimmed description ([null] when there is none
    or a blank one), the cover image of the body ([null] when there
    is none) and approval status ["pending"].  The requester is joined
    to it with role ["admin"] -- unless the datastore refuses that
    second insert: the refusal is only logged, the answer is still
    200, and the community is left without its creator as a member. *)
Theorem create_community_joins_creator (b : Body) (w : State) :
  action b = Val "create" ->
  text_with_content (name b) -> text_or_nothing (description b) ->
  fault_at env (calls w) = None ->
  exists c t,
    name b = Val (Str t) /\
    fst (run env u b w) = ok (Created c) /\
    communities (tables (snd (run env u b w))) =
      (communities (tables w) ++ [c])%list /\
    cm_id c = uuid_at env (calls w) /\
    cm_name c = trim t /\ cm_name c <> [] /\
    trimmed_or_null (description b) (cm_description c) /\
    value_or_null (cover_image_url b) (cm_cover_image_url c) /\
    cm_created_by c = Some u /\ cm_approval_status c = Some "pending" /\
    cm_created_at c = clock_at env (calls w) /\
    cm_updated_at c = clock_at env (calls w) /\
    (fault_at env (S (calls w)) = None ->
     community_members (tables (snd (run env u b w))) =
       (community_members (tables w) ++
        [{| m_id := uuid_at env (S (calls w));
            m_community_id := uuid_at env (calls w);
            m_user_id := u; m_role := "admin" |}])%list) /\
    (fault_at env (S (calls w)) <> None ->
     community_members (tables (snd (run env u b w))) =
       community_members (tables w)).
Proof.
  intros Ha Hname Hdesc Hf.
  destruct (trim_call_content (name b) Hname) as (t & Et & Nt & En & On).
  destruct (trim_call_text (description b) Hdesc) as (d & Ed & Hd & _).
  remember (run env u b w) as res eqn:Hres.
  unfold run, actions in Hres. rewrite Ha in Hres.
  cbn [String.eqb Ascii.eqb Bool.eqb] in Hres. unfold create in Hres.
  rewrite En in Hres. unfold and_then at 1, pure at 1 in Hres.
  rewrite On, Ed in Hres.
  cbv beta iota delta [and_then add ask pure stop after] in Hres.
  cbn [calls tables] in Hres. rewrite Hf in Hres. cbn [calls tables] in Hres.
  eexists. exists t. split; [exact Et|].
  destruct (fault_at env (S (calls w))) eqn:Hf2; subst res;
    cbn [fst snd tables communities community_members set_communities
         set_community_members];
    (split; [reflexivity|]); (split; [reflexivity|]);
    unfold new_community, new_member;
    cbn [cm_id cm_name cm_description cm_cover_image_url cm_created_by
         cm_approval_status cm_created_at cm_updated_at];
    (split; [reflexivity|]); (split; [reflexivity|]);
    (split; [exact Nt|]); (split; [exact Hd|]);
    (split; [apply str_or_null_spec|]);
    (split; [reflexivity|]); (split; [reflexivity|]);
    (split; [reflexivity|]); (split; [reflexivity|]);
    split; try reflexivity; try discriminate; intros H; congruence.
Qed.

(** ** What no action does *)

Lemma communities_from_refl (t : Tables) : communities_from u t t.
Proof. intros c Hc. left. now exists c. Qed.

Lemma communities_from_same (t t' : Tables) :
  communities t' = communities t -> communities_from u t t'.
Proof. intros E c Hc. left. exists c. rewrite <- E. now repeat split. Qed.

(** X27.  The approval status of a community is out of the reach of
    manage-community.  After any action, for any requester and with any
    answers of the datastore, each community of the table is a
    community that was there, with the id, the creator and the
    approval status it had, or a new one that awaits approval and has
    the requester for creator. *)
Theorem community_approval_is_out_of_reach (b : Body) (w : State) :
  communities_from u (tables w) (tables (snd (run env u b w))).
Proof.
  unfold run, actions.
  destruct (action b) as [| |a]; [apply communities_from_refl..|].
  repeat match goal with
  | |- context [if ?a =? ?s then _ else _] => destruct (a =? s)
  end;
  unfold create, update, delete, join, leave, delete_discussion, remove_member,
    grant_permission, revoke_permission, permission_request, verify_ownership,
    holds_permission, required, trim_call;
  cbv beta iota delta [and_then fetch add modify clock ask pure stop finish after];
  repeat match goal with
  | |- context [match ?x with _ => _ end] =>
      lazymatch x with
      | context [match _ with _ => _ end] => fail
      | _ => destruct x eqn:?
      end
  | |- context [if ?x then _ else _] =>
      lazymatch x with
      | context [if _ then _ else _] => fail
      | _ => destruct x eqn:?
      end
  end;
  cbn [fst snd tables];
  try apply communities_from_refl;
  try (apply communities_from_same; reflexivity);
  intros c' Hc'; cbn [communities set_communities set_community_members] in Hc'.
  all: first
    [ apply in_app_or in Hc'; destruct Hc' as [Hc' | [<- | []]];
      [left; now exists c' | right; split; reflexivity]
    | apply in_map_iff in Hc'; destruct Hc' as (c & <- & Hc); left; exists c;
      split; [exact Hc|]; now destruct (cm_id c =? _)
    | apply filter_In in Hc'; left; exists c'; now repeat split ].
Qed.
End WithEnv.




End CommunityFacts.

(** * admin-manage: properties of the gate *)

Module AdminGateFacts.
Import AdminManage.

Section WithEnv.
Variable env : Env.
Variables Body Result : Type.
Variable actions : uuid -> Body -> M (Response Result) Result.

(** X28.  admin-manage runs its actions for a holder of a role only.  If
    no session that carries the token of the request, is active and
    has not expired at the clock reading belongs to a user with a row
    in [user_roles] -- in particular if the request has no token --
    the answer is 401 or 403, the actions are not run and nothing is
    written, whatever the datastore answers. *)
Theorem admin_gate_requires_a_role (req : Request Body) (w : World) :
  method req <> "OPTIONS" ->
  (forall t x r, x_session_token req = Some t ->
     In x (user_sessions (db w)) ->
     ManageJobs.live_session t (clock_at env (tick w)) x = true ->
     In r (user_roles (db w)) -> r_user_id r <> s_user_id x) ->
  (status (fst (serve env actions req w)) = 401 \/
   status (fst (serve env actions req w)) = 403) /\
  db (snd (serve env actions req w)) = db w.
Proof.
  intros Hm Hno. unfold serve. apply String.eqb_neq in Hm. rewrite Hm.
  unfold handle.
  destruct (x_session_token req) as [t|]; [|split; [left|]; reflexivity].
  destruct (truthy t); cbn [negb]; [|split; [left|]; reflexivity].
  cbv beta iota delta [bind date_now select call respond next]. cbn [tick db].
  destruct (fault_at env (S (tick w))); [split; [left|]; reflexivity|].
  destruct (filter (ManageJobs.live_session t (clock_at env (tick w)))
                   (user_sessions (db w))) as [|x rest] eqn:E;
    cbn [firstn]; [split; [left|]; reflexivity|].
  cbn [tick db].
  destruct (fault_at env (S (S (tick w)))); [split; [right|]; reflexivity|].
  destruct (filter (fun r => r_user_id r =? s_user_id x) (user_roles (db w)))
    as [|r roles] eqn:Er; cbn [map]; [split; [right|]; reflexivity|].
  exfalso.
  assert (Hx : In x (filter (ManageJobs.live_session t (clock_at env (tick w)))
                            (user_sessions (db w)))) by (rewrite E; now left).
  assert (Hr : In r (filter (fun r => r_user_id r =? s_user_id x)
                            (user_roles (db w)))) by (rewrite Er; now left).
  apply filter_In in Hx, Hr. destruct Hx as [Hx Hlive], Hr as [Hr Hid].
  apply String.eqb_eq in Hid. exact (Hno t x r eq_refl Hx Hlive Hr Hid).
Qed.

(** X29.  Any role opens admin-manage, and a failure of an action is
    reported with its own message.  For a token that a live session
    [x] carries (tokens being unique), a user of that session with a
    row [r] in [user_roles] -- whatever [r_role r] is -- and a
    datastore that answers the gate: the actions run for the user of
    the session with the parsed body; their result is returned with
    status 200, and a thrown [Error] becomes a 500 that carries the
    message of the [Error]. *)
Theorem admin_gate_lets_any_role_through
        (req : Request Body) (w : World) (b : Body) (t : string)
        (x : Session) (r : UserRole) :
  method req <> "OPTIONS" -> json req = Json b ->
  x_session_token req = Some t -> truthy t = true ->
  fault_at env (S (tick w)) = None -> fault_at env (S (S (tick w))) = None ->
  NoDup (map s_session_token (user_sessions (db w))) ->
  In x (user_sessions (db w)) ->
  ManageJobs.live_session t (clock_at env (tick w)) x = true ->
  In r (user_roles (db w)) -> r_user_id r = s_user_id x ->
  serve env actions req w =
    match actions (s_user_id x) b {| db := db w; tick := 3 + tick w |} with
    | (Value result, w') => ({| status := 200; content_of := Result_ result |}, w')
    | (Returned resp, w') => (resp, w')
    | (Threw (ErrorInstance m), w') => (error_response 500 m, w')
    | (Threw NotAnError, w') => (error_response 500 "Unknown error", w')
    end.
Proof.
  intros Hm Hj Ht Htt Hf1 Hf2 Hnd Hin Hlive Hr Hid.
  unfold serve. apply String.eqb_neq in Hm. rewrite Hm.
  unfold handle. rewrite Ht, Htt. cbn [negb].
  cbv beta iota delta [bind date_now select call respond ret next]. cbn [tick db].
  rewrite Hf1.
  rewrite (filter_unique_in s_session_token
             (ManageJobs.live_session t (clock_at env (tick w))) t
             (user_sessions (db w)) x);
    [| | exact Hnd | exact Hin | exact Hlive].
  - cbn [firstn tick db]. rewrite Hf2.
    destruct (filter (fun r => r_user_id r =? s_user_id x) (user_roles (db w)))
      as [|r0 roles] eqn:Er.
    + apply filter_nil_iff with (x := r) in Er; [|exact Hr].
      rewrite Hid, String.eqb_refl in Er. discriminate.
    + cbn [map tick db]. rewrite Hj. cbn [req_json ret].
      destruct (actions (s_user_id x) b _) as [[res|resp|[m|]] w']; reflexivity.
  - intros y Hy. unfold ManageJobs.live_session in Hy.
    apply andb_true_iff in Hy. destruct Hy as [Hy _].
    apply andb_true_iff in Hy. destruct Hy as [Hy _]. now apply String.eqb_eq.
Qed.
End WithEnv.

End AdminGateFacts.

(** * The row-level policy on jobs: properties *)

Module PolicyFacts.
Import Policies.

(** X30.  The [list] action and the row-level policy agree.  For a
    requester without an admin role, the [SELECT] policy of the jobs
    table returns a job exactly when the [list] and [get] actions of
    manage-jobs show it: when the requester created it, or it is
    approved and open.  A job whose approval status is [NULL] is
    returned to its creator only; for an anonymous requester the
    comparison with [auth.uid()] is [NULL], which does not count as
    true.  A requester with an admin role is returned every job. *)
Theorem jobs_policy_matches_visible
        (auth_uid : option uuid) (has_any_admin_role : option uuid -> sql_bool)
        (j : Job) :
  auth_uid <> Some "" ->
  (passes (has_any_admin_role auth_uid) = false ->
   passes (jobs_select auth_uid has_any_admin_role j) = ManageJobs.visible auth_uid j) /\
  (passes (has_any_admin_role auth_uid) = true ->
   passes (jobs_select auth_uid has_any_admin_role j) = true).
Proof.
  intros Hne. unfold jobs_select, ManageJobs.visible, ManageJobs.approved_open,
    is_user, sql_eq.
  assert (Ht : forall u, auth_uid = Some u -> truthy u = true).
  { intros u Hu. unfold truthy. destruct (String.eqb_spec u "") as [E|];
      [|reflexivity].
    exfalso. apply Hne. now rewrite Hu, E. }
  destruct auth_uid as [u|]; [rewrite (Ht u eq_refl)|];
    destruct (has_any_admin_role _) as [[|]|];
    destruct (j_approval_status j) as [a|];
    try destruct (a =? "approved"); destruct (j_status j);
    try destruct (j_creator_id j =? u);
    simpl; split; intros H; try reflexivity; try discriminate.
Qed.

End PolicyFacts.

(** * The further properties at work on sample data *)

Module FurtherExamples.
Import Samples MoreSamples.

(** A post without content for [u9], who has no profile. *)
Lemma empty_post_leaves_a_profile_witness :
  fst (CreatePost.serve sample_env empty_post world0) =
    CreatePost.error_response 400 "Post must have content, image, or video" /\
  profiles (db (snd (CreatePost.serve sample_env empty_post world0))) =
    (profiles board ++ [bare_profile "u9"])%list.
Proof.
  destruct (PostingFacts.empty_post_leaves_a_profile sample_env empty_post world0
              {| CreatePost.user_id := Val "u9"; CreatePost.content := Val "";
                 CreatePost.image_url := Absent; CreatePost.youtube_url := Null |}
              "u9")
    as (Hr & Hp & _);
    [discriminate | reflexivity | reflexivity | reflexivity | reflexivity
    | reflexivity | exact ManageJobsFacts.responsive_sample_env | |].
  - intros p [<- | [<- | [<- | []]]]; discriminate.
  - split; [exact Hr | exact Hp].
Defined.

Lemma village_community_ids :
  NoDup (map CommunityActions.cm_id (CommunityActions.communities village)).
Proof. repeat constructor. simpl. tauto. Defined.

Lemma village_permission_keys :
  NoDup (map permission_key (CommunityActions.community_permissions village)).
Proof. repeat constructor. simpl. tauto. Defined.

Lemma village_memberships :
  NoDup (map (fun m => (CommunityActions.m_community_id m,
                        CommunityActions.m_user_id m))
             (CommunityActions.community_members village)).
Proof.
  repeat (constructor; [simpl; intuition discriminate|]). constructor.
Defined.

Lemma village_discussion_ids :
  NoDup (map CommunityActions.d_id (CommunityActions.community_discussions village)).
Proof. repeat constructor. simpl. tauto. Defined.

(** [u2], who holds [manage_members], removes [u3]. *)
Lemma remove_member_rules_witness :
  fst (CommunityActions.run sample_env "u2"
         (community_body "remove_member" (Val "k1") Absent Absent (Val "u3")
                         Absent Absent) village0) =
    CommunityActions.ok CommunityActions.Success.
Proof.
  destruct (CommunityFacts.remove_member_rules sample_env "u2"
              (community_body "remove_member" (Val "k1") Absent Absent (Val "u3")
                              Absent Absent)
              village0 "k1" "u3" weavers "u1")
    as [Hyes _];
    [reflexivity | reflexivity | reflexivity
    | exact ManageJobsFacts.responsive_sample_env | exact village_community_ids
    | simpl; tauto | reflexivity | reflexivity | exact village_permission_keys |].
  apply Hyes. split; [|split; discriminate].
  right. eexists. split; [left; reflexivity | reflexivity].
Defined.

(** [u2] may not delete the community of [u1]. *)
Lemma creator_only_actions_witness :
  CommunityActions.tables
    (snd (CommunityActions.run sample_env "u2"
            (community_body "delete" (Val "k1") Absent Absent Absent Absent Absent)
            village0)) = village.
Proof.
  apply (CommunityFacts.creator_only_actions sample_env "u2"
           (community_body "delete" (Val "k1") Absent Absent Absent Absent Absent)
           village0 "delete" "k1");
    [reflexivity | simpl; tauto | reflexivity |].
  intros c [<- | []] _. discriminate.
Defined.

(** [u1] lets [u3] moderate the discussions. *)
Lemma grant_permission_once_witness :
  holds (CommunityActions.tables
           (snd (CommunityActions.run sample_env "u1"
                   (community_body "grant_permission" (Val "k1") Absent Absent
                                   Absent (Val "u3") (Val "moderate_discussions"))
                   village0)))
        "k1" "u3" "moderate_discussions".
Proof.
  apply (CommunityFacts.grant_permission_once sample_env "u1"
           (community_body "grant_permission" (Val "k1") Absent Absent
                           Absent (Val "u3") (Val "moderate_discussions"))
           village0 "k1" "u3" "moderate_discussions" weavers);
    [reflexivity | reflexivity | reflexivity | reflexivity | simpl; tauto
    | exact ManageJobsFacts.responsive_sample_env | exact village_community_ids
    | simpl; tauto | reflexivity | reflexivity | exact village_memberships
    | | exact village_permission_keys].
  exists (member_of_k1 "m3" "u3" "member"). simpl. tauto.
Defined.

(** [u1], the creator of the community, deletes the discussion of [u3]. *)
Lemma delete_discussion_rules_witness :
  fst (CommunityActions.run sample_env "u1"
         (community_body "delete_discussion" Absent Absent (Val "d1") Absent
                         Absent Absent) village0) =
    CommunityActions.ok CommunityActions.Success.
Proof.
  destruct (CommunityFacts.delete_discussion_rules sample_env "u1"
              (community_body "delete_discussion" Absent Absent (Val "d1") Absent
                              Absent Absent)
              village0 "d1" first_discussion)
    as [Hyes _];
    [reflexivity | reflexivity | exact ManageJobsFacts.responsive_sample_env
    | exact village_discussion_ids | simpl; tauto | reflexivity
    | exact village_community_ids | exact village_permission_keys |].
  apply Hyes. right. left. exists weavers. simpl. tauto.
Defined.

(** [u1] sends an update without a description: it is cleared. *)
Lemma update_community_by_creator_witness :
  fst (CommunityActions.run sample_env "u1"
         (community_body "update" (Val "k1") Absent Absent Absent Absent Absent)
         village0) = CommunityActions.ok CommunityActions.Success /\
  exists c',
    In c' (CommunityActions.communities
             (CommunityActions.tables
                (snd (CommunityActions.run sample_env "u1"
                        (community_body "update" (Val "k1") Absent Absent Absent
                                        Absent Absent)
                        village0)))) /\
    CommunityActions.cm_id c' = "k1" /\
    CommunityActions.cm_description c' = None /\
    CommunityActions.cm_updated_at c' = clock_at sample_env 1.
Proof.
  destruct (CommunityFacts.update_community_by_creator sample_env "u1"
              (community_body "update" (Val "k1") Absent Absent Absent Absent Absent)
              village0 "k1" weavers)
    as (Hr & (c' & _ & Hin & Hid & _ & _ & _ & Hupd & _ & _ & Hd & _) & _);
    [reflexivity | reflexivity | exact ManageJobsFacts.responsive_sample_env
    | exact village_community_ids | simpl; tauto | reflexivity | reflexivity
    | exact I | exact I |].
  split; [exact Hr|]. exists c'.
  split; [exact Hin | split; [exact Hid | split; [exact Hd | exact Hupd]]].
Defined.

(** [u3] creates a community and is joined to it. *)
Lemma create_community_joins_creator_witness :
  exists c,
    fst (CommunityActions.run sample_env "u3"
           (community_body "create" Absent (Val (Str (text_of_string " Potters ")))
                           Absent Absent Absent Absent) village0) =
      CommunityActions.ok (CommunityActions.Created c) /\
    CommunityActions.cm_name c = text_of_string "Potters" /\
    CommunityActions.cm_approval_status c = Some "pending".
Proof.
  destruct (CommunityFacts.create_community_joins_creator sample_env "u3"
              (community_body "create" Absent (Val (Str (text_of_string " Potters ")))
                              Absent Absent Absent Absent) village0)
    as (c & t & Et & Hr & _ & _ & Hn & _ & _ & _ & _ & Hp & _);
    [reflexivity | eexists; split; reflexivity | exact I | reflexivity |].
  exists c. injection Et as <-.
  split; [exact Hr | split; [exact Hn | exact Hp]].
Defined.

(** [u1] holds no role: admin-manage answers 403. *)
Lemma admin_gate_requires_a_role_witness :
  db (snd (AdminManage.serve sample_env whoami
             (admin_request (Some "t-u1") "whoami") world0)) = board.
Proof.
  apply (AdminGateFacts.admin_gate_requires_a_role sample_env string string whoami
           (admin_request (Some "t-u1") "whoami") world0); [discriminate|].
  intros t x r Ht Hx Hlive Hr. injection Ht as <-.
  destruct Hr as [<- | []].
  destruct Hx as [<- | [<- | []]]; [discriminate | discriminate Hlive].
Defined.

(** [u2], a content moderator, is let through. *)
Lemma admin_gate_lets_any_role_through_witness :
  fst (AdminManage.serve sample_env whoami
         (admin_request (Some "t-u2") "delete") world0) =
    AdminManage.error_response 500 "Unknown action: delete".
Proof.
  rewrite (AdminGateFacts.admin_gate_lets_any_role_through sample_env string string
             whoami (admin_request (Some "t-u2") "delete") world0 "delete" "t-u2"
             {| s_user_id := "u2"; s_session_token := "t-u2";
                s_expires_at := 5000000; s_is_active := true |}
             {| r_user_id := "u2"; r_role := "content_moderator" |});
    [reflexivity | discriminate | reflexivity | reflexivity | reflexivity
    | reflexivity | reflexivity | exact AuthFlowExamples.board_tokens
    | simpl; tauto | reflexivity | simpl; tauto | reflexivity].
Defined.

(** An anonymous requester and the pending job [j2]. *)
Lemma jobs_policy_matches_visible_witness :
  Policies.passes
    (Policies.jobs_select None (fun _ => Some false)
       (job "j2" "u1" Open "pending" None None 20)) =
  ManageJobs.visible None (job "j2" "u1" Open "pending" None None 20).
Proof.
  apply (PolicyFacts.jobs_policy_matches_visible None (fun _ => Some false)
           (job "j2" "u1" Open "pending" None None 20));
    [discriminate | reflexivity].
Defined.

End FurtherExamples.
